(** * POS synchronisation backend: normaliser coercions, modifier flattening
      and the day-window sync endpoints

    A shallow embedding of
      - [services/iiko/iiko_parser.py]: [_parse_boolean], [_safe_get],
        [_extract_numeric_value], [_extract_fiscal_cheque_number],
        [IikoParser.parse_organizations], [IikoParser.parse_transactions],
        [IikoParser.parse_item_modifiers] and the other entry points of
        [IikoParser] that read plain fields;
      - [routers/iiko/sync.py]: the [sync_transactions] and [sync_sales]
        endpoints with their day-by-day loop, and the other handlers;
      - [services/transactions_and_statistics/statistics_service.py]:
        [format_currency], [calculate_change_percent], [get_period_dates].

    Python values are an inductive type, exceptions are an explicit result
    ([Returned] / [Raised]), and everything an endpoint talks to (the sync
    service, the cache, the index optimiser, the clock) is threaded through
    an explicit world state. *)

From Stdlib Require Import ZArith List String Ascii Bool Lia DecimalString.
From Stdlib Require Import Floats.SpecFloat.
From stdpp Require Import base option list gmap strings.
Import ListNotations.

Local Open Scope string_scope.
Local Open Scope Z_scope.

Set Warnings "-register-all".

(** ** Python values and exceptions *)

Module Py.

Inductive exn_class : Type :=
| ValueError | TypeError | AttributeError | OverflowError | RuntimeError.

(** An exception: its class and what [str(e)] gives. *)
Record exn : Type := Exn { exn_class_of : exn_class; exn_str : string }.

Inductive outcome (A : Type) : Type :=
| Returned (a : A)
| Raised (e : exn).
Arguments Returned {A} a.
Arguments Raised {A} e.

Definition bind {A B} (m : outcome A) (k : A -> outcome B) : outcome B :=
  match m with
  | Returned a => k a
  | Raised e => Raised e
  end.

Definition omap {A B} (f : A -> B) (m : outcome A) : outcome B :=
  bind m (fun a => Returned (f a)).

(** Apply [f] to the items in order; the first raise ends it. *)
Fixpoint traverse {A B} (f : A -> outcome B) (l : list A) : outcome (list B) :=
  match l with
  | [] => Returned []
  | x :: rest =>
      match f x with
      | Returned y => omap (cons y) (traverse f rest)
      | Raised e => Raised e
      end
  end.

Declare Scope py_scope.
Delimit Scope py_scope with py.
Notation "'let*' x ':=' m 'in' k" := (bind m (fun x => k))
  (at level 10, x pattern, m at level 100, k at level 200) : py_scope.
Local Open Scope py_scope.

(** [date] is the proleptic Gregorian ordinal ([date.toordinal()]); a
    [datetime] adds the microseconds since midnight and, for an aware value,
    the UTC offset in minutes. *)
Definition date : Type := Z.

Record datetime : Type := DateTime {
  dt_date : date;
  dt_micros : Z;
  dt_offset : option Z
}.

(** Binary64, as Python's [float]. *)
Definition float_prec : Z := 53.
Definition float_emax : Z := 1024.

(** Sets are kept in iteration order; dictionaries have text keys (decoded
    JSON objects) and keep insertion order, the first entry for a key being
    the live one.
    [PObject cls r] is a value of any other class [cls] whose [str] is [r]. *)
Inductive pyval : Type :=
| PNone
| PBool (b : bool)
| PInt (n : Z)
| PFloat (x : spec_float)
| PStr (s : string)
| PList (items : list pyval)
| PTuple (items : list pyval)
| PSet (items : list pyval)
| PDict (entries : list (string * pyval))
| PDateTime (t : datetime)
| PObject (cls : string) (r : string).

Definition type_name (v : pyval) : string :=
  match v with
  | PNone => "NoneType"
  | PBool _ => "bool"
  | PInt _ => "int"
  | PFloat _ => "float"
  | PStr _ => "str"
  | PList _ => "list"
  | PTuple _ => "tuple"
  | PSet _ => "set"
  | PDict _ => "dict"
  | PDateTime _ => "datetime.datetime"
  | PObject cls _ => cls
  end.

(** *** Text builtins

    Text is kept in UTF-8, as the source files and the vendor payloads are;
    [chars] cuts it into code points (a byte together with the continuation
    bytes that follow it). *)

Definition is_continuation (c : ascii) : bool :=
  let n := N_of_ascii c in ((128 <=? n) && (n <? 192))%N.

Definition starts_with_continuation (s : string) : bool :=
  match s with
  | EmptyString => false
  | String c _ => is_continuation c
  end.

Fixpoint chars (s : string) : list string :=
  match s with
  | EmptyString => []
  | String c r =>
      match chars r with
      | t :: ts =>
          if starts_with_continuation t then String c t :: ts
          else String c EmptyString :: t :: ts
      | [] => [String c EmptyString]
      end
  end.

(** The UTF-8 encoding of a code point below U+10000. *)
Definition utf8 (cp : N) : string :=
  let b (n : N) := ascii_of_N n in
  (if cp <? 128 then String (b cp) EmptyString
   else if cp <? 2048 then
     String (b (192 + cp / 64)) (String (b (128 + cp mod 64)) EmptyString)
   else
     String (b (224 + cp / 4096))
       (String (b (128 + (cp / 64) mod 64))
          (String (b (128 + cp mod 64)) EmptyString)))%N.

(** The code points [str.isspace] accepts, which are the ones [str.strip]
    removes. *)
Definition whitespace : list string :=
  map utf8
    [9; 10; 11; 12; 13; 28; 29; 30; 31; 32; 133; 160; 5760;
     8192; 8193; 8194; 8195; 8196; 8197; 8198; 8199; 8200; 8201; 8202;
     8232; 8233; 8239; 8287; 12288]%N.

Definition is_space (ch : string) : bool :=
  existsb (String.eqb ch) whitespace.

Fixpoint drop_spaces (l : list string) : list string :=
  match l with
  | [] => []
  | ch :: rest => if is_space ch then drop_spaces rest else l
  end.

(** [s.strip()] *)
Definition strip (s : string) : string :=
  String.concat "" (rev (drop_spaces (rev (drop_spaces (chars s))))).

(** [str.lower] as it acts on the letters A-Z. The source only compares a
    lowered text with the word "true"; no other code point lowers to one of
    its letters, so that comparison is decided by this action. *)
Definition lower_char (c : ascii) : ascii :=
  let n := N_of_ascii c in
  if ((65 <=? n) && (n <=? 90))%N then ascii_of_N (n + 32) else c.

Fixpoint lower (s : string) : string :=
  match s with
  | EmptyString => EmptyString
  | String c r => String (lower_char c) (lower r)
  end.

(** [sep.join(parts)] *)
Definition join (sep : string) (parts : list string) : string :=
  String.concat sep parts.

(** [str(n)] for an int. *)
Definition str_of_int (n : Z) : string := NilZero.string_of_int (Z.to_int n).

(** *** Numeric builtins *)

(** [float(n)] for an int: round to nearest even, [OverflowError] when the
    rounded value does not fit. *)
Definition float_of_int (n : Z) : outcome spec_float :=
  match binary_normalize float_prec float_emax n 0 false with
  | S754_infinity _ =>
      Raised (Exn OverflowError "int too large to convert to float")
  | x => Returned x
  end.

(** The float [m * 2 ^ e], rounded to nearest even: how a literal such as
    [12.5] is written here ([dyadic 25 (-1)]). *)
Definition dyadic (m e : Z) : spec_float :=
  binary_normalize float_prec float_emax m e false.

(** [x.is_integer()] *)
Definition is_integer (x : spec_float) : bool :=
  match x with
  | S754_zero _ => true
  | S754_infinity _ => false
  | S754_nan => false
  | S754_finite _ m e =>
      if 0 <=? e then true else Z.pos m mod 2 ^ (- e) =? 0
  end.

(** [int(x)] for a float: truncation towards zero. *)
Definition int_of_float (x : spec_float) : outcome Z :=
  match x with
  | S754_zero _ => Returned 0
  | S754_infinity _ =>
      Raised (Exn OverflowError "cannot convert float infinity to integer")
  | S754_nan =>
      Raised (Exn ValueError "cannot convert float NaN to integer")
  | S754_finite s m e =>
      let a := if 0 <=? e then Z.pos m * 2 ^ e else Z.pos m / 2 ^ (- e) in
      Returned (if s then - a else a)
  end.

(** [isinstance(v, (int, float))]: [bool] is a subclass of [int]. *)
Definition is_int_or_float (v : pyval) : bool :=
  match v with
  | PBool _ | PInt _ | PFloat _ => true
  | _ => false
  end.

Definition int_of_bool (b : bool) : Z := if b then 1 else 0.

(** [float(v)] for a number. *)
Definition py_float (v : pyval) : outcome spec_float :=
  match v with
  | PBool b => float_of_int (int_of_bool b)
  | PInt n => float_of_int n
  | PFloat x => Returned x
  | _ =>
      Raised (Exn TypeError
                ("float() argument must be a string or a real number, not '"
                 ++ type_name v ++ "'"))
  end.

(** [int(v)] for a number. *)
Definition py_int (v : pyval) : outcome Z :=
  match v with
  | PBool b => Returned (int_of_bool b)
  | PInt n => Returned n
  | PFloat x => int_of_float x
  | _ =>
      Raised (Exn TypeError
                ("int() argument must be a string, a bytes-like object or a "
                 ++ "real number, not '" ++ type_name v ++ "'"))
  end.

(** *** Containers *)

(** [d.get(key, default)] on the entries of a dictionary. *)
Fixpoint dict_get (entries : list (string * pyval)) (key : string)
    (default : pyval) : pyval :=
  match entries with
  | [] => default
  | (k, v) :: rest => if String.eqb k key then v else dict_get rest key default
  end.

(** [key in d] *)
Fixpoint dict_has (entries : list (string * pyval)) (key : string) : bool :=
  match entries with
  | [] => false
  | (k, _) :: rest => String.eqb k key || dict_has rest key
  end.

(** [v.get(key, default)]: only a dictionary has the method. *)
Definition get (v : pyval) (key : string) (default : pyval) : outcome pyval :=
  match v with
  | PDict entries => Returned (dict_get entries key default)
  | _ => Raised (Exn AttributeError
                   ("'" ++ type_name v ++ "' object has no attribute 'get'"))
  end.

(** [v == {}] *)
Definition eq_empty_dict (v : pyval) : bool :=
  match v with
  | PDict [] => true
  | _ => false
  end.

(** [bool(v)], the truth value used by [if v] and [not v]. *)
Definition truthy (v : pyval) : bool :=
  match v with
  | PNone => false
  | PBool b => b
  | PInt n => negb (n =? 0)
  | PFloat (S754_zero _) => false
  | PFloat _ => true
  | PStr s => negb (String.eqb s "")
  | PList l | PTuple l | PSet l => match l with [] => false | _ => true end
  | PDict l => match l with [] => false | _ => true end
  | PDateTime _ => true
  | PObject _ _ => true
  end.

(** [isinstance(v, dict)] *)
Definition is_dict (v : pyval) : bool :=
  match v with
  | PDict _ => true
  | _ => false
  end.

(** [isinstance(v, list)] *)
Definition is_list (v : pyval) : bool :=
  match v with
  | PList _ => true
  | _ => false
  end.

(** The items a [for] loop over [v] visits. *)
Definition iterate (v : pyval) : outcome (list pyval) :=
  match v with
  | PList l | PTuple l | PSet l => Returned l
  | PDict entries => Returned (map (fun kv => PStr (fst kv)) entries)
  | PStr s => Returned (map PStr (chars s))
  | _ => Raised (Exn TypeError
                   ("'" ++ type_name v ++ "' object is not iterable"))
  end.

(** Nesting depth of a value, the bound on how deep a walk over it recurses. *)
Fixpoint depth (v : pyval) : nat :=
  let fix depth_items (l : list pyval) : nat :=
    match l with
    | [] => 0%nat
    | x :: rest => Nat.max (depth x) (depth_items rest)
    end in
  let fix depth_entries (l : list (string * pyval)) : nat :=
    match l with
    | [] => 0%nat
    | (_, x) :: rest => Nat.max (depth x) (depth_entries rest)
    end in
  (match v with
   | PList l | PTuple l | PSet l => S (depth_items l)
   | PDict l => S (depth_entries l)
   | _ => 0
   end)%nat.

(** *** Dates *)

Definition date_min : date := 1.        (* date(1, 1, 1) *)
Definition date_max : date := 3652059.  (* date(9999, 12, 31) *)

Definition valid_date (d : date) : Prop := date_min <= d <= date_max.

(** [d + timedelta(days=n)] *)
Definition date_add_days (d : date) (n : Z) : outcome date :=
  if (date_min <=? d + n) && (d + n <=? date_max) then Returned (d + n)
  else Raised (Exn OverflowError "date value out of range").

(** [t + timedelta(days=n)] *)
Definition datetime_add_days (t : datetime) (n : Z) : outcome datetime :=
  let* d := date_add_days (dt_date t) n in
  Returned (DateTime d (dt_micros t) (dt_offset t)).

(** [datetime.combine(d, datetime.min.time())]: naive midnight of [d]. *)
Definition midnight (d : date) : datetime := DateTime d 0 None.

Definition is_leap (y : Z) : bool :=
  (y mod 4 =? 0) && (negb (y mod 100 =? 0) || (y mod 400 =? 0)).

Definition days_before_year (y : Z) : Z :=
  let y := y - 1 in y * 365 + y / 4 - y / 100 + y / 400.

Definition days_before_month (y m : Z) : Z :=
  nth (Z.to_nat m) [0; 0; 31; 59; 90; 120; 151; 181; 212; 243; 273; 304; 334] 0
  + (if (2 <? m) && is_leap y then 1 else 0).

(** [date(y, m, d).toordinal()] *)
Definition ymd (y m d : Z) : date :=
  days_before_year y + days_before_month y m + d.

(** [s.replace(old, new)] for a one-character [old]. *)
Fixpoint replace_char (old : ascii) (new : string) (s : string) : string :=
  match s with
  | EmptyString => EmptyString
  | String c r =>
      if Ascii.eqb c old then new ++ replace_char old new r
      else String c (replace_char old new r)
  end.

(** *** Effects

    Code that reads the clock or calls a collaborator runs against a state
    [S]; a raise keeps the state reached so far. *)
Definition io (S A : Type) : Type := S -> outcome A * S.

Definition ret {S A} (a : A) : io S A := fun s => (Returned a, s).

Definition lift {S A} (m : outcome A) : io S A := fun s => (m, s).

Definition iobind {S A B} (m : io S A) (k : A -> io S B) : io S B :=
  fun s =>
    match m s with
    | (Returned a, s') => k a s'
    | (Raised e, s') => (Raised e, s')
    end.

Notation "'let+' x ':=' m 'in' k" := (iobind m (fun x => k))
  (at level 10, x pattern, m at level 100, k at level 200) : py_scope.

(** The wall clock: the readings that successive [datetime.now()] calls will
    give. *)
Definition clock : Type := nat -> datetime.

Definition now : io clock datetime :=
  fun c => (Returned (c 0%nat), fun n => c (S n)).

End Py.

(** ** services/iiko/iiko_parser.py *)

Module Parser.
Import Py.
Local Open Scope py_scope.

(** [_parse_boolean(value)] *)
Definition _parse_boolean (value : pyval) : pyval :=
  match value with
  | PBool _ => value
  | PStr s => PBool (String.eqb (lower s) "true")
  | _ => PBool false
  end.

(** [_safe_get(data, key, default)]; the two-argument calls pass
    [default = None]. *)
Definition _safe_get (data : pyval) (key : string) (default : pyval)
    : outcome pyval :=
  let* value := get data key default in
  if eq_empty_dict value then Returned PNone else Returned value.

Section Host.

(** The interpreter's [float(text)]: [None] stands for its [ValueError]. *)
Variable float_of_str : string -> option spec_float.

(** The interpreter's [str(v)] for the values whose rendering is left to it:
    floats, containers, datetimes. *)
Variable repr : pyval -> string.

(** [str(v)] *)
Definition py_str (v : pyval) : string :=
  match v with
  | PNone => "None"
  | PBool b => if b then "True" else "False"
  | PInt n => str_of_int n
  | PStr s => s
  | PObject _ r => r
  | _ => repr v
  end.

(** The keys [_extract_numeric_value] tries on a dictionary, in order. *)
Definition numeric_keys : list string :=
  ["sum"; "value"; "amount"; "price"; "average"].

(** The [for key in [...]] loop of [_extract_numeric_value]. *)
Fixpoint first_numeric (value : list (string * pyval)) (keys : list string)
    : outcome pyval :=
  match keys with
  | [] => Returned PNone
  | key :: rest =>
      if dict_has value key && is_int_or_float (dict_get value key PNone)
      then omap PFloat (py_float (dict_get value key PNone))
      else first_numeric value rest
  end.

(** [_extract_numeric_value(value)] *)
Definition _extract_numeric_value (value : pyval) : outcome pyval :=
  match value with
  | PDict entries => first_numeric entries numeric_keys
  | PBool _ | PInt _ | PFloat _ => omap PFloat (py_float value)
  | PStr s =>
      match float_of_str s with
      | Some x => Returned (PFloat x)
      | None => Returned PNone
      end
  | _ => Returned PNone
  end.

(** [_extract_currency_sum(value)] *)
Definition _extract_currency_sum (value : pyval) : outcome pyval :=
  _extract_numeric_value value.

(** [str(int(v)) if float(v).is_integer() else str(v)] *)
Definition render_number (v : pyval) : outcome string :=
  let* x := py_float v in
  if is_integer x then let* n := py_int v in Returned (str_of_int n)
  else Returned (py_str v).

(** The [for item in value] loop of [_extract_fiscal_cheque_number], with
    the list [cleaned] it appends to. *)
Fixpoint clean_items (items : list pyval) (cleaned : list string)
    : outcome (list string) :=
  match items with
  | [] => Returned cleaned
  | item :: rest =>
      match item with
      | PNone => clean_items rest cleaned
      | _ =>
          if is_int_or_float item then
            let* s := render_number item in
            clean_items rest (cleaned ++ [s])
          else clean_items rest (cleaned ++ [strip (py_str item)])
      end
  end.

Definition join_cleaned (cleaned : list string) : pyval :=
  match cleaned with
  | [] => PNone
  | _ => PStr (join ", " cleaned)
  end.

(** [_extract_fiscal_cheque_number(value)] *)
Definition _extract_fiscal_cheque_number (value : pyval) : outcome pyval :=
  match value with
  | PNone => Returned PNone
  | PBool _ | PInt _ | PFloat _ => omap PStr (render_number value)
  | PStr s => Returned (PStr (strip s))
  | PList items | PTuple items | PSet items =>
      omap join_cleaned (clean_items items [])
  | _ => Returned (PStr (strip (py_str value)))
  end.

(** *** IikoParser.parse_transactions *)

(** How one field of the parsed record is read from the raw record:
    [transaction.get(key)], [_safe_get(transaction, key)] or
    [_extract_numeric_value(transaction.get(key))]. *)
Inductive rule : Type := Get | SafeGet | Numeric.

(** The dictionary display of [parse_transactions], entry by entry. *)
Definition transaction_fields : list (string * rule * string) := [
    ("iiko_id", SafeGet, "Id");
    ("order_id", SafeGet, "OrderId");
    ("order_num", Get, "OrderNum");
    ("document", Get, "Document");
    ("amount", Get, "Amount");
    ("sum_resigned", Numeric, "Sum.ResignedSum");
    ("sum_incoming", Numeric, "Sum.Incoming");
    ("sum_outgoing", Numeric, "Sum.Outgoing");
    ("sum_part_of_income", Numeric, "Sum.PartOfIncome");
    ("sum_part_of_total_income", Numeric, "Sum.PartOfTotalIncome");
    ("start_balance_money", Numeric, "StartBalance.Money");
    ("final_balance_money", Numeric, "FinalBalance.Money");
    ("start_balance_amount", Numeric, "StartBalance.Amount");
    ("final_balance_amount", Numeric, "FinalBalance.Amount");
    ("amount_in", Numeric, "Amount.In");
    ("amount_out", Numeric, "Amount.Out");
    ("contr_amount", Get, "Contr-Amount");
    ("transaction_type", Get, "TransactionType");
    ("transaction_type_code", SafeGet, "TransactionType.Code");
    ("transaction_side", Get, "TransactionSide");
    ("product_id", SafeGet, "Product.Id");
    ("product_name", Get, "Product.Name");
    ("product_num", Get, "Product.Num");
    ("product_category_id", SafeGet, "Product.Category.Id");
    ("product_category", Get, "Product.Category");
    ("product_type", Get, "Product.Type");
    ("product_measure_unit", Get, "Product.MeasureUnit");
    ("product_avg_sum", Numeric, "Product.AvgSum");
    ("product_cooking_place_type", Get, "Product.CookingPlaceType");
    ("product_accounting_category", Get, "Product.AccountingCategory");
    ("product_top_parent", Get, "Product.TopParent");
    ("product_second_parent", Get, "Product.SecondParent");
    ("product_third_parent", Get, "Product.ThirdParent");
    ("product_hierarchy", Get, "Product.Hierarchy");
    ("product_tag_id", SafeGet, "Product.Tag.Id");
    ("product_tag_name", Get, "Product.Tag.Name");
    ("product_tags_ids_combo", Get, "Product.Tags.IdsCombo");
    ("product_tags_names_combo", Get, "Product.Tags.NamesCombo");
    ("product_alcohol_class", Get, "Product.AlcoholClass");
    ("product_alcohol_class_code", SafeGet, "Product.AlcoholClass.Code");
    ("product_alcohol_class_group", Get, "Product.AlcoholClass.Group");
    ("product_alcohol_class_type", Get, "Product.AlcoholClass.Type");
    ("contr_product_id", SafeGet, "Contr-Product.Id");
    ("contr_product_name", Get, "Contr-Product.Name");
    ("contr_product_num", Get, "Contr-Product.Num");
    ("contr_product_category_id", SafeGet, "Contr-Product.Category.Id");
    ("contr_product_category", Get, "Contr-Product.Category");
    ("contr_product_type", Get, "Contr-Product.Type");
    ("contr_product_measure_unit", Get, "Contr-Product.MeasureUnit");
    ("contr_product_accounting_category", Get, "Contr-Product.AccountingCategory");
    ("contr_product_top_parent", Get, "Contr-Product.TopParent");
    ("contr_product_second_parent", Get, "Contr-Product.SecondParent");
    ("contr_product_third_parent", Get, "Contr-Product.ThirdParent");
    ("contr_product_hierarchy", Get, "Contr-Product.Hierarchy");
    ("contr_product_tags_ids_combo", Get, "Contr-Product.Tags.IdsCombo");
    ("contr_product_tags_names_combo", Get, "Contr-Product.Tags.NamesCombo");
    ("contr_product_alcohol_class", Get, "Contr-Product.AlcoholClass");
    ("contr_product_alcohol_class_code", SafeGet, "Contr-Product.AlcoholClass.Code");
    ("contr_product_alcohol_class_group", Get, "Contr-Product.AlcoholClass.Group");
    ("contr_product_alcohol_class_type", Get, "Contr-Product.AlcoholClass.Type");
    ("contr_product_cooking_place_type", Get, "Contr-Product.CookingPlaceType");
    ("account_id", SafeGet, "Account.Id");
    ("account_name", Get, "Account.Name");
    ("account_code", SafeGet, "Account.Code");
    ("account_type", Get, "Account.Type");
    ("account_group", Get, "Account.Group");
    ("account_store_or_account", Get, "Account.StoreOrAccount");
    ("account_counteragent_type", Get, "Account.CounteragentType");
    ("account_is_cash_flow_account", Get, "Account.IsCashFlowAccount");
    ("account_hierarchy_top", Get, "Account.AccountHierarchyTop");
    ("account_hierarchy_second", Get, "Account.AccountHierarchySecond");
    ("account_hierarchy_third", Get, "Account.AccountHierarchyThird");
    ("account_hierarchy_full", Get, "Account.AccountHierarchyFull");
    ("contr_account_name", Get, "Contr-Account.Name");
    ("contr_account_code", SafeGet, "Contr-Account.Code");
    ("contr_account_type", Get, "Contr-Account.Type");
    ("contr_account_group", Get, "Contr-Account.Group");
    ("counteragent_id", SafeGet, "Counteragent.Id");
    ("counteragent_name", Get, "Counteragent.Name");
    ("department", Get, "Department");
    ("department_code", Get, "Department.Code");
    ("department_jur_person", Get, "Department.JurPerson");
    ("department_category1", Get, "Department.Category1");
    ("department_category2", Get, "Department.Category2");
    ("department_category3", Get, "Department.Category3");
    ("department_category4", Get, "Department.Category4");
    ("department_category5", Get, "Department.Category5");
    ("session_group_id", SafeGet, "Session.GroupId");
    ("session_group", Get, "Session.Group");
    ("session_cash_register", Get, "Session.CashRegister");
    ("session_restaurant_section", Get, "Session.RestaurantSection");
    ("conception", Get, "Conception");
    ("conception_code", SafeGet, "Conception.Code");
    ("store", Get, "Store");
    ("cash_flow_category", Get, "CashFlowCategory");
    ("cash_flow_category_type", Get, "CashFlowCategory.Type");
    ("cash_flow_category_hierarchy", Get, "CashFlowCategory.Hierarchy");
    ("cash_flow_category_hierarchy_level1", Get, "CashFlowCategory.HierarchyLevel1");
    ("cash_flow_category_hierarchy_level2", Get, "CashFlowCategory.HierarchyLevel2");
    ("cash_flow_category_hierarchy_level3", Get, "CashFlowCategory.HierarchyLevel3");
    ("date_time", Get, "DateTime.Typed");
    ("date_time_typed", Get, "DateTime.Typed");
    ("date_typed", Get, "DateTime.DateTyped");
    ("date_secondary_date_time_typed", Get, "DateSecondary.DateTimeTyped");
    ("date_secondary_date_typed", Get, "DateSecondary.DateTyped");
    ("date_time_year", Get, "DateTime.Year");
    ("date_time_quarter", Get, "DateTime.Quarter");
    ("date_time_month", Get, "DateTime.Month");
    ("date_time_week_in_year", Get, "DateTime.WeekInYear");
    ("date_time_week_in_month", Get, "DateTime.WeekInMonth");
    ("date_time_day_of_week", Get, "DateTime.DayOfWeak");
    ("date_time_hour", Get, "DateTime.Hour");
    ("comment", Get, "Comment");
    ("additional_data", Get, "AdditionalData")
  ].

Definition read_field (record : pyval) (r : rule) (key : string)
    : outcome pyval :=
  match r with
  | Get => get record key PNone
  | SafeGet => _safe_get record key PNone
  | Numeric => let* v := get record key PNone in _extract_numeric_value v
  end.

(** Evaluation of a dictionary display: entries left to right. *)
Fixpoint build_record (record : pyval) (fields : list (string * rule * string))
    : outcome (list (string * pyval)) :=
  match fields with
  | [] => Returned []
  | (name, r, key) :: rest =>
      let* v := read_field record r key in
      let* others := build_record record rest in
      Returned ((name, v) :: others)
  end.

Fixpoint transactions_loop (items : list pyval) (parsed_transactions : list pyval)
    : outcome (list pyval) :=
  match items with
  | [] => Returned parsed_transactions
  | transaction :: rest =>
      let* parsed_transaction := build_record transaction transaction_fields in
      transactions_loop rest (parsed_transactions ++ [PDict parsed_transaction])
  end.

Definition parse_transactions (data : pyval) : outcome pyval :=
  if negb (truthy data) then Returned (PList [])
  else
    let* items := iterate data in
    omap PList (transactions_loop items []).

End Host.

(** *** IikoParser.parse_organizations *)

Definition parse_organization (org : pyval) : io clock pyval :=
  let+ iiko_id := lift (get org "id" PNone) in
  let+ name := lift (get org "name" PNone) in
  let+ code := lift (get org "code" (PStr "")) in
  let+ created_at := now in
  let+ updated_at := now in
  ret (PDict [("iiko_id", iiko_id); ("name", name); ("code", code);
              ("is_active", PBool true);
              ("created_at", PDateTime created_at);
              ("updated_at", PDateTime updated_at)]).

Fixpoint organizations_loop (items : list pyval) (parsed_orgs : list pyval)
    : io clock (list pyval) :=
  match items with
  | [] => ret parsed_orgs
  | org :: rest =>
      let+ parsed_org := parse_organization org in
      organizations_loop rest (parsed_orgs ++ [parsed_org])
  end.

Definition parse_organizations (data : pyval) : io clock pyval :=
  if negb (truthy data) then ret (PList [])
  else
    let+ items := lift (iterate data) in
    let+ parsed_orgs := organizations_loop items [] in
    ret (PList parsed_orgs).

(** *** IikoParser.parse_item_modifiers *)

(** The dictionary display [parsed_modifier]. *)
Definition parsed_modifier (item_iiko_id mod_data modifier_iiko_id
    parent_modifier_iiko_id : pyval) : outcome pyval :=
  let* deleted := get mod_data "deleted" (PBool false) in
  let* default_amount := get mod_data "defaultAmount" (PInt 0) in
  let* free_of_charge_amount := get mod_data "freeOfChargeAmount" (PInt 0) in
  let* minimum_amount := get mod_data "minimumAmount" (PInt 0) in
  let* maximum_amount := get mod_data "maximumAmount" (PInt 0) in
  let* hide_if_default_amount :=
    get mod_data "hideIfDefaultAmount" (PBool false) in
  let* child_restrictions :=
    get mod_data "childModifiersHaveMinMaxRestrictions" (PBool false) in
  let* splittable := get mod_data "splittable" (PBool false) in
  Returned (PDict [
    ("iiko_id", modifier_iiko_id);
    ("item_iiko_id", item_iiko_id);
    ("parent_modifier_iiko_id", parent_modifier_iiko_id);
    ("deleted", deleted);
    ("default_amount", default_amount);
    ("free_of_charge_amount", free_of_charge_amount);
    ("minimum_amount", minimum_amount);
    ("maximum_amount", maximum_amount);
    ("hide_if_default_amount", hide_if_default_amount);
    ("child_modifiers_have_min_max_restrictions", child_restrictions);
    ("splittable", splittable)]).

(** A [for] loop whose body calls the recursive parser on each item; the
    list [parsed_modifiers] every call appends to is passed along. [None]
    means the recursion went deeper than the fuel. *)
Fixpoint modifiers_loop
    (body : pyval -> list pyval -> option (outcome (list pyval)))
    (items : list pyval) (parsed_modifiers : list pyval)
    : option (outcome (list pyval)) :=
  match items with
  | [] => Some (Returned parsed_modifiers)
  | item :: rest =>
      match body item parsed_modifiers with
      | Some (Returned parsed_modifiers') =>
          modifiers_loop body rest parsed_modifiers'
      | stop => stop
      end
  end.

(** The closure [parse_modifier_recursive(mod_data, parent_modifier_iiko_id)]
    of [parse_item_modifiers]; [fuel] bounds the call depth. *)
Fixpoint parse_modifier_recursive (fuel : nat) (item_iiko_id : pyval)
    (mod_data parent_modifier_iiko_id : pyval) (parsed_modifiers : list pyval)
    : option (outcome (list pyval)) :=
  match fuel with
  | O => None
  | S fuel' =>
      match get mod_data "modifier" PNone with
      | Raised e => Some (Raised e)
      | Returned modifier_iiko_id =>
          if negb (truthy modifier_iiko_id) then Some (Returned parsed_modifiers)
          else
            match parsed_modifier item_iiko_id mod_data modifier_iiko_id
                    parent_modifier_iiko_id,
                  get mod_data "childModifiers" PNone with
            | Raised e, _ => Some (Raised e)
            | _, Raised e => Some (Raised e)
            | Returned parsed, Returned child_modifiers =>
                if truthy child_modifiers then
                  match iterate child_modifiers with
                  | Raised e => Some (Raised e)
                  | Returned children =>
                      modifiers_loop
                        (fun child_mod acc =>
                           parse_modifier_recursive fuel' item_iiko_id
                             child_mod modifier_iiko_id acc)
                        children (parsed_modifiers ++ [parsed])%list
                  end
                else Some (Returned (parsed_modifiers ++ [parsed])%list)
            end
      end
  end.

Definition parse_item_modifiers_within (fuel : nat)
    (modifiers_data item_iiko_id : pyval) : option (outcome pyval) :=
  if negb (truthy modifiers_data) then Some (Returned (PList []))
  else
    match iterate modifiers_data with
    | Raised e => Some (Raised e)
    | Returned items =>
        option_map (omap PList)
          (modifiers_loop
             (fun modifier acc =>
                parse_modifier_recursive fuel item_iiko_id modifier PNone acc)
             items [])
    end.

(** [IikoParser.parse_item_modifiers(modifiers_data, item_iiko_id)]: the
    nesting depth of the data bounds the recursion. *)
Definition parse_item_modifiers (modifiers_data item_iiko_id : pyval)
    : outcome pyval :=
  match parse_item_modifiers_within (S (depth modifiers_data))
          modifiers_data item_iiko_id with
  | Some r => r
  | None => Raised (Exn RuntimeError "maximum recursion depth exceeded")
  end.

(** *** IikoParser.parse_sales *)

(** How one field of a parsed sale is read from the raw row: [sale.get(key)],
    [_safe_get(sale, key)], or one of the coercions
    [_extract_numeric_value], [_extract_currency_sum],
    [_extract_fiscal_cheque_number] applied to [sale.get(key)]. *)
Inductive sale_rule : Type := Plain | Safe | Number | Currency | Fiscal.

(** The dictionary display of [parse_sales], entry by entry. *)
Definition sale_fields : list (string * sale_rule * string) := [
    ("item_sale_event_id", Safe, "ItemSaleEvent.Id");
    ("department", Plain, "Department");
    ("department_code", Plain, "Department.Code");
    ("department_id", Safe, "Department.Id");
    ("department_category1", Plain, "Department.Category1");
    ("department_category2", Plain, "Department.Category2");
    ("department_category3", Plain, "Department.Category3");
    ("department_category4", Plain, "Department.Category4");
    ("department_category5", Plain, "Department.Category5");
    ("conception", Plain, "Conception");
    ("conception_code", Safe, "Conception.Code");
    ("order_id", Safe, "UniqOrderId.Id");
    ("order_num", Plain, "OrderNum");
    ("order_items", Plain, "OrderItems");
    ("order_type", Plain, "OrderType");
    ("order_type_id", Safe, "OrderType.Id");
    ("order_service_type", Plain, "OrderServiceType");
    ("order_comment", Plain, "OrderComment");
    ("order_deleted", Plain, "OrderDeleted");
    ("open_time", Plain, "OpenTime");
    ("close_time", Plain, "CloseTime");
    ("precheque_time", Plain, "PrechequeTime");
    ("open_date_typed", Plain, "OpenDate.Typed");
    ("year_open", Plain, "YearOpen");
    ("quarter_open", Plain, "QuarterOpen");
    ("month_open", Plain, "Mounth");
    ("week_in_year_open", Plain, "WeekInYearOpen");
    ("week_in_month_open", Plain, "WeekInMonthOpen");
    ("day_of_week_open", Plain, "DayOfWeekOpen");
    ("hour_open", Plain, "HourOpen");
    ("hour_close", Plain, "HourClose");
    ("dish_id", Safe, "DishId");
    ("dish_name", Plain, "DishName");
    ("dish_code", Plain, "DishCode");
    ("dish_code_quick", Safe, "DishCode.Quick");
    ("dish_foreign_name", Plain, "DishForeignName");
    ("dish_full_name", Plain, "DishFullName");
    ("dish_type", Plain, "DishType");
    ("dish_measure_unit", Plain, "DishMeasureUnit");
    ("dish_amount_int", Plain, "DishAmountInt");
    ("dish_amount_int_per_order", Plain, "DishAmountInt.PerOrder");
    ("dish_category", Plain, "DishCategory");
    ("dish_category_id", Safe, "DishCategory.Id");
    ("dish_category_accounting", Plain, "DishCategory.Accounting");
    ("dish_category_accounting_id", Safe, "DishCategory.Accounting.Id");
    ("dish_group", Plain, "DishGroup");
    ("dish_group_id", Safe, "DishGroup.Id");
    ("dish_group_num", Plain, "DishGroup.Num");
    ("dish_group_hierarchy", Plain, "DishGroup.Hierarchy");
    ("dish_group_top_parent", Plain, "DishGroup.TopParent");
    ("dish_group_second_parent", Plain, "DishGroup.SecondParent");
    ("dish_group_third_parent", Plain, "DishGroup.ThirdParent");
    ("dish_tag_id", Safe, "DishTag.Id");
    ("dish_tag_name", Plain, "DishTag.Name");
    ("dish_tags_ids_combo", Plain, "DishTags.IdsCombo");
    ("dish_tags_names_combo", Plain, "DishTags.NamesCombo");
    ("dish_tax_category_id", Safe, "DishTaxCategory.Id");
    ("dish_tax_category_name", Plain, "DishTaxCategory.Name");
    ("dish_size_id", Safe, "DishSize.Id");
    ("dish_size_name", Plain, "DishSize.Name");
    ("dish_size_short_name", Plain, "DishSize.ShortName");
    ("dish_size_priority", Plain, "DishSize.Priority");
    ("dish_size_scale_id", Safe, "DishSize.Scale.Id");
    ("dish_size_scale_name", Plain, "DishSize.Scale.Name");
    ("dish_sum_int", Plain, "DishSumInt");
    ("dish_sum_int_average_price_with_vat",
     Number, "DishSumInt.averagePriceWithVAT");
    ("dish_discount_sum_int", Plain, "DishDiscountSumInt");
    ("dish_discount_sum_int_average", Number, "DishDiscountSumInt.average");
    ("dish_discount_sum_int_average_by_guest",
     Number, "DishDiscountSumInt.averageByGuest");
    ("dish_discount_sum_int_average_price",
     Number, "DishDiscountSumInt.averagePrice");
    ("dish_discount_sum_int_average_price_with_vat",
     Number, "DishDiscountSumInt.averagePriceWithVAT");
    ("dish_discount_sum_int_average_without_vat",
     Number, "DishDiscountSumInt.averageWithoutVAT");
    ("dish_discount_sum_int_without_vat",
     Plain, "DishDiscountSumInt.withoutVAT");
    ("dish_return_sum", Plain, "DishReturnSum");
    ("dish_return_sum_without_vat", Plain, "DishReturnSum.withoutVAT");
    ("discount_percent", Plain, "DiscountPercent");
    ("discount_sum", Plain, "DiscountSum");
    ("discount_without_vat", Plain, "discountWithoutVAT");
    ("increase_percent", Plain, "IncreasePercent");
    ("increase_sum", Plain, "IncreaseSum");
    ("full_sum", Plain, "fullSum");
    ("sum_after_discount_without_vat", Plain, "sumAfterDiscountWithoutVAT");
    ("vat_percent", Number, "VAT.Percent");
    ("vat_sum", Number, "VAT.Sum");
    ("session_id", Plain, "SessionID");
    ("session_num", Plain, "SessionNum");
    ("cash_register_name", Plain, "CashRegisterName");
    ("cash_register_name_serial_number",
     Plain, "CashRegisterName.CashRegisterSerialNumber");
    ("cash_register_name_number", Plain, "CashRegisterName.Number");
    ("restaurant_section", Plain, "RestaurantSection");
    ("restaurant_section_id", Safe, "RestaurantSection.Id");
    ("table_num", Plain, "TableNum");
    ("guest_num", Plain, "GuestNum");
    ("guest_num_avg", Number, "GuestNum.Avg");
    ("waiter_name", Plain, "WaiterName");
    ("waiter_name_id", Plain, "WaiterName.ID");
    ("order_waiter_id", Safe, "OrderWaiter.Id");
    ("order_waiter_name", Plain, "OrderWaiter.Name");
    ("waiter_team_id", Safe, "WaiterTeam.Id");
    ("waiter_team_name", Plain, "WaiterTeam.Name");
    ("cashier", Plain, "Cashier");
    ("cashier_code", Safe, "Cashier.Code");
    ("cashier_id", Safe, "Cashier.Id");
    ("auth_user", Plain, "AuthUser");
    ("auth_user_id", Plain, "AuthUser.Id");
    ("pay_types", Plain, "PayTypes");
    ("pay_types_combo", Plain, "PayTypes.Combo");
    ("pay_types_guid", Plain, "PayTypes.GUID");
    ("pay_types_group", Plain, "PayTypes.Group");
    ("pay_types_is_print_cheque", Plain, "PayTypes.IsPrintCheque");
    ("pay_types_voucher_num", Plain, "PayTypes.VoucherNum");
    ("card", Plain, "Card");
    ("card_number", Plain, "CardNumber");
    ("card_owner", Plain, "CardOwner");
    ("card_type", Plain, "CardType");
    ("card_type_name", Plain, "CardTypeName");
    ("bonus_card_number", Plain, "Bonus.CardNumber");
    ("bonus_sum", Number, "Bonus.Sum");
    ("bonus_type", Plain, "Bonus.Type");
    ("fiscal_cheque_number", Fiscal, "FiscalChequeNumber");
    ("currencies_currency", Plain, "Currencies.Currency");
    ("currencies_currency_rate", Plain, "Currencies.CurrencyRate");
    ("currencies_sum_in_currency", Currency, "Currencies.SumInCurrency");
    ("cooking_place", Plain, "CookingPlace");
    ("cooking_place_id", Plain, "CookingPlace.Id");
    ("cooking_place_type", Plain, "CookingPlaceType");
    ("cooking_cooking_duration_avg", Number, "Cooking.CookingDuration.Avg");
    ("cooking_cooking1_duration_avg", Number, "Cooking.Cooking1Duration.Avg");
    ("cooking_cooking2_duration_avg", Number, "Cooking.Cooking2Duration.Avg");
    ("cooking_cooking3_duration_avg", Number, "Cooking.Cooking3Duration.Avg");
    ("cooking_cooking4_duration_avg", Number, "Cooking.Cooking4Duration.Avg");
    ("cooking_cooking_late_time_avg", Number, "Cooking.CookingLateTime.Avg");
    ("cooking_feed_late_time_avg", Number, "Cooking.FeedLateTime.Avg");
    ("cooking_guest_wait_time_avg", Number, "Cooking.GuestWaitTime.Avg");
    ("cooking_kitchen_time_avg", Number, "Cooking.KitchenTime.Avg");
    ("cooking_serve_number", Plain, "Cooking.ServeNumber");
    ("cooking_serve_time_avg", Number, "Cooking.ServeTime.Avg");
    ("cooking_start_delay_time_avg", Number, "Cooking.StartDelayTime.Avg");
    ("order_time_average_order_time", Plain, "OrderTime.AverageOrderTime");
    ("order_time_average_precheque_time",
     Plain, "OrderTime.AveragePrechequeTime");
    ("order_time_order_length", Number, "OrderTime.OrderLength");
    ("order_time_order_length_sum", Number, "OrderTime.OrderLengthSum");
    ("order_time_precheque_length", Number, "OrderTime.PrechequeLength");
    ("delivery_is_delivery", Plain, "Delivery.IsDelivery");
    ("delivery_id", Plain, "Delivery.Id");
    ("delivery_number", Plain, "Delivery.Number");
    ("delivery_address", Plain, "Delivery.Address");
    ("delivery_city", Plain, "Delivery.City");
    ("delivery_street", Plain, "Delivery.Street");
    ("delivery_index", Plain, "Delivery.Index");
    ("delivery_region", Plain, "Delivery.Region");
    ("delivery_zone", Plain, "Delivery.Zone");
    ("delivery_phone", Plain, "Delivery.Phone");
    ("delivery_email", Plain, "Delivery.Email");
    ("delivery_courier", Plain, "Delivery.Courier");
    ("delivery_courier_id", Plain, "Delivery.Courier.Id");
    ("delivery_operator", Plain, "Delivery.DeliveryOperator");
    ("delivery_operator_id", Plain, "Delivery.DeliveryOperator.Id");
    ("delivery_service_type", Plain, "Delivery.ServiceType");
    ("delivery_expected_time", Plain, "Delivery.ExpectedTime");
    ("delivery_actual_time", Plain, "Delivery.ActualTime");
    ("delivery_close_time", Plain, "Delivery.CloseTime");
    ("delivery_cooking_finish_time", Plain, "Delivery.CookingFinishTime");
    ("delivery_send_time", Plain, "Delivery.SendTime");
    ("delivery_bill_time", Plain, "Delivery.BillTime");
    ("delivery_print_time", Plain, "Delivery.PrintTime");
    ("delivery_delay", Plain, "Delivery.Delay");
    ("delivery_delay_avg", Number, "Delivery.DelayAvg");
    ("delivery_way_duration", Number, "Delivery.WayDuration");
    ("delivery_way_duration_avg", Number, "Delivery.WayDurationAvg");
    ("delivery_way_duration_sum", Number, "Delivery.WayDurationSum");
    ("delivery_cooking_to_send_duration",
     Number, "Delivery.CookingToSendDuration");
    ("delivery_diff_between_actual_delivery_time_and_predicted_delivery_time",
     Plain, "Delivery.DiffBetweenActualDeliveryTimeAndPredictedDeliveryTime");
    ("delivery_predicted_cooking_complete_time",
     Plain, "Delivery.PredictedCookingCompleteTime");
    ("delivery_predicted_delivery_time",
     Plain, "Delivery.PredictedDeliveryTime");
    ("delivery_customer_name", Plain, "Delivery.CustomerName");
    ("delivery_customer_phone", Plain, "Delivery.CustomerPhone");
    ("delivery_customer_email", Plain, "Delivery.CustomerEmail");
    ("delivery_customer_card_number", Plain, "Delivery.CustomerCardNumber");
    ("delivery_customer_card_type", Plain, "Delivery.CustomerCardType");
    ("delivery_customer_comment", Plain, "Delivery.CustomerComment");
    ("delivery_customer_created_date_typed",
     Plain, "Delivery.CustomerCreatedDateTyped");
    ("delivery_customer_marketing_source",
     Plain, "Delivery.CustomerMarketingSource");
    ("delivery_customer_opinion_comment",
     Plain, "Delivery.CustomerOpinionComment");
    ("delivery_delivery_comment", Plain, "Delivery.DeliveryComment");
    ("delivery_cancel_cause", Plain, "Delivery.CancelCause");
    ("delivery_cancel_comment", Plain, "Delivery.CancelComment");
    ("delivery_marketing_source", Plain, "Delivery.MarketingSource");
    ("delivery_external_cartography_id",
     Plain, "Delivery.ExternalCartographyId");
    ("delivery_source_key", Plain, "Delivery.SourceKey");
    ("delivery_ecs_service", Plain, "Delivery.EcsService");
    ("delivery_avg_mark", Number, "Delivery.AvgMark");
    ("delivery_avg_food_mark", Number, "Delivery.AvgFoodMark");
    ("delivery_avg_courier_mark", Number, "Delivery.AvgCourierMark");
    ("delivery_avg_operator_mark", Number, "Delivery.AvgOperatorMark");
    ("delivery_aggregated_avg_mark", Number, "Delivery.AggregatedAvgMark");
    ("delivery_aggregated_avg_food_mark",
     Number, "Delivery.AggregatedAvgFoodMark");
    ("delivery_aggregated_avg_courier_mark",
     Number, "Delivery.AggregatedAvgCourierMark");
    ("delivery_aggregated_avg_operator_mark",
     Number, "Delivery.AggregatedAvgOperatorMark");
    ("order_discount_guest_card", Plain, "OrderDiscount.GuestCard");
    ("order_discount_type", Plain, "OrderDiscount.Type");
    ("order_discount_type_ids", Plain, "OrderDiscount.Type.IDs");
    ("order_increase_type", Plain, "OrderIncrease.Type");
    ("order_increase_type_ids", Plain, "OrderIncrease.Type.IDs");
    ("item_sale_event_discount_type", Plain, "ItemSaleEventDiscountType");
    ("item_sale_event_discount_type_combo_amount",
     Plain, "ItemSaleEventDiscountType.ComboAmount");
    ("item_sale_event_discount_type_discount_amount",
     Plain, "ItemSaleEventDiscountType.DiscountAmount");
    ("payment_transaction_id", Plain, "PaymentTransaction.Id");
    ("payment_transaction_ids", Plain, "PaymentTransaction.Ids");
    ("operation_type", Plain, "OperationType");
    ("counteragent_name", Plain, "Counteragent.Name");
    ("credit_user", Plain, "CreditUser");
    ("credit_user_company", Plain, "CreditUser.Company");
    ("price_category", Plain, "PriceCategory");
    ("price_category_card", Plain, "PriceCategoryCard");
    ("price_category_discount_card_owner",
     Plain, "PriceCategoryDiscountCardOwner");
    ("price_category_user_card_owner", Plain, "PriceCategoryUserCardOwner");
    ("product_cost_base_mark_up", Plain, "ProductCostBase.MarkUp");
    ("product_cost_base_one_item", Plain, "ProductCostBase.OneItem");
    ("product_cost_base_percent", Number, "ProductCostBase.Percent");
    ("product_cost_base_percent_without_vat",
     Number, "ProductCostBase.PercentWithoutVAT");
    ("product_cost_base_product_cost", Plain, "ProductCostBase.ProductCost");
    ("product_cost_base_profit", Plain, "ProductCostBase.Profit");
    ("incentive_sum_base_sum", Number, "IncentiveSumBase.Sum");
    ("percent_of_summary_by_col", Number, "PercentOfSummary.ByCol");
    ("percent_of_summary_by_row", Number, "PercentOfSummary.ByRow");
    ("sold_with_dish", Plain, "SoldWithDish");
    ("sold_with_dish_id", Plain, "SoldWithDish.Id");
    ("sold_with_item_id", Plain, "SoldWithItem.Id");
    ("store_id", Plain, "Store.Id");
    ("store_name", Plain, "Store.Name");
    ("store_to", Plain, "StoreTo");
    ("restoraunt_group", Plain, "RestorauntGroup");
    ("restoraunt_group_id", Plain, "RestorauntGroup.Id");
    ("jur_name", Plain, "JurName");
    ("external_number", Plain, "ExternalNumber");
    ("origin_name", Plain, "OriginName");
    ("removal_type", Plain, "RemovalType");
    ("writeoff_reason", Plain, "WriteoffReason");
    ("writeoff_user", Plain, "WriteoffUser");
    ("banquet", Plain, "Banquet");
    ("storned", Plain, "Storned");
    ("deleted_with_writeoff", Plain, "DeletedWithWriteoff");
    ("deletion_comment", Plain, "DeletionComment");
    ("non_cash_payment_type", Plain, "NonCashPaymentType");
    ("non_cash_payment_type_document_type",
     Plain, "NonCashPaymentType.DocumentType");
    ("cash_location", Plain, "CashLocation");
    ("dish_service_print_time", Plain, "DishServicePrintTime");
    ("dish_service_print_time_max", Number, "DishServicePrintTime.Max");
    ("dish_service_print_time_open_to_last_print_duration",
     Number, "DishServicePrintTime.OpenToLastPrintDuration");
    ("open_time_minutes15", Plain, "OpenTime.Minutes15");
    ("close_time_minutes15", Plain, "CloseTime.Minutes15");
    ("public_external_data", Plain, "PublicExternalData");
    ("public_external_data_xml", Plain, "PublicExternalData.Xml")
  ].

Section Sales.

Variable float_of_str : string -> option spec_float.
Variable repr : pyval -> string.

Definition read_sale_field (sale : pyval) (r : sale_rule) (key : string)
    : outcome pyval :=
  match r with
  | Plain => get sale key PNone
  | Safe => _safe_get sale key PNone
  | Number =>
      let* v := get sale key PNone in _extract_numeric_value float_of_str v
  | Currency =>
      let* v := get sale key PNone in _extract_currency_sum float_of_str v
  | Fiscal =>
      let* v := get sale key PNone in _extract_fiscal_cheque_number repr v
  end.

Fixpoint build_sale (sale : pyval) (fields : list (string * sale_rule * string))
    : outcome (list (string * pyval)) :=
  match fields with
  | [] => Returned []
  | (name, r, key) :: rest =>
      let* v := read_sale_field sale r key in
      let* others := build_sale sale rest in
      Returned ((name, v) :: others)
  end.

(** The [for] loop of a pure entry point, for the display [fields]. *)
Fixpoint sales_loop (fields : list (string * sale_rule * string))
    (items : list pyval) (parsed_sales : list pyval) : outcome (list pyval) :=
  match items with
  | [] => Returned parsed_sales
  | sale :: rest =>
      let* parsed_sale := build_sale sale fields in
      sales_loop fields rest (parsed_sales ++ [PDict parsed_sale])
  end.

Definition parse_sales (data : pyval) : outcome pyval :=
  if negb (truthy data) then Returned (PList [])
  else
    let* items := iterate data in
    omap PList (sales_loop sale_fields items []).

End Sales.

(** *** The entry points that read plain fields

    The other entry points build, for every item of their input, a
    dictionary display whose entries are read from the item in one of these
    ways:
    - [Item key]: [item.get(key)];
    - [ItemOr key default]: [item.get(key, default)];
    - [Boolean key default]: [_parse_boolean(item.get(key, default))];
    - [Not key default]: [not item.get(key, default)];
    - [IfSet key default otherwise]:
      [item.get(key, default) if item.get(key) else otherwise];
    - [ListOf key]:
      [item.get(key, []) if isinstance(item.get(key), list) else []];
    - [Literal v]: the constant [v]. *)
Inductive entry : Type :=
| Item (key : string)
| ItemOr (key : string) (default : pyval)
| Boolean (key : string) (default : pyval)
| Not (key : string) (default : pyval)
| IfSet (key : string) (default otherwise : pyval)
| ListOf (key : string)
| Literal (v : pyval).

Definition read_entry (item : pyval) (e : entry) : outcome pyval :=
  match e with
  | Item key => get item key PNone
  | ItemOr key default => get item key default
  | Boolean key default =>
      let* v := get item key default in Returned (_parse_boolean v)
  | Not key default =>
      let* v := get item key default in Returned (PBool (negb (truthy v)))
  | IfSet key default otherwise =>
      let* condition := get item key PNone in
      if truthy condition then get item key default else Returned otherwise
  | ListOf key =>
      let* v := get item key PNone in
      if is_list v then get item key (PList []) else Returned (PList [])
  | Literal v => Returned v
  end.

(** Evaluation of a dictionary display: entries left to right. *)
Fixpoint display (item : pyval) (fields : list (string * entry))
    : outcome (list (string * pyval)) :=
  match fields with
  | [] => Returned []
  | (name, e) :: rest =>
      let* v := read_entry item e in
      let* others := display item rest in
      Returned ((name, v) :: others)
  end.

(** [if not data: return []], then a [for] loop that appends the display of
    every item. *)
Fixpoint records_loop (fields : list (string * entry)) (items : list pyval)
    (parsed : list pyval) : outcome (list pyval) :=
  match items with
  | [] => Returned parsed
  | item :: rest =>
      let* record := display item fields in
      records_loop fields rest (parsed ++ [PDict record])
  end.

Definition parse_records (fields : list (string * entry)) (data : pyval)
    : outcome pyval :=
  if negb (truthy data) then Returned (PList [])
  else
    let* items := iterate data in
    omap PList (records_loop fields items []).

(** The same with the two type checks of [parse_accounts] and its like: an
    input that is not a list gives [[]], an item that is not a dictionary is
    skipped. *)
Fixpoint checked_loop (fields : list (string * entry)) (items : list pyval)
    (parsed : list pyval) : outcome (list pyval) :=
  match items with
  | [] => Returned parsed
  | item :: rest =>
      if negb (is_dict item) then checked_loop fields rest parsed
      else
        let* record := display item fields in
        checked_loop fields rest (parsed ++ [PDict record])
  end.

Definition parse_checked (fields : list (string * entry)) (data : pyval)
    : outcome pyval :=
  if negb (truthy data) then Returned (PList [])
  else if negb (is_list data) then Returned (PList [])
  else
    let* items := iterate data in
    omap PList (checked_loop fields items []).

(** The same with the two clock readings every record ends with:
    ["created_at": datetime.now(), "updated_at": datetime.now()]. *)
Definition stamped (fields : list (string * entry)) (item : pyval)
    : io clock pyval :=
  let+ record := lift (display item fields) in
  let+ created_at := now in
  let+ updated_at := now in
  ret (PDict (record ++ [("created_at", PDateTime created_at);
                         ("updated_at", PDateTime updated_at)])).

Fixpoint stamped_loop (fields : list (string * entry)) (items : list pyval)
    (parsed : list pyval) : io clock (list pyval) :=
  match items with
  | [] => ret parsed
  | item :: rest =>
      let+ record := stamped fields item in
      stamped_loop fields rest (parsed ++ [record])
  end.

Definition parse_stamped (fields : list (string * entry)) (data : pyval)
    : io clock pyval :=
  if negb (truthy data) then ret (PList [])
  else
    let+ items := lift (iterate data) in
    let+ parsed := stamped_loop fields items [] in
    ret (PList parsed).

(** [IikoParser.parse_menu_nomenclature] *)
Definition menu_category_fields : list (string * entry) := [
    ("iiko_id", Item "id");
    ("name", Item "name");
    ("parent_id", Item "parentId")
  ].

Definition menu_item_fields : list (string * entry) := [
    ("iiko_id", Item "id");
    ("name", Item "name");
    ("description", ItemOr "description" (PStr EmptyString));
    ("category_id", Item "groupId");
    ("price", ItemOr "price" (PInt 0));
    ("is_active", Not "isDeleted" (PBool false));
    ("sort_order", ItemOr "sortOrder" (PInt 0))
  ].

Definition menu_modifier_fields : list (string * entry) := [
    ("iiko_id", Item "id");
    ("name", Item "name");
    ("description", ItemOr "description" (PStr EmptyString));
    ("price", ItemOr "price" (PInt 0));
    ("is_active", Not "isDeleted" (PBool false));
    ("sort_order", ItemOr "sortOrder" (PInt 0))
  ].

Definition parse_menu_nomenclature (data : pyval) : io clock pyval :=
  if negb (truthy data) then
    ret (PDict [("categories", PList []); ("items", PList []);
                ("modifiers", PList [])])
  else
    let+ groups := lift (get data "productCategories" (PList [])) in
    let+ groups := lift (iterate groups) in
    let+ categories := lift (records_loop menu_category_fields groups []) in
    let+ products := lift (get data "products" (PList [])) in
    let+ products := lift (iterate products) in
    let+ items := stamped_loop menu_item_fields products [] in
    let+ product_modifiers := lift (get data "productModifiers" (PList [])) in
    let+ product_modifiers := lift (iterate product_modifiers) in
    let+ modifiers := stamped_loop menu_modifier_fields product_modifiers [] in
    ret (PDict [("categories", PList categories); ("items", PList items);
                ("modifiers", PList modifiers)]).

(** [IikoParser.parse_products] *)
Definition product_fields : list (string * entry) := [
    ("iiko_id", Item "id");
    ("name", Item "name");
    ("description", ItemOr "description" (PStr EmptyString));
    ("price", ItemOr "price" (PInt 0));
    ("is_active", Not "isDeleted" (PBool false))
  ].

Definition parse_products : pyval -> io clock pyval :=
  parse_stamped product_fields.

(** [IikoParser.parse_items_server] *)
Definition server_item_fields : list (string * entry) := [
    ("iiko_id", Item "id");
    ("name", Item "name");
    ("description", ItemOr "description" (PStr EmptyString));
    ("code", Item "code");
    ("num", Item "num");
    ("price", IfSet "defaultSalePrice" (PInt 0) (PInt 0));
    ("deleted", ItemOr "deleted" (PBool false));
    ("organization_id", Literal PNone);
    ("data_source", Literal (PStr "server"));
    ("is_duplicate", Literal (PBool false));
    ("parent", Item "parent");
    ("tax_category", Item "taxCategory");
    ("category_server", Item "category");
    ("accounting_category", Item "accountingCategory");
    ("front_image_id", Item "frontImageId");
    ("position_server", Item "position");
    ("main_unit", Item "mainUnit");
    ("default_sale_price", Item "defaultSalePrice");
    ("place_type", Item "placeType");
    ("default_included_in_menu", ItemOr "defaultIncludedInMenu" (PBool false));
    ("type_server", Item "type");
    ("unit_weight", Item "unitWeight");
    ("unit_capacity", Item "unitCapacity");
    ("product_scale_id", Item "productScaleId");
    ("modifier_schema_id", Item "modifierSchemaId")
  ].

Definition parse_items_server : pyval -> io clock pyval :=
  parse_stamped server_item_fields.

(** [IikoParser.parse_product_categories] *)
Definition product_category_fields : list (string * entry) := [
    ("iiko_id", Item "id");
    ("name", Item "name");
    ("is_deleted", ItemOr "deleted" (PBool false))
  ].

Definition parse_product_categories : pyval -> io clock pyval :=
  parse_stamped product_category_fields.

(** [IikoParser.parse_employees] *)
Definition employee_fields : list (string * entry) := [
    ("iiko_id", Item "id");
    ("code", ItemOr "code" (PStr EmptyString));
    ("name", ItemOr "name" (PStr EmptyString));
    ("login", ItemOr "login" (PStr EmptyString));
    ("password", ItemOr "password" (PStr EmptyString));
    ("first_name", ItemOr "firstName" (PStr EmptyString));
    ("middle_name", ItemOr "middleName" (PStr EmptyString));
    ("last_name", ItemOr "lastName" (PStr EmptyString));
    ("phone", ItemOr "phone" (PStr EmptyString));
    ("cell_phone", ItemOr "cellPhone" (PStr EmptyString));
    ("email", ItemOr "email" (PStr EmptyString));
    ("address", ItemOr "address" (PStr EmptyString));
    ("birthday", IfSet "birthday" PNone PNone);
    ("hire_date", ItemOr "hireDate" (PStr EmptyString));
    ("hire_document_number", ItemOr "hireDocumentNumber" (PStr EmptyString));
    ("fire_date", IfSet "fireDate" PNone PNone);
    ("activation_date", IfSet "activationDate" PNone PNone);
    ("deactivation_date", IfSet "deactivationDate" PNone PNone);
    ("note", ItemOr "note" (PStr EmptyString));
    ("card_number", ItemOr "cardNumber" (PStr EmptyString));
    ("pin_code", ItemOr "pinCode" (PStr EmptyString));
    ("taxpayer_id_number", ItemOr "taxpayerIdNumber" (PStr EmptyString));
    ("snils", ItemOr "snils" (PStr EmptyString));
    ("gln", ItemOr "gln" (PStr EmptyString));
    ("main_role_iiko_id", Item "mainRoleId");
    ("roles_iiko_ids", ListOf "rolesIds");
    ("main_role_code", ItemOr "mainRoleCode" (PStr EmptyString));
    ("role_codes", ListOf "roleCodes");
    ("preferred_department_code",
     ItemOr "preferredDepartmentCode" (PStr EmptyString));
    ("department_codes", ListOf "departmentCodes");
    ("responsibility_department_codes", ListOf "responsibilityDepartmentCodes");
    ("deleted", Boolean "deleted" (PStr "false"));
    ("client", Boolean "client" (PStr "false"));
    ("supplier", Boolean "supplier" (PStr "false"));
    ("employee", Boolean "employee" (PStr "false"));
    ("represents_store", Boolean "representsStore" (PStr "false"))
  ].

Definition parse_employees : pyval -> outcome pyval :=
  parse_records employee_fields.

(** [IikoParser.parse_departments] *)
Definition department_fields : list (string * entry) := [
    ("iiko_id", Item "id");
    ("name", Item "name");
    ("description", ItemOr "description" (PStr EmptyString));
    ("is_active", Not "isDeleted" (PBool false))
  ].

Definition parse_departments : pyval -> io clock pyval :=
  parse_stamped department_fields.

(** [IikoParser.parse_schedule_types] *)
Definition schedule_fields : list (string * entry) := [
    ("iiko_id", Item "id");
    ("name", Item "name");
    ("description", ItemOr "description" (PStr EmptyString));
    ("is_active", Not "isDeleted" (PBool false))
  ].

Definition parse_schedule_types : pyval -> io clock pyval :=
  parse_stamped schedule_fields.

(** [IikoParser.parse_attendance_types] *)
Definition attendance_fields : list (string * entry) := [
    ("iiko_id", Item "id");
    ("name", Item "name");
    ("description", ItemOr "description" (PStr EmptyString));
    ("is_active", Not "isDeleted" (PBool false))
  ].

Definition parse_attendance_types : pyval -> io clock pyval :=
  parse_stamped attendance_fields.

(** [IikoParser.parse_restaurant_sections] *)
Definition section_fields : list (string * entry) := [
    ("iiko_id", Item "id");
    ("name", ItemOr "name" (PStr EmptyString));
    ("terminal_group_iiko_id", Item "terminalGroupId")
  ].

Definition parse_restaurant_sections : pyval -> outcome pyval :=
  parse_checked section_fields.

(** [IikoParser.parse_tables] *)
Definition table_fields : list (string * entry) := [
    ("iiko_id", Item "id");
    ("section_iiko_id", Item "sectionId");
    ("number", ItemOr "number" (PInt 0));
    ("name", ItemOr "name" (PStr EmptyString));
    ("revision", ItemOr "revision" (PStr EmptyString));
    ("is_deleted", ItemOr "isDeleted" (PBool false));
    ("pos_id", ItemOr "posId" (PStr EmptyString))
  ].

Definition parse_tables : pyval -> outcome pyval :=
  parse_checked table_fields.

(** [IikoParser.parse_terminal_groups] *)
Definition terminal_group_fields : list (string * entry) := [
    ("iiko_id", Item "id");
    ("name", Item "name");
    ("organization_id", Item "organizationId")
  ].

Definition parse_terminal_groups : pyval -> io clock pyval :=
  parse_stamped terminal_group_fields.

(** [IikoParser.parse_terminals] *)
Definition terminal_fields : list (string * entry) := [
    ("iiko_id", Item "id");
    ("organization_id", Item "organizationId");
    ("name", Item "name");
    ("address", ItemOr "address" (PStr EmptyString));
    ("time_zone", ItemOr "timeZone" (PStr EmptyString));
    ("is_active", Literal (PBool true))
  ].

Definition parse_terminals : pyval -> io clock pyval :=
  parse_stamped terminal_fields.

(** [IikoParser.parse_orders] *)
Definition order_fields : list (string * entry) := [
    ("iiko_id", Item "id");
    ("order_number", Item "orderNumber");
    ("table_id", Item "tableId");
    ("terminal_id", Item "terminalId");
    ("waiter_id", Item "waiterId");
    ("status", Item "status");
    ("total_amount", ItemOr "totalAmount" (PInt 0))
  ].

Definition parse_orders : pyval -> io clock pyval :=
  parse_stamped order_fields.

(** [IikoParser.parse_reports] *)
Definition report_fields : list (string * entry) := [
    ("report_type", Item "reportType");
    ("data", ItemOr "data" (PList []));
    ("total_rows", ItemOr "totalRows" (PInt 0))
  ].

Definition parse_reports (data : pyval) : io clock pyval :=
  if negb (truthy data) then ret (PDict [])
  else
    let+ parsed_report := lift (display data report_fields) in
    let+ created_at := now in
    ret (PDict (parsed_report ++ [("created_at", PDateTime created_at)])).

(** [IikoParser.parse_accounts] *)
Definition account_fields : list (string * entry) := [
    ("iiko_id", Item "id");
    ("root_type", Item "rootType");
    ("account_parent_id", Item "accountParentId");
    ("parent_corporate_id", Item "parentCorporateId");
    ("type", Item "type");
    ("system", Item "system");
    ("custom_transactions_allowed", Item "customTransactionsAllowed");
    ("deleted", ItemOr "deleted" (PBool false));
    ("code", ItemOr "code" (PStr EmptyString));
    ("name", ItemOr "name" (PStr EmptyString))
  ].

Definition parse_accounts : pyval -> outcome pyval :=
  parse_checked account_fields.

(** [IikoParser.parse_salaries] *)
Definition salary_fields : list (string * entry) := [
    ("employee_iiko_id", Item "employeeId");
    ("date_from", Item "dateFrom");
    ("date_to", Item "dateTo");
    ("salary", Item "payment")
  ].

Definition parse_salaries : pyval -> outcome pyval :=
  parse_checked salary_fields.

End Parser.

(** ** routers/iiko/sync.py *)

Module Sync.
Import Py.
Local Open Scope py_scope.

(** The dictionary [result] of an endpoint: its four keys are fixed by the
    display that creates it. *)
Record SyncResult : Type := {
  created : Z;
  updated : Z;
  errors : Z;
  deleted : Z
}.

Definition empty_result : SyncResult :=
  {| created := 0; updated := 0; errors := 0; deleted := 0 |}.

(** The four [result[k] += sync_result.get(k, 0)] statements. *)
Definition accumulate (result : SyncResult) (sync_result : gmap string Z)
    : SyncResult :=
  {| created := created result + default 0 (sync_result !! "created");
     updated := updated result + default 0 (sync_result !! "updated");
     errors := errors result + default 0 (sync_result !! "errors");
     deleted := deleted result + default 0 (sync_result !! "deleted") |}.

(** The body an endpoint returns. *)
Record response : Type := {
  success : bool;
  message : string;
  data : option SyncResult
}.

Definition window : Type := datetime * datetime.

Section Endpoints.

(** Everything outside the router: the database session, the vendor session,
    the cache, the clock. *)
Variable World : Type.

(** [datetime.now()] *)
Variable clock_now : io World datetime.
(** [t.strftime("%Y-%m-%d")] *)
Variable strftime_ymd : datetime -> string.
(** [datetime.fromisoformat(text)] *)
Variable fromisoformat : string -> outcome datetime.
(** [iiko_sync.sync_accounts(db)] *)
Variable iiko_sync_accounts : io World (gmap string Z).
(** [utils.cache.invalidate_cache(tag)] *)
Variable invalidate_cache : string -> io World unit.
(** [utils.db_indexes.optimize_indexes(db)], import included. *)
Variable optimize_indexes : io World unit.

(** [try: m except Exception: log]: the outcome is dropped, the effects
    stay. *)
Definition attempt {A} (m : io World A) : io World unit :=
  fun w => (Returned tt, snd (m w)).

(** The text an omitted [from_date] defaults to: seven days back. *)
Definition default_from_date : io World string :=
  let+ t := clock_now in
  let+ t' := lift (datetime_add_days t (- 7)) in
  ret (strftime_ymd t' ++ "T00:00:00.000").

(** The text an omitted [to_date] defaults to: today. *)
Definition default_to_date : io World string :=
  let+ t := clock_now in
  ret (strftime_ymd t ++ "T00:00:00.000").

Definition bound_or (default : io World string) (bound : option string)
    : io World string :=
  match bound with
  | Some text => ret text
  | None => default
  end.

(** [datetime.fromisoformat(text.replace('Z', '+00:00'))] *)
Definition parse_bound (text : string) : outcome datetime :=
  fromisoformat (replace_char "Z"%char "+00:00" text).

(** One pass through the body of [while current_date < end_date]; [step] is
    the service call of the endpoint. *)
Definition day_body (step : datetime -> datetime -> io World (gmap string Z))
    (current_date : date) (result : SyncResult)
    : io World (date * SyncResult) :=
  let day_from := midnight current_date in
  let+ next_date := lift (date_add_days current_date 1) in
  let day_to := midnight next_date in
  let+ sync_result := step day_from day_to in
  let result := accumulate result sync_result in
  let+ current_date := lift (date_add_days current_date 1) in
  ret (current_date, result).

(** The [while] loop; [None] means the fuel ran out before the loop did. *)
Fixpoint day_loop (fuel : nat)
    (step : datetime -> datetime -> io World (gmap string Z))
    (current_date end_date : date) (result : SyncResult) (w : World)
    : option (outcome SyncResult * World) :=
  if current_date <? end_date then
    match fuel with
    | O => None
    | S fuel' =>
        match day_body step current_date result w with
        | (Returned (current_date', result'), w') =>
            day_loop fuel' step current_date' end_date result' w'
        | (Raised e, w') => Some (Raised e, w')
        end
    end
  else Some (Returned result, w).

(** The statements of the outer [try] up to the end of the loop. *)
Definition sync_days (step : datetime -> datetime -> io World (gmap string Z))
    (from_date to_date : option string) (w : World)
    : option (outcome SyncResult * World) :=
  match (let+ from_date := bound_or default_from_date from_date in
         let+ to_date := bound_or default_to_date to_date in
         let+ from_dt := lift (parse_bound from_date) in
         let+ to_dt := lift (parse_bound to_date) in
         ret (dt_date from_dt, dt_date to_dt)) w with
  | (Returned (current_date, end_date), w') =>
      day_loop (Z.to_nat (end_date - current_date)) step
        current_date end_date empty_result w'
  | (Raised e, w') => Some (Raised e, w')
  end.

(** The two [return] statements of an endpoint. *)
Definition respond (done failed : string) (r : outcome SyncResult) : response :=
  match r with
  | Returned result =>
      {| success := true; message := done; data := Some result |}
  | Raised e =>
      {| success := false; message := failed ++ ": " ++ exn_str e;
         data := None |}
  end.

(** [iiko_sync.sync_transactions(db, day_from, day_to)] *)
Variable iiko_sync_transactions : datetime -> datetime -> io World (gmap string Z).

(** [POST /transactions] *)
Definition sync_transactions (from_date to_date : option string) (w : World)
    : option (response * World) :=
  let w := snd (attempt iiko_sync_accounts w) in
  match sync_days iiko_sync_transactions from_date to_date w with
  | None => None
  | Some (Returned result, w) =>
      let w := snd (attempt optimize_indexes w) in
      Some (respond "Синхронизация транзакций завершена"
              "Ошибка синхронизации транзакций" (Returned result), w)
  | Some (Raised e, w) =>
      Some (respond "Синхронизация транзакций завершена"
              "Ошибка синхронизации транзакций" (Raised e), w)
  end.

(** [iiko_sync.sync_sales(db, day_from, day_to)] *)
Variable iiko_sync_sales : datetime -> datetime -> io World (gmap string Z).

(** [POST /sales] *)
Definition sync_sales (from_date to_date : option string) (w : World)
    : option (response * World) :=
  match sync_days iiko_sync_sales from_date to_date w with
  | None => None
  | Some (Returned result, w) =>
      let (r, w) :=
        (let+ _ := invalidate_cache "reports" in
         let+ _ := invalidate_cache "analytics" in
         let+ _ := invalidate_cache "popular_dishes" in
         let+ _ := attempt optimize_indexes in
         ret result) w in
      Some (respond "Синхронизация продаж завершена"
              "Ошибка синхронизации продаж" r, w)
  | Some (Raised e, w) =>
      Some (respond "Синхронизация продаж завершена"
              "Ошибка синхронизации продаж" (Raised e), w)
  end.

End Endpoints.

(** *** The other handlers

    What a handler hands to the framework: the body it returns, or the
    [HTTPException] it raises. *)
Inductive reply (A : Type) : Type :=
| Body (success : bool) (message : string) (data : option A)
| HTTPException (status_code : Z) (detail : string).
Arguments Body {A} success message data.
Arguments HTTPException {A} status_code detail.

(** The [data] of [POST /organizations-employees-terminals]. *)
Record Summary : Type := {
  total_created : Z;
  total_updated : Z;
  total_errors : Z
}.

Record Combined : Type := {
  results : list (string * gmap string Z);
  summary : Summary
}.

Section Handlers.

Variable World : Type.

(** What a service of [iiko_sync] returns where the router only passes it
    on. The three services whose results the router reads return counters,
    as the services of the day-window endpoints do. *)
Variable Result : Type.

Variable invalidate_cache : string -> io World unit.
Variable optimize_indexes : io World unit.
Variable iiko_sync_organizations : io World (gmap string Z).
Variable iiko_sync_employees : option string -> io World (gmap string Z).
Variable iiko_sync_terminals : option string -> io World (gmap string Z).
Variable iiko_sync_terminal_groups : option string -> io World Result.
Variable iiko_sync_roles : io World Result.
Variable iiko_sync_restaurant_sections : option string -> io World Result.
Variable iiko_sync_tables : option string -> io World Result.
Variable iiko_sync_accounts : io World Result.
Variable iiko_sync_salaries : io World Result.
Variable iiko_sync_menu : option string -> io World Result.
Variable iiko_sync_all : option string -> io World Result.
(** [iiko_sync.sync_items_cloud(db)] and
    [iiko_sync.sync_items_cloud(db, organization_id)] *)
Variable iiko_sync_items_cloud_all : io World Result.
Variable iiko_sync_items_cloud : Z -> io World Result.
Variable iiko_sync_items_server : io World Result.

(** [try: result = ...; return {"success": True, "message": done,
    "data": result}
    except Exception as e: raise HTTPException(500, f"{failed}: {str(e)}")] *)
Definition or_http_500 {A} (done failed : string) (body : io World A)
    : World -> reply A * World :=
  fun w =>
    match body w with
    | (Returned result, w') => (Body true done (Some result), w')
    | (Raised e, w') =>
        (HTTPException 500 (failed ++ ": " ++ exn_str e), w')
    end.









(** [POST /accounts] *)
Definition sync_accounts : World -> reply Result * World :=
  or_http_500
    "Синхронизация счетов завершена"
    "Ошибка синхронизации счетов"
    iiko_sync_accounts.




(** [POST /organizations-employees-terminals] *)
Definition sync_organizations_employees_terminals
    (organization_id : option string) : World -> reply Combined * World :=
  or_http_500
    "Синхронизация организаций, сотрудников и терминалов завершена"
    "Ошибка синхронизации"
    (let+ org_result := iiko_sync_organizations in
     let+ emp_result := iiko_sync_employees organization_id in
     let+ term_result := iiko_sync_terminals organization_id in
     let total key :=
       default 0 (org_result !! key) + default 0 (emp_result !! key)
       + default 0 (term_result !! key) in
     ret {| results := [("organizations", org_result);
                        ("employees", emp_result);
                        ("terminals", term_result)];
            summary := {| total_created := total "created";
                          total_updated := total "updated";
                          total_errors := total "errors" |} |}).




End Handlers.

End Sync.

(** ** services/transactions_and_statistics/statistics_service.py *)

Module Statistics.
Import Py.
Local Open Scope py_scope.

(** The digits of a number, least significant first, with a comma after
    every third digit that has a digit after it. *)
Fixpoint with_commas (digits : list ascii) : list ascii :=
  match digits with
  | a :: b :: c :: (_ :: _) as rest =>
      a :: b :: c :: ","%char :: with_commas rest
  | short => short
  end.

(** [format(n, ",")] for an int: its digits in groups of three. *)
Definition format_thousands (n : Z) : string :=
  let digits := list_ascii_of_string (str_of_int (Z.abs n)) in
  (if n <? 0 then "-" else "")
  ++ string_of_list_ascii (rev (with_commas (rev digits))).

(** [format_currency(amount)], the amount being a number. *)
Definition format_currency (amount : pyval) : outcome string :=
  let* n := py_int amount in
  Returned (replace_char ","%char " " (format_thousands n ++ " тг")).

(** The keyword arguments [ChangeMetric] is built from. *)
Record ChangeMetric : Type := {
  value : string;
  trend : string
}.

Definition float_sub : spec_float -> spec_float -> spec_float :=
  SFsub float_prec float_emax.
Definition float_div : spec_float -> spec_float -> spec_float :=
  SFdiv float_prec float_emax.
Definition float_mul : spec_float -> spec_float -> spec_float :=
  SFmul float_prec float_emax.

(** [calculate_change_percent(current, previous)], the two arguments being
    floats as annotated. *)
Definition calculate_change_percent (current previous : spec_float)
    : outcome (option ChangeMetric) :=
  if SFeqb previous (S754_zero false) then Returned None
  else
    let change :=
      float_mul (float_div (float_sub current previous) previous)
        (dyadic 100 0) in
    let trend := if SFltb (S754_zero false) change then "up" else "down" in
    let sign := if SFltb (S754_zero false) change then "+" else "" in
    let* whole := int_of_float change in
    Returned (Some {| value := sign ++ str_of_int whole ++ "%";
                      trend := trend |}).

(** [t.replace(hour=..., minute=..., second=..., microsecond=...)], the
    time of day given in microseconds. *)
Definition at_time (t : datetime) (micros : Z) : datetime :=
  DateTime (dt_date t) micros (dt_offset t).

(** 23:59:59.999999 *)
Definition last_microsecond : Z := ((23 * 60 + 59) * 60 + 59) * 1000000 + 999999.

(** [get_period_dates(target_date, period)]: the tuple
    [(start_date, end_date, previous_start, previous_end)]. *)
Definition get_period_dates (target_date : datetime) (period : string)
    : outcome (datetime * datetime * datetime * datetime) :=
  let* (start_date, previous_start, previous_end) :=
    if String.eqb period "week" then
      let* start_date := datetime_add_days target_date (- 7) in
      let* previous_start := datetime_add_days start_date (- 7) in
      Returned (start_date, previous_start, start_date)
    else if String.eqb period "month" then
      let* start_date := datetime_add_days target_date (- 30) in
      let* previous_start := datetime_add_days start_date (- 30) in
      Returned (start_date, previous_start, start_date)
    else
      let start_date := at_time target_date 0 in
      let* previous_start := datetime_add_days start_date (- 1) in
      Returned (start_date, previous_start, start_date) in
  let end_date := at_time target_date last_microsecond in
  Returned (start_date, end_date, previous_start, previous_end).

End Statistics.

(** ** Notions used in the statements *)

Module Spec.
Import Py Sync.

(** Case-insensitive equality of texts, letter by letter. *)
Definition is_letter (c : ascii) : bool :=
  let n := N_of_ascii c in
  (((65 <=? n) && (n <=? 90)) || ((97 <=? n) && (n <=? 122)))%N.

Definition same_letter (c d : ascii) : bool :=
  Ascii.eqb c d
  || (is_letter c && is_letter d
      && ((N_of_ascii c + 32 =? N_of_ascii d)
          || (N_of_ascii d + 32 =? N_of_ascii c))%N).

Fixpoint equal_ignoring_case (s t : string) : bool :=
  match s, t with
  | EmptyString, EmptyString => true
  | String c s', String d t' => same_letter c d && equal_ignoring_case s' t'
  | _, _ => false
  end.

(** A key of a mapping holds a number. *)
Definition numeric_at (d : list (string * pyval)) (key : string) : bool :=
  dict_has d key && is_int_or_float (dict_get d key PNone).

(** [t] is [s] trimmed: [s] is some white space, then [t], then some white
    space, and [t] neither begins nor ends with white space. *)
Definition trimmed (s t : string) : Prop :=
  exists before middle after : list string,
    chars s = (before ++ middle ++ after)%list /\
    List.Forall (fun ch => is_space ch = true) before /\
    List.Forall (fun ch => is_space ch = true) after /\
    t = String.concat "" middle /\
    (forall ch, hd_error middle = Some ch -> is_space ch = false) /\
    (forall ch, hd_error (rev middle) = Some ch -> is_space ch = false).

Definition non_null (v : pyval) : bool :=
  match v with
  | PNone => false
  | _ => true
  end.

(** The rule for one scalar of a composite identifier: a number is rendered
    by the number rule, anything else by its trimmed [str]. *)
Definition scalar_rule (repr : pyval -> string) (v : pyval) : outcome string :=
  if is_int_or_float v then Parser.render_number repr v
  else Returned (strip (Parser.py_str repr v)).

(** The rule for a sequence: the scalar rule on every element that is not
    [None], joined with ", "; [None] when nothing is left. *)
Definition sequence_rule (repr : pyval -> string) (items : list pyval)
    : outcome pyval :=
  omap Parser.join_cleaned
    (traverse (scalar_rule repr) (List.filter non_null items)).

(** *** Parsed records *)

(** The entry [name] of a parsed record, [None] when it has none. *)
Definition field (record : pyval) (name : string) : pyval :=
  match record with
  | PDict entries => dict_get entries name PNone
  | _ => PNone
  end.

(** Every int inside the value has a magnitude below [2 ** 1023], so that
    [float] converts it. *)
Fixpoint fits_float (v : pyval) : bool :=
  match v with
  | PInt n => Z.abs n <? 2 ^ 1023
  | PList l | PTuple l | PSet l => forallb fits_float l
  | PDict l => forallb (fun kv => fits_float (snd kv)) l
  | _ => true
  end.

(** The rules of [parse_transactions] among those of [parse_sales]. *)
Definition sale_rule_of (r : Parser.rule) : Parser.sale_rule :=
  match r with
  | Parser.Get => Parser.Plain
  | Parser.SafeGet => Parser.Safe
  | Parser.Numeric => Parser.Number
  end.

Definition as_sale_fields (fields : list (string * Parser.rule * string))
    : list (string * Parser.sale_rule * string) :=
  map (fun f => (fst (fst f), sale_rule_of (snd (fst f)), snd f)) fields.

(** [records] are the records of [items], one for each and in the same
    order, every one built by [build] and carrying the entry names [keys]. *)
Definition records_of (build : pyval -> outcome (list (string * pyval)))
    (keys : list string) (items records : list pyval) : Prop :=
  Forall2 (fun item record =>
             exists entries,
               build item = Returned entries /\ record = PDict entries
               /\ map fst entries = keys)
          items records.

(** What [x.get] raises when [x] is not a dictionary. *)
Definition no_get (x : pyval) : exn :=
  Exn AttributeError ("'" ++ type_name x ++ "' object has no attribute 'get'").

(** What an entry of a display reads from a mapping. *)
Definition entry_value (d : list (string * pyval)) (e : Parser.entry) : pyval :=
  match e with
  | Parser.Item key => dict_get d key PNone
  | Parser.ItemOr key default => dict_get d key default
  | Parser.Boolean key default =>
      Parser._parse_boolean (dict_get d key default)
  | Parser.Not key default => PBool (negb (truthy (dict_get d key default)))
  | Parser.IfSet key default otherwise =>
      if truthy (dict_get d key PNone) then dict_get d key default
      else otherwise
  | Parser.ListOf key =>
      if is_list (dict_get d key PNone) then dict_get d key (PList [])
      else PList []
  | Parser.Literal v => v
  end.

Definition record_of (fields : list (string * Parser.entry))
    (d : list (string * pyval)) : list (string * pyval) :=
  map (fun f => (fst f, entry_value d (snd f))) fields.

(** An entry that reads the item, as opposed to a constant. *)
Definition reads_item (e : Parser.entry) : bool :=
  match e with
  | Parser.Literal _ => false
  | _ => true
  end.

(** The one exception a coercion of a number can raise. *)
Definition int_too_large : exn :=
  Exn OverflowError "int too large to convert to float".

(** The names and the source keys of a display. *)
Definition names {R : Type} (fields : list (string * R * string))
    : list string :=
  map (fun f => fst (fst f)) fields.

Definition source_keys {R : Type} (fields : list (string * R * string))
    : list string :=
  map snd fields.

(** *** Modifier trees

    A modifier node: its external identifier ([None] when it has none), its
    other entries, and its children in order. *)
Inductive ModifierNode : Type :=
| MNode (external_id : pyval) (attributes : list (string * pyval))
        (children : list ModifierNode).

Definition node_id (n : ModifierNode) : pyval :=
  match n with MNode external_id _ _ => external_id end.

(** The raw dictionary of a node, as [parse_item_modifiers] receives it. *)
Fixpoint encode (n : ModifierNode) : pyval :=
  match n with
  | MNode external_id attributes children =>
      PDict (("modifier", external_id)
             :: ("childModifiers", PList (map encode children))
             :: attributes)
  end.

Definition encode_forest (nodes : list ModifierNode) : pyval :=
  PList (map encode nodes).

Fixpoint height (n : ModifierNode) : nat :=
  match n with
  | MNode _ _ children => S (list_max (map height children))
  end.

(** A flattened node: identifier, parent identifier, attributes. *)
Definition flat_modifier : Type := pyval * pyval * list (string * pyval).

(** Pre-order flattening: a node with an identifier is emitted, then its
    children with that identifier as their parent; a node without one
    ([None], or an empty one) is dropped and its children are not visited. *)
Fixpoint flatten_node (parent_id : pyval) (n : ModifierNode)
    : list flat_modifier :=
  match n with
  | MNode external_id attributes children =>
      if truthy external_id then
        (external_id, parent_id, attributes)
        :: flat_map (flatten_node external_id) children
      else []
  end.

Definition flatten (nodes : list ModifierNode) (parent_id : pyval)
    : list flat_modifier :=
  flat_map (flatten_node parent_id) nodes.

(** A flattening [out], given the parent of the roots, is in parent-first
    order: every node it emits has an identifier that counts as true, and
    its parent is the parent of the roots or a node emitted earlier. *)
Definition parent_first (out : pyval -> list flat_modifier) : Prop :=
  forall parent i id p attrs,
    out parent !! i = Some (id, p, attrs) ->
    truthy id = true /\
    (p = parent
     \/ exists j grandparent attrs',
          (j < i)%nat /\ out parent !! j = Some (p, grandparent, attrs')).

(** The record stored for a flattened node of the item [item_iiko_id]. *)
Definition modifier_record (item_iiko_id : pyval) (m : flat_modifier) : pyval :=
  let '(external_id, parent_id, attributes) := m in
  PDict [
    ("iiko_id", external_id);
    ("item_iiko_id", item_iiko_id);
    ("parent_modifier_iiko_id", parent_id);
    ("deleted", dict_get attributes "deleted" (PBool false));
    ("default_amount", dict_get attributes "defaultAmount" (PInt 0));
    ("free_of_charge_amount",
     dict_get attributes "freeOfChargeAmount" (PInt 0));
    ("minimum_amount", dict_get attributes "minimumAmount" (PInt 0));
    ("maximum_amount", dict_get attributes "maximumAmount" (PInt 0));
    ("hide_if_default_amount",
     dict_get attributes "hideIfDefaultAmount" (PBool false));
    ("child_modifiers_have_min_max_restrictions",
     dict_get attributes "childModifiersHaveMinMaxRestrictions" (PBool false));
    ("splittable", dict_get attributes "splittable" (PBool false))].

(** *** Normalisation entry points

    An entry point of the normaliser runs with the wall clock at hand. *)
Definition entry_point : Type := pyval -> io clock pyval.

(** The result does not depend on when the entry point runs. *)
Definition clock_independent (normalize : entry_point) : Prop :=
  forall raw c1 c2, fst (normalize raw c1) = fst (normalize raw c2).

Definition is_timestamp_field (name : string) : bool :=
  String.eqb name "created_at" || String.eqb name "updated_at".

(** A parsed record without its [created_at] and [updated_at] entries. *)
Definition drop_timestamps (record : pyval) : pyval :=
  match record with
  | PDict entries =>
      PDict (List.filter (fun kv => negb (is_timestamp_field (fst kv))) entries)
  | _ => record
  end.

Definition content (parsed : pyval) : pyval :=
  match parsed with
  | PList records => PList (map drop_timestamps records)
  | _ => parsed
  end.

(** *** Reporting periods *)

(** The length in days of the period a name stands for: any name other
    than "week" and "month" stands for a day. *)
Definition period_days (period : string) : Z :=
  if String.eqb period "week" then 7
  else if String.eqb period "month" then 30
  else 1.

(** [t1 - t2] in microseconds, for two datetimes with the same offset. *)
Definition micros_between (t1 t2 : datetime) : Z :=
  (dt_date t1 - dt_date t2) * 86400000000 + (dt_micros t1 - dt_micros t2).

(** *** Amounts of money *)

(** A text with its spaces taken out. *)
Definition without_spaces (text : string) : string :=
  string_of_list_ascii
    (List.filter (fun c => negb (Ascii.eqb c " "))
       (list_ascii_of_string text)).

(** What a character of a number is: neither a comma nor a space. *)
Definition plain (c : ascii) : bool :=
  negb (Ascii.eqb c ",") && negb (Ascii.eqb c " ").

(** The characters of a text, the last one first. *)
Definition from_the_right (text : string) : list ascii :=
  rev (list_ascii_of_string text).

(** *** The error contracts of the handlers *)



(** *** Day windows and runs *)

(** The one-day windows from [from_date] up to, not including, [to_date]. *)
Definition day_windows (from_date to_date : date) : list window :=
  map (fun d => (midnight d, midnight (d + 1)))
      (seqZ from_date (to_date - from_date)).

(** A service that only records the window it is called with. *)
Definition recorder : datetime -> datetime -> io (list window) (gmap string Z) :=
  fun day_from day_to calls => (Returned ∅, (calls ++ [(day_from, day_to)])%list).

(** The windows the day loop of the endpoints hands to the service for the
    bounds [from_dt], [to_dt]. *)
Definition plan (from_dt to_dt : datetime) : option (list window) :=
  let current_date := dt_date from_dt in
  let end_date := dt_date to_dt in
  match day_loop (list window) (Z.to_nat (end_date - current_date)) recorder
          current_date end_date empty_result [] with
  | Some (Returned _, calls) => Some calls
  | _ => None
  end.

(** Calling the service on the windows [ws] in turn, from the world [w]:
    every call returns, giving the results [rs] and the world [w']. *)
Inductive steps_return {World : Type}
    (step : datetime -> datetime -> io World (gmap string Z))
    : list window -> World -> list (gmap string Z) -> World -> Prop :=
| steps_done (w : World) : steps_return step [] w [] w
| steps_next (day_from day_to : datetime) (ws : list window)
      (w w' w'' : World) (r : gmap string Z) (rs : list (gmap string Z)) :
    step day_from day_to w = (Returned r, w') ->
    steps_return step ws w' rs w'' ->
    steps_return step ((day_from, day_to) :: ws) w (r :: rs) w''.

(** The texts of the two bounds as an endpoint has them once the defaults
    are in: a bound that is given is taken as it is, an omitted one is built
    from a reading of the clock, [from_date] first. *)
Definition bound_texts {World : Type} (clock_now : io World datetime)
    (strftime_ymd : datetime -> string) (from_date to_date : option string)
    : io World (string * string) :=
  iobind (bound_or World (default_from_date World clock_now strftime_ymd)
            from_date)
    (fun from_text =>
       iobind (bound_or World (default_to_date World clock_now strftime_ymd)
                 to_date)
         (fun to_text => ret (from_text, to_text))).

(** Field-wise sum of the per-window results onto [result]. *)
Definition totals (result : SyncResult) (rs : list (gmap string Z))
    : SyncResult :=
  fold_left accumulate rs result.

(** The sum of what the windows report under [key]. *)
Definition reported (key : string) (rs : list (gmap string Z)) : Z :=
  fold_right Z.add 0 (map (fun r => default 0 (r !! key)) rs).

(** The two bodies an endpoint can answer with. *)
Definition response_shape (r : response) : Prop :=
  (success r = true /\ exists result, data r = Some result)
  \/ (success r = false /\ data r = None).

End Spec.

(** ** Host instances for the worked examples *)

Module Example.
Import Py Sync.

Fixpoint digits_value (s : string) (acc : Z) : option Z :=
  match s with
  | EmptyString => Some acc
  | String c r =>
      let n := Z.of_N (N_of_ascii c) in
      if (48 <=? n) && (n <=? 57) then digits_value r (10 * acc + (n - 48))
      else None
  end.

(** [float(text)] on optionally signed decimal integers. *)
Definition decimal_float (text : string) : option spec_float :=
  match strip text with
  | EmptyString => None
  | String "-" EmptyString => None
  | String "-" r =>
      option_map (fun n => binary_normalize float_prec float_emax (- n) 0 true)
        (digits_value r 0)
  | t => option_map (fun n => dyadic n 0) (digits_value t 0)
  end.

(** A rendering that only names the class of the value. *)
Definition class_repr (v : pyval) : string := "<" ++ type_name v ++ ">".

(** Two clocks: one stopped on 2025-10-01 at 09:00, one on the next day at
    18:30. *)
Definition morning : clock :=
  fun _ => DateTime (ymd 2025 10 1) (9 * 3600 * 1000000) None.

Definition evening : clock :=
  fun _ => DateTime (ymd 2025 10 2) (18 * 3600 * 1000000 + 1800 * 1000000) None.

(** *** A small world for the endpoints *)

(** [date.fromordinal(n)] as year, month, day. *)
Definition ord2ymd (n : Z) : Z * Z * Z :=
  let n := n - 1 in
  let n400 := n / 146097 in
  let n := n mod 146097 in
  let n100 := n / 36524 in
  let n := n mod 36524 in
  let n4 := n / 1461 in
  let n := n mod 1461 in
  let n1 := n / 365 in
  let n := n mod 365 in
  let year := n400 * 400 + 1 + n100 * 100 + n4 * 4 + n1 in
  if (n1 =? 4) || (n100 =? 4) then (year - 1, 12, 31)
  else
    let month := (n + 50) / 32 in
    if n <? days_before_month year month
    then (year, month - 1, n - days_before_month year (month - 1) + 1)
    else (year, month, n - days_before_month year month + 1).

Definition days_in_month (y m : Z) : Z :=
  if (m =? 2) && is_leap y then 29
  else nth (Z.to_nat m) [0; 31; 28; 31; 30; 31; 30; 31; 31; 30; 31; 30; 31] 0.

Fixpoint pad (width : nat) (s : string) : string :=
  match width with
  | O => s
  | S k => if Nat.ltb (String.length s) width then pad k ("0" ++ s) else s
  end.

(** [t.strftime("%Y-%m-%d")], years written with four digits. *)
Definition strftime_ymd (t : datetime) : string :=
  let '(y, m, d) := ord2ymd (dt_date t) in
  pad 4 (str_of_int y) ++ "-" ++ pad 2 (str_of_int m) ++ "-"
  ++ pad 2 (str_of_int d).

Definition digit (c : ascii) : option Z :=
  let n := Z.of_N (N_of_ascii c) in
  if (48 <=? n) && (n <=? 57) then Some (n - 48) else None.

(** Exactly [k] digits. *)
Fixpoint number (k : nat) (s : string) (acc : Z) : option (Z * string) :=
  match k, s with
  | O, _ => Some (acc, s)
  | S k', String c r =>
      match digit c with
      | Some d => number k' r (10 * acc + d)
      | None => None
      end
  | S _, EmptyString => None
  end.

Definition expect (c : ascii) (s : string) : option string :=
  match s with
  | String c' r => if Ascii.eqb c c' then Some r else None
  | EmptyString => None
  end.

(** [HH:MM:SS], then [.fff] or [.ffffff] if present: microseconds. *)
Definition iso_time (s : string) : option (Z * string) :=
  '(h, s) ← number 2 s 0; s ← expect ":" s;
  '(m, s) ← number 2 s 0; s ← expect ":" s;
  '(sec, s) ← number 2 s 0;
  let whole := ((h * 60 + m) * 60 + sec) * 1000000 in
  if (h <? 24) && (m <? 60) && (sec <? 60) then
    match expect "." s with
    | None => Some (whole, s)
    | Some s' =>
        match number 6 s' 0 with
        | Some (us, s'') => Some (whole + us, s'')
        | None => '(ms, s'') ← number 3 s' 0; Some (whole + ms * 1000, s'')
        end
    end
  else None.

(** [+HH:MM] or [-HH:MM], in minutes. *)
Definition iso_offset (s : string) : option Z :=
  match s with
  | String sign s =>
      '(h, s) ← number 2 s 0; s ← expect ":" s;
      '(m, s) ← number 2 s 0;
      if String.eqb s "" && (h <? 24) && (m <? 60) then
        if Ascii.eqb sign "+" then Some (h * 60 + m)
        else if Ascii.eqb sign "-" then Some (- (h * 60 + m))
        else None
      else None
  | EmptyString => None
  end.

Definition iso_datetime (s : string) : option datetime :=
  '(y, s) ← number 4 s 0; s ← expect "-" s;
  '(m, s) ← number 2 s 0; s ← expect "-" s;
  '(d, s) ← number 2 s 0;
  let day := ymd y m d in
  if (1 <=? y) && (1 <=? m) && (m <=? 12) && (1 <=? d)
     && (d <=? days_in_month y m)
     && (date_min <=? day) && (day <=? date_max)
  then
    match s with
    | EmptyString => Some (DateTime day 0 None)
    | String sep s =>
        if Ascii.eqb sep "T" || Ascii.eqb sep " " then
          '(us, s) ← iso_time s;
          match s with
          | EmptyString => Some (DateTime day us None)
          | _ => off ← iso_offset s; Some (DateTime day us (Some off))
          end
        else None
    end
  else None.

(** [datetime.fromisoformat(text)] for the texts the endpoints build and
    document: [YYYY-MM-DD], optionally followed by [T] or a space and
    [HH:MM:SS], a fraction of three or six digits, a [+HH:MM] offset. *)
Definition fromisoformat (text : string) : outcome datetime :=
  match iso_datetime text with
  | Some t => Returned t
  | None =>
      Raised (Exn ValueError ("Invalid isoformat string: '" ++ text ++ "'"))
  end.

(** What the world has seen happen. *)
Inductive event : Type :=
| Accounts
| Synced (day_from day_to : datetime)
| Invalidated (tag : string)
| Optimized.

Definition world : Type := list event.

Definition happen {A} (e : event) (r : outcome A) : io world A :=
  fun w => (r, (w ++ [e])%list).

(** It is 2025-10-08, 12:00. *)
Definition clock_now : io world datetime :=
  ret (DateTime (ymd 2025 10 8) (12 * 3600 * 1000000) None).

Definition sync_accounts : io world (gmap string Z) :=
  happen Accounts (Returned ∅).

Definition invalidate_cache (tag : string) : io world unit :=
  happen (Invalidated tag) (Returned tt).

Definition optimize_indexes : io world unit :=
  happen Optimized (Returned tt).

Definition counts (c u e d : Z) : gmap string Z :=
  {[ "created" := c; "updated" := u; "errors" := e; "deleted" := d ]}.

(** A service that creates five rows and updates two on each day, except
    that its vendor session is gone on 2025-10-02, where it raises. *)
Definition flaky_service (day_from day_to : datetime) : io world (gmap string Z) :=
  happen (Synced day_from day_to)
    (if dt_date day_from =? ymd 2025 10 2
     then Raised (Exn RuntimeError "session expired")
     else Returned (counts 5 2 0 0)).

(** A service that never raises: a day it cannot fetch is reported in the
    [errors] counter of its result. *)
Definition reporting_service (day_from day_to : datetime)
    : io world (gmap string Z) :=
  happen (Synced day_from day_to)
    (if dt_date day_from =? ymd 2025 10 2
     then Returned (counts 0 0 1 0)
     else Returned (counts 5 2 0 0)).

(** *** A log for the other handlers *)

Definition log : Type := list string.

Definition note {A} (name : string) (r : outcome A) : io log A :=
  fun l => (r, (l ++ [name])%list).

End Example.

(** * Properties *)

Import Py Parser Sync Spec.
Local Open Scope py_scope.
Local Open Scope list_scope.

(** ** Boolean coercion *)

Lemma lower_char_same_letter (c l : ascii) :
  In l ["t"; "r"; "u"; "e"]%char ->
  Ascii.eqb (lower_char c) l = same_letter c l.
Proof.
  intros Hl.
  assert (Hcases : l = "t"%char \/ l = "r"%char \/ l = "u"%char \/ l = "e"%char)
    by (simpl in Hl; intuition).
  destruct Hcases as [-> | [-> | [-> | ->]]];
    destruct c as [[] [] [] [] [] [] [] []]; vm_compute; reflexivity.
Qed.

Lemma lower_is_true (s : string) :
  String.eqb (lower s) "true" = equal_ignoring_case s "true".
Proof.
  destruct s as [|c1 [|c2 [|c3 [|c4 [|c5 s]]]]]; try reflexivity;
    cbn [lower String.eqb equal_ignoring_case];
    rewrite ?(lower_char_same_letter _ "t"), ?(lower_char_same_letter _ "r"),
      ?(lower_char_same_letter _ "u"), ?(lower_char_same_letter _ "e")
      by (simpl; tauto);
    repeat (destruct (same_letter _ _); cbn [andb]; try reflexivity).
Qed.

(** C5. [_parse_boolean] passes a native boolean through, maps a text to
    whether it equals "true" ignoring case, and maps every other value to
    [False]. *)
Theorem parse_boolean_coercion :
  (forall b, _parse_boolean (PBool b) = PBool b) /\
  (forall s, _parse_boolean (PStr s) = PBool (equal_ignoring_case s "true")) /\
  (forall v,
     match v with
     | PBool _ | PStr _ => True
     | _ => _parse_boolean v = PBool false
     end) /\
  _parse_boolean (PStr "TRUE") = PBool true /\
  _parse_boolean (PStr "false") = PBool false /\
  _parse_boolean (PBool true) = PBool true /\
  _parse_boolean (PInt 123) = PBool false.
Proof.
  repeat split; try reflexivity.
  - intros s. unfold _parse_boolean. now rewrite lower_is_true.
  - intros v. now destruct v.
Qed.

(** ** Safe-get *)

Lemma dict_get_absent (d : list (string * pyval)) (k : string) (v : pyval) :
  dict_has d k = false -> dict_get d k v = v.
Proof.
  induction d as [|[k' x] d IH]; simpl; [reflexivity|].
  destruct (String.eqb k' k); simpl; [discriminate | exact IH].
Qed.

(** C9. With the default [None], [_safe_get] gives the same result, [None],
    for a mapping [d] that binds the key to [{}] and for a mapping [d'] from
    which the key is absent. *)
Theorem safe_get_empty_as_absent (d d' : list (string * pyval)) (k : string) :
  dict_get d k PNone = PDict [] ->
  dict_has d' k = false ->
  _safe_get (PDict d) k PNone = _safe_get (PDict d') k PNone /\
  _safe_get (PDict d) k PNone = Returned PNone.
Proof.
  intros Hempty Habsent. unfold _safe_get. simpl.
  rewrite Hempty, (dict_get_absent d' k PNone Habsent). simpl. auto.
Qed.

Lemma safe_get_empty_as_absent_witness :
  _safe_get (PDict [("Id", PStr "7"); ("Product.Id", PDict [])]) "Product.Id"
    PNone
  = _safe_get (PDict [("Id", PStr "7")]) "Product.Id" PNone /\
  _safe_get (PDict [("Id", PStr "7"); ("Product.Id", PDict [])]) "Product.Id"
    PNone
  = Returned PNone.
Proof.
  apply (safe_get_empty_as_absent
           [("Id", PStr "7"); ("Product.Id", PDict [])] [("Id", PStr "7")]
           "Product.Id"); reflexivity.
Defined.

(** ** Conversions between ints and floats *)

Lemma shr_1_digits (s : shr_record) :
  0 <= shr_m s ->
  0 <= shr_m (shr_1 s)
  /\ Zdigits2 (shr_m (shr_1 s)) = Z.max 0 (Zdigits2 (shr_m s) - 1).
Proof.
  destruct s as [m r t]. simpl. intros Hm.
  destruct m as [|[p|p|]|p]; simpl; try lia.
Qed.

Lemma iter_shr_1_digits (p : positive) :
  forall s,
    0 <= shr_m s ->
    0 <= shr_m (SpecFloat.iter_pos shr_1 p s)
    /\ Zdigits2 (shr_m (SpecFloat.iter_pos shr_1 p s))
       = Z.max 0 (Zdigits2 (shr_m s) - Z.pos p).
Proof.
  induction p as [p IH|p IH|]; intros s Hs; simpl.
  - destruct (shr_1_digits s Hs) as [H0 D0].
    destruct (IH _ H0) as [H1 D1]. destruct (IH _ H1) as [H2 D2].
    split; [exact H2|]. rewrite D2, D1, D0. lia.
  - destruct (IH _ Hs) as [H1 D1]. destruct (IH _ H1) as [H2 D2].
    split; [exact H2|]. rewrite D2, D1. lia.
  - apply shr_1_digits, Hs.
Qed.

Lemma digits2_succ (p : positive) :
  (digits2_pos (Pos.succ p) <= digits2_pos p + 1)%positive.
Proof. induction p; simpl; lia. Qed.

Lemma round_nearest_even_digits (m : Z) (l : location) :
  0 <= m ->
  0 <= round_nearest_even m l
  /\ Zdigits2 (round_nearest_even m l) <= Zdigits2 m + 1.
Proof.
  intros Hm.
  assert (Hsucc : 0 <= m + 1 /\ Zdigits2 (m + 1) <= Zdigits2 m + 1).
  { split; [lia|]. destruct m as [|p|p]; simpl; try lia.
    rewrite Pos.add_1_r. pose proof (digits2_succ p). lia. }
  destruct l as [|[]]; simpl; try (split; lia); try exact Hsucc.
  destruct (Z.even m); [split; lia | exact Hsucc].
Qed.

Lemma shr_fexp_nonneg (m e : Z) (l : location) :
  0 <= m -> 0 <= shr_m (fst (shr_fexp float_prec float_emax m e l)).
Proof.
  intros Hm. unfold shr_fexp, shr.
  assert (Hrecord : 0 <= shr_m (shr_record_of_loc m l))
    by (destruct l as [|[]]; simpl; lia).
  destruct (fexp float_prec float_emax (Zdigits2 m + e) - e);
    cbn [fst]; try exact Hrecord.
  now apply iter_shr_1_digits.
Qed.

(** Rounding a positive mantissa never gives NaN. *)
Lemma binary_round_not_nan (sx : bool) (mx : positive) (ex : Z) :
  binary_round float_prec float_emax sx mx ex <> S754_nan.
Proof.
  unfold binary_round.
  destruct (shl_align mx ex _) as [mz ez]. unfold binary_round_aux.
  pose proof (shr_fexp_nonneg (Z.pos mz) ez loc_Exact (Pos2Z.is_nonneg mz))
    as H1.
  destruct (shr_fexp float_prec float_emax (Z.pos mz) ez loc_Exact)
    as [mrs' e'].
  cbn [fst] in H1.
  destruct (round_nearest_even_digits (shr_m mrs') (loc_of_shr_record mrs') H1)
    as [H2 _].
  pose proof (shr_fexp_nonneg _ e' loc_Exact H2) as H3.
  destruct (shr_fexp float_prec float_emax
              (round_nearest_even (shr_m mrs') (loc_of_shr_record mrs')) e'
              loc_Exact) as [mrs'' e''].
  cbn [fst] in H3.
  destruct (shr_m mrs'') as [|m|m]; [discriminate| |lia].
  destruct (e'' <=? float_emax - float_prec); discriminate.
Qed.

Lemma shr_fexp_exponent (m e : Z) (l : location) :
  e <= snd (shr_fexp float_prec float_emax m e l).
Proof.
  unfold shr_fexp, shr.
  destruct (fexp float_prec float_emax (Zdigits2 m + e) - e); simpl; lia.
Qed.

Lemma digits2_shift (mx k : positive) :
  digits2_pos (Pos.iter xO mx k) = (digits2_pos mx + k)%positive.
Proof.
  induction k as [|k IH] using Pos.peano_ind.
  - simpl. lia.
  - rewrite Pos.iter_succ. simpl. rewrite IH. lia.
Qed.

Lemma pos_shift (mx k : positive) :
  Z.pos (Pos.iter xO mx k) = Z.pos mx * 2 ^ Z.pos k.
Proof.
  induction k as [|k IH] using Pos.peano_ind.
  - simpl. lia.
  - rewrite Pos.iter_succ, Pos2Z.inj_xO, IH, Pos2Z.inj_succ, Z.pow_succ_r by lia.
    lia.
Qed.

(** Rounding an integer to binary64 leaves an integer: either the exponent
    stays non-negative, or the mantissa was only shifted left. *)
Lemma binary_round_integral (sx : bool) (mx : positive) :
  match binary_round float_prec float_emax sx mx 0 with
  | S754_finite _ m e => is_integer (S754_finite sx m e) = true
  | _ => True
  end.
Proof.
  unfold binary_round, shl_align.
  pose proof (Pos2Z.is_pos (digits2_pos mx)) as Hd.
  assert (Hfexp : fexp float_prec float_emax (Z.pos (digits2_pos mx) + 0)
                  = Z.pos (digits2_pos mx) - 53).
  { unfold fexp, emin, float_prec, float_emax. lia. }
  rewrite Hfexp.
  destruct (Z.pos (digits2_pos mx) - 53 - 0) as [|k|k] eqn:Hk.
  1,2: unfold binary_round_aux;
    pose proof (shr_fexp_exponent (Z.pos mx) 0 loc_Exact) as H1;
    destruct (shr_fexp float_prec float_emax (Z.pos mx) 0 loc_Exact)
      as [mrs' e'];
    match goal with
    | |- context [shr_fexp _ _ ?m e' ?l] =>
        pose proof (shr_fexp_exponent m e' l) as H2;
        destruct (shr_fexp float_prec float_emax m e' l) as [mrs'' e'']
    end;
    simpl in H1, H2;
    destruct (shr_m mrs''); trivial;
    destruct (e'' <=? float_emax - float_prec); trivial;
    simpl; destruct (0 <=? e'') eqn:He; [reflexivity | lia].
  assert (Hez : Z.pos (digits2_pos mx) - 53 = Z.neg k) by lia.
  rewrite Hez.
  assert (Hshr : forall l,
    shr_fexp float_prec float_emax (Z.pos (Pos.iter xO mx k)) (Z.neg k) l
    = (shr_record_of_loc (Z.pos (Pos.iter xO mx k)) l, Z.neg k)).
  { intros l. unfold shr_fexp, Zdigits2. rewrite digits2_shift.
    replace (fexp float_prec float_emax
               (Z.pos (digits2_pos mx + k) + Z.neg k) - Z.neg k) with 0.
    - reflexivity.
    - unfold fexp, emin, float_prec, float_emax. lia. }
  unfold binary_round_aux. rewrite Hshr. simpl shr_record_of_loc.
  simpl shr_m. simpl loc_of_shr_record. simpl round_nearest_even.
  rewrite Hshr. simpl shr_m.
  destruct (Z.neg k <=? float_emax - float_prec); trivial.
  simpl. rewrite pos_shift.
  rewrite Z.mod_mul by lia. reflexivity.
Qed.

Lemma float_of_int_integral (n : Z) (x : spec_float) :
  float_of_int n = Returned x -> is_integer x = true.
Proof.
  unfold float_of_int, binary_normalize.
  destruct n as [|m|m].
  - intros [= <-]. reflexivity.
  - pose proof (binary_round_integral false m) as H.
    pose proof (binary_round_not_nan false m 0) as Hnan.
    destruct (binary_round float_prec float_emax false m 0);
      intros [= <-]; auto.
  - pose proof (binary_round_integral true m) as H.
    pose proof (binary_round_not_nan true m 0) as Hnan.
    destruct (binary_round float_prec float_emax true m 0);
      intros [= <-]; auto.
Qed.

Lemma integral_float_to_int (x : spec_float) :
  is_integer x = true -> exists n, int_of_float x = Returned n.
Proof. destruct x; simpl; try discriminate; eauto. Qed.

Lemma digits2_lower (p : positive) : 2 ^ (Z.pos (digits2_pos p) - 1) <= Z.pos p.
Proof.
  induction p as [p IH|p IH|]; simpl digits2_pos; try (simpl; lia).
  - rewrite Pos2Z.inj_succ. replace (Z.succ (Z.pos (digits2_pos p)) - 1)
      with (Z.succ (Z.pos (digits2_pos p) - 1)) by lia.
    rewrite Z.pow_succ_r by lia. lia.
  - rewrite Pos2Z.inj_succ. replace (Z.succ (Z.pos (digits2_pos p)) - 1)
      with (Z.succ (Z.pos (digits2_pos p) - 1)) by lia.
    rewrite Z.pow_succ_r by lia. lia.
Qed.

Lemma shr_fexp_zero_shift (m e : Z) (l : location) :
  fexp float_prec float_emax (Zdigits2 m + e) - e <= 0 ->
  shr_fexp float_prec float_emax m e l = (shr_record_of_loc m l, e).
Proof.
  intros H. unfold shr_fexp, shr.
  destruct (fexp float_prec float_emax (Zdigits2 m + e) - e); try reflexivity.
  lia.
Qed.

Lemma binary_round_finite (sx : bool) (mx : positive) :
  Z.pos mx < 2 ^ 1023 ->
  match binary_round float_prec float_emax sx mx 0 with
  | S754_infinity _ | S754_nan => False
  | _ => True
  end.
Proof.
  intros Hrange.
  assert (Hd : Z.pos (digits2_pos mx) <= 1023).
  { pose proof (digits2_lower mx) as Hlow.
    destruct (Z.le_gt_cases (Z.pos (digits2_pos mx)) 1023) as [H|H]; [exact H|].
    assert (2 ^ 1023 <= 2 ^ (Z.pos (digits2_pos mx) - 1))
      by (apply Z.pow_le_mono_r; lia).
    lia. }
  clear Hrange.
  unfold binary_round, shl_align.
  assert (Hfexp : fexp float_prec float_emax (Z.pos (digits2_pos mx) + 0)
                  = Z.pos (digits2_pos mx) - 53).
  { unfold fexp, emin, float_prec, float_emax. lia. }
  rewrite Hfexp.
  destruct (Z.pos (digits2_pos mx) - 53 - 0) as [|k|k] eqn:Hk.
  - (* exactly 53 digits: nothing moves *)
    unfold binary_round_aux.
    rewrite shr_fexp_zero_shift
      by (simpl Zdigits2; unfold fexp, emin, float_prec, float_emax; lia).
    simpl shr_record_of_loc. simpl shr_m. simpl loc_of_shr_record.
    simpl round_nearest_even.
    rewrite shr_fexp_zero_shift
      by (simpl Zdigits2; unfold fexp, emin, float_prec, float_emax; lia).
    simpl. exact I.
  - (* more than 53 digits: shifted right, rounded, shifted once more at most *)
    assert (H1 : shr_fexp float_prec float_emax (Z.pos mx) 0 loc_Exact
                 = (SpecFloat.iter_pos shr_1 k
                      {| shr_m := Z.pos mx; shr_r := false; shr_s := false |},
                    Z.pos k)).
    { unfold shr_fexp, shr. simpl Zdigits2. rewrite Hfexp.
      replace (Z.pos (digits2_pos mx) - 53 - 0) with (Z.pos k).
      reflexivity. }
    unfold binary_round_aux. rewrite H1. clear H1.
    destruct (iter_shr_1_digits k
                {| shr_m := Z.pos mx; shr_r := false; shr_s := false |})
      as [Hpos Hdig]; [simpl; lia|].
    simpl shr_m in Hdig at 2. simpl Zdigits2 in Hdig at 2.
    set (mrs' := SpecFloat.iter_pos shr_1 k
                   {| shr_m := Z.pos mx; shr_r := false; shr_s := false |}) in *.
    destruct (round_nearest_even_digits (shr_m mrs') (loc_of_shr_record mrs')
                Hpos) as [Hrpos Hrdig].
    set (rounded := round_nearest_even (shr_m mrs') (loc_of_shr_record mrs'))
      in *.
    assert (Hshift :
      fexp float_prec float_emax (Zdigits2 rounded + Z.pos k) - Z.pos k <= 1).
    { unfold fexp, emin, float_prec, float_emax. lia. }
    unfold shr_fexp, shr.
    destruct (fexp float_prec float_emax (Zdigits2 rounded + Z.pos k)
              - Z.pos k) as [|j|j] eqn:Hj.
    + simpl. destruct rounded as [|r|r]; [exact I| |lia].
      destruct (Z.pos k <=? float_emax - float_prec) eqn:He; [exact I|].
      unfold float_emax, float_prec in He. lia.
    + assert (j = 1%positive) by lia. subst j. cbn [SpecFloat.iter_pos].
      destruct (shr_1_digits (shr_record_of_loc rounded loc_Exact))
        as [Hspos _]; [simpl; lia|].
      destruct (shr_m (shr_1 (shr_record_of_loc rounded loc_Exact)))
        as [|r|r]; [exact I| |lia].
      destruct (Z.pos k + 1 <=? float_emax - float_prec) eqn:He; [exact I|].
      unfold float_emax, float_prec in He. lia.
    + simpl. destruct rounded as [|r|r]; [exact I| |lia].
      destruct (Z.pos k <=? float_emax - float_prec) eqn:He; [exact I|].
      unfold float_emax, float_prec in He. lia.
  - (* fewer than 53 digits: shifted left *)
    assert (Hez : Z.pos (digits2_pos mx) - 53 = Z.neg k) by lia.
    rewrite Hez.
    assert (Hshr : forall l,
      shr_fexp float_prec float_emax (Z.pos (Pos.iter xO mx k)) (Z.neg k) l
      = (shr_record_of_loc (Z.pos (Pos.iter xO mx k)) l, Z.neg k)).
    { intros l. apply shr_fexp_zero_shift. unfold Zdigits2.
      rewrite digits2_shift. pose proof (Pos2Z.is_pos (digits2_pos mx)).
      unfold fexp, emin, float_prec, float_emax. lia. }
    unfold binary_round_aux. rewrite Hshr. simpl shr_record_of_loc.
    simpl shr_m. simpl loc_of_shr_record. simpl round_nearest_even.
    rewrite Hshr. simpl shr_m.
    destruct (Z.neg k <=? float_emax - float_prec) eqn:He; [exact I|].
    vm_compute in He. discriminate He.
Qed.

Lemma float_of_int_converts (n : Z) :
  Z.abs n < 2 ^ 1023 -> exists x, float_of_int n = Returned x.
Proof.
  intros Hn. unfold float_of_int, binary_normalize.
  destruct n as [|m|m].
  - eauto.
  - pose proof (binary_round_finite false m Hn) as H.
    destruct (binary_round float_prec float_emax false m 0);
      try contradiction; eauto.
  - pose proof (binary_round_finite true m Hn) as H.
    destruct (binary_round float_prec float_emax true m 0);
      try contradiction; eauto.
Qed.

(** ** Numeric coercion *)

Section NumericCoercion.

Variable float_of_str : string -> option spec_float.

Lemma first_numeric_find (d : list (string * pyval)) (keys : list string) :
  first_numeric d keys =
  match find (numeric_at d) keys with
  | Some key => omap PFloat (py_float (dict_get d key PNone))
  | None => Returned PNone
  end.
Proof.
  induction keys as [|key keys IH]; simpl; [reflexivity|].
  unfold numeric_at at 1.
  destruct (dict_has d key && is_int_or_float (dict_get d key PNone));
    [reflexivity | exact IH].
Qed.

(** C10. Booleans pass the numeric test of [_extract_numeric_value]: [True]
    gives 1.0 and [False] gives 0.0, as the value itself and as the value
    of any of the priority keys of a mapping. *)
Theorem extract_numeric_boolean :
  (forall b, is_int_or_float (PBool b) = true) /\
  _extract_numeric_value float_of_str (PBool true)
    = Returned (PFloat (dyadic 1 0)) /\
  _extract_numeric_value float_of_str (PBool false)
    = Returned (PFloat (S754_zero false)) /\
  Forall (fun key =>
            _extract_numeric_value float_of_str (PDict [(key, PBool true)])
              = Returned (PFloat (dyadic 1 0)) /\
            _extract_numeric_value float_of_str (PDict [(key, PBool false)])
              = Returned (PFloat (S754_zero false)))
         numeric_keys /\
  _extract_numeric_value float_of_str (PDict [("sum", PBool true)])
    = Returned (PFloat (dyadic 1 0)).
Proof.
  repeat split; try reflexivity.
  repeat constructor.
Qed.

(** C3, for the numbers that convert. A number whose [float] does not
    overflow (every float, every boolean, every int of magnitude below
    [2 ** 1023]) is returned as that float; a text is returned parsed, or as
    [None] when it does not parse; a mapping gives the float of the first of
    the keys "sum", "value", "amount", "price", "average" that holds a
    number, and [None] when none does; every other value gives [None]. *)
Theorem extract_numeric_dispatch :
  numeric_keys = ["sum"; "value"; "amount"; "price"; "average"] /\
  (forall v x, is_int_or_float v = true -> py_float v = Returned x ->
     _extract_numeric_value float_of_str v = Returned (PFloat x)) /\
  (forall x, _extract_numeric_value float_of_str (PFloat x)
             = Returned (PFloat x)) /\
  (forall n, Z.abs n < 2 ^ 1023 ->
     exists x, float_of_int n = Returned x /\
       _extract_numeric_value float_of_str (PInt n) = Returned (PFloat x)) /\
  (forall s,
     _extract_numeric_value float_of_str (PStr s)
     = Returned (match float_of_str s with
                 | Some x => PFloat x
                 | None => PNone
                 end)) /\
  (forall d key x,
     find (numeric_at d) numeric_keys = Some key ->
     py_float (dict_get d key PNone) = Returned x ->
     _extract_numeric_value float_of_str (PDict d) = Returned (PFloat x)) /\
  (forall d,
     find (numeric_at d) numeric_keys = None ->
     _extract_numeric_value float_of_str (PDict d) = Returned PNone) /\
  (forall v,
     match v with
     | PNone | PList _ | PTuple _ | PSet _ | PDateTime _ | PObject _ _ =>
         _extract_numeric_value float_of_str v = Returned PNone
     | _ => True
     end) /\
  _extract_numeric_value float_of_str (PDict [("sum", PFloat (dyadic 25 (-1)))])
    = Returned (PFloat (dyadic 25 (-1))) /\
  (float_of_str "7" = Some (dyadic 7 0) ->
   _extract_numeric_value float_of_str (PStr "7")
     = Returned (PFloat (dyadic 7 0))) /\
  _extract_numeric_value float_of_str (PInt 7) = Returned (PFloat (dyadic 7 0)) /\
  _extract_numeric_value float_of_str (PDict []) = Returned PNone /\
  _extract_numeric_value float_of_str (PDict [("foo", PInt 1)])
    = Returned PNone.
Proof.
  split; [reflexivity|].
  split.
  { intros v x Hv Hx. destruct v; try discriminate; simpl in *;
      unfold omap; try rewrite Hx; simpl; congruence. }
  split; [reflexivity|].
  split.
  { intros n Hn. destruct (float_of_int_converts n Hn) as [x Hx].
    exists x. split; [exact Hx|]. simpl. unfold omap. now rewrite Hx. }
  split; [intros s; simpl; now destruct (float_of_str s)|].
  split.
  { intros d key x Hkey Hx. unfold _extract_numeric_value.
    rewrite first_numeric_find, Hkey. unfold omap. now rewrite Hx. }
  split.
  { intros d Hkey. unfold _extract_numeric_value.
    now rewrite first_numeric_find, Hkey. }
  split; [intros v; now destruct v|].
  split; [reflexivity|].
  split; [intros H7; simpl; now rewrite H7|].
  repeat split; reflexivity.
Qed.

End NumericCoercion.

Lemma extract_numeric_dispatch_witness :
  _extract_numeric_value Example.decimal_float (PStr "7")
    = Returned (PFloat (dyadic 7 0)) /\
  _extract_numeric_value Example.decimal_float (PInt 19758)
    = Returned (PFloat (dyadic 19758 0)) /\
  _extract_numeric_value Example.decimal_float
    (PDict [("value", PStr "3"); ("price", PInt 4); ("average", PInt 5)])
    = Returned (PFloat (dyadic 4 0)) /\
  _extract_numeric_value Example.decimal_float
    (PDict [("total", PInt 3); ("sum", PStr "3")])
    = Returned PNone.
Proof.
  pose proof (extract_numeric_dispatch Example.decimal_float) as H.
  destruct H as (_ & Hnum & _ & _ & _ & Hfound & Hnone & _ & _ & H7 & _).
  split; [apply H7; reflexivity|].
  split; [apply Hnum; reflexivity|].
  split; [apply (Hfound _ "price"); reflexivity | apply Hnone; reflexivity].
Defined.

(** C3 as stated fails on an int beyond the float range: [float(2 ** 1024)]
    raises, so no float is returned. *)
Lemma extract_numeric_huge_int_raises :
  _extract_numeric_value Example.decimal_float (PInt (2 ^ 1024))
  = Raised (Exn OverflowError "int too large to convert to float").
Proof. vm_compute. reflexivity. Qed.

(** ** Composite-identifier coercion *)

Lemma drop_spaces_split (l : list string) :
  exists spaces,
    l = spaces ++ drop_spaces l /\
    List.Forall (fun ch => is_space ch = true) spaces /\
    (forall ch, hd_error (drop_spaces l) = Some ch -> is_space ch = false).
Proof.
  induction l as [|c l (spaces & Hl & Hspaces & Hhead)].
  - exists []. repeat split; [constructor | discriminate].
  - simpl. destruct (is_space c) eqn:Hc.
    + exists (c :: spaces). cbn [app]. rewrite <- Hl.
      repeat split; [constructor; assumption | exact Hhead].
    + exists []. repeat split; [constructor|].
      intros ch [= <-]. exact Hc.
Qed.

Lemma strip_trimmed (s : string) : trimmed s (strip s).
Proof.
  destruct (drop_spaces_split (chars s)) as (before & Hs & Hbefore & Hfirst).
  destruct (drop_spaces_split (rev (drop_spaces (chars s))))
    as (after & Hrev & Hafter & Hlast).
  set (rest := drop_spaces (chars s)) in *.
  set (middle := rev (drop_spaces (rev rest))) in *.
  assert (Hrest : rest = middle ++ rev after).
  { rewrite <- (rev_involutive rest), Hrev, rev_app_distr. reflexivity. }
  exists before, middle, (rev after).
  split; [now rewrite <- Hrest|].
  split; [exact Hbefore|].
  split; [now apply List.Forall_rev|].
  split; [reflexivity|].
  split.
  - intros ch Hch. apply Hfirst. rewrite Hrest.
    destruct middle; [discriminate | exact Hch].
  - intros ch Hch. apply Hlast. unfold middle in Hch.
    now rewrite rev_involutive in Hch.
Qed.

Section CompositeIdentifier.

Variable repr : pyval -> string.

Lemma clean_items_traverse (items : list pyval) (cleaned : list string) :
  clean_items repr items cleaned
  = omap (app cleaned)
      (traverse (scalar_rule repr) (List.filter non_null items)).
Proof.
  revert cleaned.
  induction items as [|item items IH]; intros cleaned.
  - simpl. now rewrite app_nil_r.
  - cbn [List.filter]. destruct (non_null item) eqn:Hitem.
    + assert (Hstep : clean_items repr (item :: items) cleaned
                      = bind (scalar_rule repr item)
                          (fun s => clean_items repr items (cleaned ++ [s]))).
      { destruct item; try discriminate; reflexivity. }
      rewrite Hstep. cbn [traverse].
      destruct (scalar_rule repr item) as [s|e]; simpl; [|reflexivity].
      rewrite IH.
      destruct (traverse (scalar_rule repr) (List.filter non_null items));
        simpl; [|reflexivity].
      now rewrite <- app_assoc.
    + destruct item; try discriminate. simpl. apply IH.
Qed.

Lemma sequence_rule_correct (items : list pyval) :
  omap join_cleaned (clean_items repr items []) = sequence_rule repr items.
Proof.
  rewrite clean_items_traverse. unfold sequence_rule.
  now destruct (traverse (scalar_rule repr) (List.filter non_null items)).
Qed.

(** C6, for the numbers that convert. [None] gives [None]; a number whose
    [float] does not overflow (every float, every boolean, every int of
    magnitude below [2 ** 1023]) is rendered as [str(int(value))] when it
    has no fractional part and as its [str] otherwise; a text is returned
    trimmed;
    a list, tuple or set gives the scalar rule applied to every element that
    is not [None], joined with ", ", or [None] when nothing is left; any
    other value gives its trimmed [str]. *)
Theorem fiscal_cheque_number_coercion :
  _extract_fiscal_cheque_number repr PNone = Returned PNone /\
  (forall x, is_integer x = true ->
     exists n, int_of_float x = Returned n /\
       _extract_fiscal_cheque_number repr (PFloat x)
       = Returned (PStr (str_of_int n))) /\
  (forall x, is_integer x = false ->
     _extract_fiscal_cheque_number repr (PFloat x)
     = Returned (PStr (repr (PFloat x)))) /\
  (forall n x, float_of_int n = Returned x ->
     _extract_fiscal_cheque_number repr (PInt n)
     = Returned (PStr (str_of_int n))) /\
  (forall n, Z.abs n < 2 ^ 1023 ->
     _extract_fiscal_cheque_number repr (PInt n)
     = Returned (PStr (str_of_int n))) /\
  (forall b, _extract_fiscal_cheque_number repr (PBool b)
             = Returned (PStr (str_of_int (int_of_bool b)))) /\
  (forall s, _extract_fiscal_cheque_number repr (PStr s)
             = Returned (PStr (strip s)) /\ trimmed s (strip s)) /\
  (forall items parts,
     traverse (scalar_rule repr) (List.filter non_null items) = Returned parts ->
     let rendered :=
       Returned (match parts with
                 | [] => PNone
                 | _ => PStr (join ", " parts)
                 end) in
     _extract_fiscal_cheque_number repr (PList items) = rendered /\
     _extract_fiscal_cheque_number repr (PTuple items) = rendered /\
     _extract_fiscal_cheque_number repr (PSet items) = rendered) /\
  (forall v,
     match v with
     | PDict _ | PDateTime _ | PObject _ _ =>
         _extract_fiscal_cheque_number repr v
         = Returned (PStr (strip (py_str repr v)))
     | PNone | PList _ | PTuple _ | PSet _ => True
     | _ => _extract_fiscal_cheque_number repr v
            = omap PStr (scalar_rule repr v)
     end) /\
  _extract_fiscal_cheque_number repr (PFloat (dyadic 19758 0))
    = Returned (PStr "19758") /\
  _extract_fiscal_cheque_number repr (PList [PInt 19758; PInt 23])
    = Returned (PStr "19758, 23") /\
  _extract_fiscal_cheque_number repr (PList []) = Returned PNone /\
  _extract_fiscal_cheque_number repr (PList [PNone; PNone]) = Returned PNone.
Proof.
  split; [reflexivity|].
  split.
  { intros x Hx. destruct (integral_float_to_int x Hx) as [n Hn].
    exists n. split; [exact Hn|].
    simpl. unfold render_number. simpl. rewrite Hx. simpl.
    now rewrite Hn. }
  split.
  { intros x Hx. simpl. unfold render_number. simpl. rewrite Hx.
    destruct x; reflexivity. }
  split.
  { intros n x Hx. simpl. unfold render_number. simpl.
    rewrite Hx. simpl. now rewrite (float_of_int_integral n x Hx). }
  split.
  { intros n Hn. destruct (float_of_int_converts n Hn) as [x Hx].
    simpl. unfold render_number. simpl.
    rewrite Hx. simpl. now rewrite (float_of_int_integral n x Hx). }
  split; [intros []; reflexivity|].
  split; [intros s; split; [reflexivity | apply strip_trimmed]|].
  split.
  { intros items parts Hparts rendered. simpl.
    rewrite sequence_rule_correct. unfold sequence_rule. rewrite Hparts.
    auto. }
  split; [intros v; now destruct v|].
  repeat split; reflexivity.
Qed.

End CompositeIdentifier.

Lemma fiscal_cheque_number_coercion_witness :
  _extract_fiscal_cheque_number Example.class_repr (PInt 19758)
    = Returned (PStr "19758") /\
  (exists n, int_of_float (dyadic (-3) 2) = Returned n /\
     _extract_fiscal_cheque_number Example.class_repr (PFloat (dyadic (-3) 2))
     = Returned (PStr (str_of_int n))) /\
  _extract_fiscal_cheque_number Example.class_repr (PFloat (dyadic 5 (-1)))
    = Returned (PStr "<float>") /\
  _extract_fiscal_cheque_number Example.class_repr
    (PTuple [PStr " 0042 "; PNone; PFloat (dyadic 23 0); PBool true])
    = Returned (PStr "0042, 23, 1").
Proof.
  pose proof (fiscal_cheque_number_coercion Example.class_repr) as H.
  destruct H as (_ & Hintegral & Hfraction & Hint & _ & _ & _ & Hseq & _).
  split; [apply (Hint 19758 (dyadic 19758 0)); reflexivity|].
  split; [apply Hintegral; reflexivity|].
  split; [apply Hfraction; reflexivity|].
  apply (Hseq [PStr " 0042 "; PNone; PFloat (dyadic 23 0); PBool true]
           ["0042"; "23"; "1"]).
  reflexivity.
Defined.

(** C6 as stated fails on an int beyond the float range, a number without
    fractional part that is not rendered at all: [float(2 ** 1024)] raises. *)
Lemma fiscal_cheque_number_huge_int_raises :
  _extract_fiscal_cheque_number Example.class_repr (PInt (2 ^ 1024))
  = Raised (Exn OverflowError "int too large to convert to float").
Proof. vm_compute. reflexivity. Qed.

(** ** Modifier-tree flattening *)

Lemma depth_item_lt (x : pyval) (l : list pyval) :
  In x l ->
  (depth x < depth (PList l) /\ depth x < depth (PTuple l)
   /\ depth x < depth (PSet l))%nat.
Proof.
  induction l as [|y l IH]; intros Hin; [contradiction|].
  destruct Hin as [-> | Hin].
  - simpl. lia.
  - specialize (IH Hin). simpl in *. lia.
Qed.

Lemma depth_dict_get_lt (entries : list (string * pyval)) (key : string) :
  dict_has entries key = true ->
  (depth (dict_get entries key PNone) < depth (PDict entries))%nat.
Proof.
  induction entries as [|[k v] entries IH]; simpl; [discriminate|].
  destruct (String.eqb k key); simpl.
  - intros _. lia.
  - intros Hhas. specialize (IH Hhas). simpl in IH. lia.
Qed.

Lemma depth_iterate (v : pyval) (items : list pyval) (x : pyval) :
  iterate v = Returned items -> In x items -> (depth x < S (depth v))%nat.
Proof.
  destruct v; simpl; try discriminate; intros [= <-] Hin.
  - apply in_map_iff in Hin as (c & <- & _). simpl. lia.
  - pose proof (depth_item_lt x items0 Hin). simpl in *. lia.
  - pose proof (depth_item_lt x items0 Hin). simpl in *. lia.
  - pose proof (depth_item_lt x items0 Hin). simpl in *. lia.
  - apply in_map_iff in Hin as (c & <- & _). simpl. lia.
Qed.

Lemma modifiers_loop_total
    (body : pyval -> list pyval -> option (outcome (list pyval)))
    (items : list pyval) :
  (forall x acc, In x items -> body x acc <> None) ->
  forall acc, modifiers_loop body items acc <> None.
Proof.
  induction items as [|x items IH]; intros Hbody acc; simpl; [discriminate|].
  pose proof (Hbody x acc (or_introl eq_refl)) as Hx.
  destruct (body x acc) as [[acc'|e]|]; try discriminate; [|contradiction].
  apply IH. intros y acc'' Hy. apply Hbody. now right.
Qed.

(** The recursion never goes deeper than the data is nested. *)
Lemma parse_modifier_recursive_total (fuel : nat) :
  forall item mod_data parent acc,
    (depth mod_data < fuel)%nat ->
    parse_modifier_recursive fuel item mod_data parent acc <> None.
Proof.
  induction fuel as [|fuel IH]; intros item mod_data parent acc Hfuel; [lia|].
  simpl.
  destruct mod_data; simpl; try discriminate.
  destruct (truthy (dict_get entries "modifier" PNone)); simpl;
    [|discriminate].
  destruct (truthy (dict_get entries "childModifiers" PNone)) eqn:Hkids;
    [|discriminate].
  destruct (iterate (dict_get entries "childModifiers" PNone))
    as [children|e] eqn:Hiter; [|discriminate].
  apply modifiers_loop_total. intros x acc' Hx. apply IH.
  assert (Hhas : dict_has entries "childModifiers" = true).
  { destruct (dict_has entries "childModifiers") eqn:Hhas; [reflexivity|].
    rewrite (dict_get_absent _ _ PNone Hhas) in Hkids. discriminate. }
  pose proof (depth_dict_get_lt entries "childModifiers" Hhas) as Hlt.
  pose proof (depth_iterate _ _ x Hiter Hx) as Hx'.
  lia.
Qed.

Lemma parse_item_modifiers_total (modifiers_data item : pyval) (fuel : nat) :
  (depth modifiers_data < fuel)%nat ->
  parse_item_modifiers_within fuel modifiers_data item <> None.
Proof.
  intros Hfuel. unfold parse_item_modifiers_within.
  destruct (truthy modifiers_data); simpl; [|discriminate].
  destruct (iterate modifiers_data) as [items|e] eqn:Hiter; [|discriminate].
  pose proof (modifiers_loop_total
    (fun modifier acc =>
       parse_modifier_recursive fuel item modifier PNone acc) items) as Hloop.
  destruct (modifiers_loop _ items []) eqn:Hrun; [discriminate|].
  exfalso. revert Hrun. apply Hloop.
  intros x acc Hx. apply parse_modifier_recursive_total.
  pose proof (depth_iterate _ _ x Hiter Hx). lia.
Qed.

Lemma parsed_modifier_encode (item parent : pyval) (n : ModifierNode) :
  parsed_modifier item (encode n) (node_id n) parent
  = Returned (modifier_record item
                (node_id n, parent,
                 match n with MNode _ attributes _ => attributes end)).
Proof. destruct n. reflexivity. Qed.

Lemma modifiers_loop_encode
    (body : pyval -> list pyval -> option (outcome (list pyval)))
    (out : ModifierNode -> list pyval) (nodes : list ModifierNode) :
  (forall n acc, In n nodes ->
     body (encode n) acc = Some (Returned (acc ++ out n))) ->
  forall acc,
    modifiers_loop body (map encode nodes) acc
    = Some (Returned (acc ++ flat_map out nodes)).
Proof.
  induction nodes as [|n nodes IH]; intros Hbody acc; simpl.
  - now rewrite app_nil_r.
  - rewrite (Hbody n acc (or_introl eq_refl)).
    rewrite IH by (intros m acc' Hm; apply Hbody; now right).
    now rewrite <- app_assoc.
Qed.

Lemma height_child (n : ModifierNode) (nodes : list ModifierNode) :
  In n nodes -> (height n <= list_max (map height nodes))%nat.
Proof.
  induction nodes as [|m nodes IH]; intros Hin; [contradiction|].
  destruct Hin as [-> | Hin]; simpl; [lia|].
  specialize (IH Hin). lia.
Qed.

(** With fuel for the height of the tree, the recursive parser appends the
    pre-order flattening of the node. *)
Lemma parse_modifier_recursive_flatten (item : pyval) (fuel : nat) :
  forall n parent acc,
    (height n <= fuel)%nat ->
    parse_modifier_recursive fuel item (encode n) parent acc
    = Some (Returned
              (acc ++ map (modifier_record item) (flatten_node parent n))).
Proof.
  induction fuel as [|fuel IH]; intros n parent acc Hfuel.
  - destruct n; simpl in Hfuel; lia.
  - destruct n as [id attrs kids].
    cbn [parse_modifier_recursive encode get dict_get String.eqb Ascii.eqb
         Bool.eqb flatten_node].
    destruct (truthy id) eqn:Hid; cbn [negb].
    + pose proof (parsed_modifier_encode item parent (MNode id attrs kids))
        as Hrecord.
      cbn [encode node_id] in Hrecord. rewrite Hrecord. clear Hrecord.
      cbn [map].
      destruct kids as [|kid kids].
      * simpl. reflexivity.
      * cbn [truthy map iterate].
        change (encode kid :: map encode kids) with (map encode (kid :: kids)).
        rewrite (modifiers_loop_encode _
                   (fun k => map (modifier_record item) (flatten_node id k))).
        -- rewrite <- app_assoc. cbn [app]. do 4 f_equal.
           generalize (kid :: kids). intros l.
           induction l as [|k l IHl]; [reflexivity|].
           cbn [flat_map]. now rewrite map_app, IHl.
        -- intros k acc' Hk. apply IH.
           pose proof (height_child k (kid :: kids) Hk).
           cbn [height] in Hfuel. lia.
    + simpl. now rewrite app_nil_r.
Qed.


Lemma ModifierNode_forall_ind (P : ModifierNode -> Prop) :
  (forall id attrs kids, Forall P kids -> P (MNode id attrs kids)) ->
  forall n, P n.
Proof.
  intros Hnode. fix IH 1. intros [id attrs kids]. apply Hnode.
  induction kids as [|k kids IHkids]; constructor; [apply IH | exact IHkids].
Qed.

Lemma depth_encode_height (n : ModifierNode) :
  (height n <= depth (encode n))%nat.
Proof.
  induction n as [id attrs kids IH] using ModifierNode_forall_ind.
  assert (Hkids : (list_max (map height kids)
                   <= depth (PList (map encode kids)))%nat).
  { apply list_max_le, List.Forall_forall. intros h Hh.
    apply in_map_iff in Hh as (k & <- & Hk).
    rewrite List.Forall_forall in IH. specialize (IH k Hk).
    pose proof (depth_item_lt (encode k) (map encode kids)
                  (in_map encode kids k Hk)).
    lia. }
  pose proof (depth_dict_get_lt
                (("modifier", id)
                 :: ("childModifiers", PList (map encode kids)) :: attrs)
                "childModifiers" eq_refl) as Hlt.
  cbn [dict_get String.eqb Ascii.eqb Bool.eqb] in Hlt.
  cbn [height encode]. lia.
Qed.

Lemma flatten_drop (l1 l2 : list ModifierNode) (n : ModifierNode)
    (parent : pyval) :
  truthy (node_id n) = false ->
  flatten (l1 ++ n :: l2) parent = flatten (l1 ++ l2) parent.
Proof.
  intros Hid. unfold flatten. rewrite !flat_map_app. cbn [flat_map].
  destruct n as [id attrs kids]. cbn [node_id] in Hid.
  cbn [flatten_node]. now rewrite Hid.
Qed.

Lemma parse_item_modifiers_flatten (nodes : list ModifierNode) (item : pyval) :
  parse_item_modifiers (encode_forest nodes) item
  = Returned (PList (map (modifier_record item) (flatten nodes PNone))).
Proof.
  unfold parse_item_modifiers, parse_item_modifiers_within, encode_forest.
  destruct nodes as [|n nodes]; [reflexivity|].
  cbn [truthy map negb iterate].
  change (encode n :: map encode nodes) with (map encode (n :: nodes)).
  rewrite (modifiers_loop_encode _
             (fun k => map (modifier_record item) (flatten_node PNone k))).
  - cbn [option_map omap bind app]. do 2 f_equal. unfold flatten.
    generalize (n :: nodes). intros l.
    induction l as [|k l IHl]; [reflexivity|].
    cbn [flat_map]. now rewrite map_app, IHl.
  - intros k acc Hk. apply parse_modifier_recursive_flatten.
    pose proof (depth_encode_height k).
    pose proof (depth_item_lt (encode k) (map encode (n :: nodes))
                  (in_map encode _ k Hk)).
    lia.
Qed.

(** C4. [parse_item_modifiers] is the pre-order flattening of the forest:
    a node with an identifier gives one record, placed before the records
    of its children, which carry its identifier as parent; a node without
    an identifier is dropped with its whole subtree, at the top level and
    among the children of any node, and the other branches are flattened
    as if it were not there. *)
Theorem modifier_flattening_preorder (item : pyval) :
  (forall nodes,
     parse_item_modifiers (encode_forest nodes) item
     = Returned (PList (map (modifier_record item) (flatten nodes PNone)))) /\
  (forall id attrs kids rest parent,
     truthy id = true ->
     flatten (MNode id attrs kids :: rest) parent
     = (id, parent, attrs) :: flatten kids id ++ flatten rest parent) /\
  (forall id attrs kids rest parent,
     truthy id = false ->
     flatten (MNode id attrs kids :: rest) parent = flatten rest parent) /\
  (forall before after n,
     truthy (node_id n) = false ->
     parse_item_modifiers (encode_forest (before ++ n :: after)) item
     = parse_item_modifiers (encode_forest (before ++ after)) item) /\
  (forall id attrs before after n,
     truthy (node_id n) = false ->
     parse_item_modifiers
       (encode_forest [MNode id attrs (before ++ n :: after)]) item
     = parse_item_modifiers
         (encode_forest [MNode id attrs (before ++ after)]) item).
Proof.
  split; [intros nodes; apply parse_item_modifiers_flatten|].
  split.
  { intros id attrs kids rest parent Hid. unfold flatten.
    cbn [flat_map flatten_node]. now rewrite Hid. }
  split.
  { intros id attrs kids rest parent Hid. unfold flatten.
    cbn [flat_map flatten_node]. now rewrite Hid. }
  split.
  { intros before after n Hn. rewrite !parse_item_modifiers_flatten.
    now rewrite (flatten_drop before after n PNone Hn). }
  intros id attrs before after n Hn. rewrite !parse_item_modifiers_flatten.
  unfold flatten. cbn [flat_map flatten_node].
  destruct (truthy id); [|reflexivity].
  pose proof (flatten_drop before after n id Hn) as Hdrop.
  unfold flatten in Hdrop. now rewrite Hdrop.
Qed.

Lemma modifier_flattening_preorder_witness :
  parse_item_modifiers
    (encode_forest
       [MNode (PStr "size") []
          [MNode (PStr "small") [] [];
           MNode PNone [] [MNode (PStr "hidden") [] []];
           MNode (PStr "large") [] []]]) (PStr "pizza")
  = parse_item_modifiers
      (encode_forest
         [MNode (PStr "size") []
            [MNode (PStr "small") [] []; MNode (PStr "large") [] []]])
      (PStr "pizza").
Proof.
  pose proof (modifier_flattening_preorder (PStr "pizza")) as H.
  destruct H as (_ & _ & _ & _ & Hchild).
  apply (Hchild (PStr "size") [] [MNode (PStr "small") [] []]
           [MNode (PStr "large") [] []]
           (MNode PNone [] [MNode (PStr "hidden") [] []])).
  reflexivity.
Defined.

(** ** Determinism of the normaliser *)

Lemma parse_organization_content (org : pyval) (c1 c2 : clock) :
  omap drop_timestamps (fst (parse_organization org c1))
  = omap drop_timestamps (fst (parse_organization org c2)).
Proof. destruct org; reflexivity. Qed.

Lemma parse_organization_returns (org : pyval) (c : clock) :
  (exists r c', parse_organization org c = (Returned r, c'))
  \/ (exists e, forall c0, parse_organization org c0 = (Raised e, c0)).
Proof.
  destruct org; try (right; eexists; intros c0; reflexivity).
  left. do 2 eexists. reflexivity.
Qed.

Lemma organizations_loop_content (items : list pyval) :
  forall acc1 acc2 c1 c2,
    map drop_timestamps acc1 = map drop_timestamps acc2 ->
    omap (map drop_timestamps) (fst (organizations_loop items acc1 c1))
    = omap (map drop_timestamps) (fst (organizations_loop items acc2 c2)).
Proof.
  induction items as [|org items IH]; intros acc1 acc2 c1 c2 Hacc.
  - simpl. now rewrite Hacc.
  - cbn [organizations_loop]. unfold iobind.
    pose proof (parse_organization_content org c1 c2) as Horg.
    destruct (parse_organization_returns org c1) as [(r1 & c1' & H1) | (e & He)].
    + rewrite H1 in *.
      destruct (parse_organization org c2) as [[r2|e2] c2'];
        [|discriminate].
      apply IH. rewrite !map_app, Hacc. cbn [map]. simpl in Horg.
      now injection Horg as ->.
    + now rewrite !He.
Qed.

Lemma parse_organization_readings (org : pyval) (c1 c2 : clock) :
  (forall n, c1 n = c2 n) ->
  fst (parse_organization org c1) = fst (parse_organization org c2)
  /\ (forall n, snd (parse_organization org c1) n
                = snd (parse_organization org c2) n).
Proof.
  intros Hc. destruct org; try (split; [reflexivity | exact Hc]).
  simpl. rewrite !Hc. split; [reflexivity | intros n; apply Hc].
Qed.

Lemma organizations_loop_readings (items : list pyval) :
  forall acc c1 c2,
    (forall n, c1 n = c2 n) ->
    fst (organizations_loop items acc c1)
    = fst (organizations_loop items acc c2).
Proof.
  induction items as [|org items IH]; intros acc c1 c2 Hc; [reflexivity|].
  cbn [organizations_loop]. unfold iobind.
  destruct (parse_organization_readings org c1 c2 Hc) as [Hfst Hsnd].
  destruct (parse_organization org c1) as [[r1|e1] c1'],
           (parse_organization org c2) as [[r2|e2] c2'];
    simpl in Hfst, Hsnd; try discriminate.
  - injection Hfst as ->. now apply IH.
  - simpl. now injection Hfst as ->.
Qed.

(** C8, as the code has it. [parse_transactions] depends on the raw data
    only. [parse_organizations] stamps every record with two readings of
    the clock: apart from [created_at] and [updated_at] its result depends
    on the raw data only, and two runs that read the same times give the
    same result. *)
Theorem normalizer_determinism (float_of_str : string -> option spec_float) :
  clock_independent (fun raw => lift (parse_transactions float_of_str raw)) /\
  (forall raw c1 c2,
     omap content (fst (parse_organizations raw c1))
     = omap content (fst (parse_organizations raw c2))) /\
  (forall raw c1 c2,
     (forall n, c1 n = c2 n) ->
     fst (parse_organizations raw c1) = fst (parse_organizations raw c2)).
Proof.
  split; [intros raw c1 c2; reflexivity|].
  split.
  - intros raw c1 c2. unfold parse_organizations.
    destruct (truthy raw); [|reflexivity]. cbn [negb].
    unfold iobind, lift, ret.
    destruct (iterate raw) as [items|e]; [|reflexivity].
    pose proof (organizations_loop_content items [] [] c1 c2 eq_refl) as H.
    destruct (organizations_loop items [] c1) as [[r1|e1] c1'],
             (organizations_loop items [] c2) as [[r2|e2] c2'];
      simpl in H |- *; try discriminate; now injection H as ->.
  - intros raw c1 c2 Hc. unfold parse_organizations.
    destruct (truthy raw); [|reflexivity]. cbn [negb].
    unfold iobind, lift, ret.
    destruct (iterate raw) as [items|e]; [|reflexivity].
    pose proof (organizations_loop_readings items [] c1 c2 Hc) as H.
    destruct (organizations_loop items [] c1) as [[r1|e1] c1'],
             (organizations_loop items [] c2) as [[r2|e2] c2'];
      simpl in H |- *; try discriminate; now injection H as ->.
Qed.

Lemma normalizer_determinism_witness :
  fst (parse_organizations (PList [PDict [("id", PStr "org-1")]])
         Example.morning)
  = fst (parse_organizations (PList [PDict [("id", PStr "org-1")]])
           (fun n => Example.morning (n + 1)%nat)).
Proof.
  pose proof (normalizer_determinism Example.decimal_float) as H.
  destruct H as (_ & _ & Hreadings).
  apply Hreadings. intros n. reflexivity.
Defined.

(** C8 as stated fails for [parse_organizations]: the same raw record
    normalised at two different times gives two different records. *)
Lemma parse_organizations_reads_clock :
  ~ clock_independent parse_organizations.
Proof.
  intros H.
  specialize (H (PList [PDict [("id", PStr "org-1"); ("name", PStr "Cafe")]])
                Example.morning Example.evening).
  vm_compute in H. discriminate H.
Qed.

(** ** The day loop of the sync endpoints *)

Lemma day_windows_empty (current_date end_date : date) :
  end_date <= current_date -> day_windows current_date end_date = [].
Proof.
  intros Hle. unfold day_windows. rewrite seqZ_nil by lia. reflexivity.
Qed.

Lemma day_windows_next (current_date end_date : date) :
  current_date < end_date ->
  day_windows current_date end_date
  = (midnight current_date, midnight (current_date + 1))
    :: day_windows (current_date + 1) end_date.
Proof.
  intros Hlt. unfold day_windows. rewrite seqZ_cons by lia. cbn [map].
  do 3 f_equal; lia.
Qed.

Lemma totals_reported (rs : list (gmap string Z)) :
  forall result,
    created (totals result rs) = created result + reported "created" rs /\
    updated (totals result rs) = updated result + reported "updated" rs /\
    errors (totals result rs) = errors result + reported "errors" rs /\
    deleted (totals result rs) = deleted result + reported "deleted" rs.
Proof.
  induction rs as [|r rs IH]; intros result.
  - unfold totals, reported. simpl. lia.
  - unfold totals, reported in *. cbn [fold_left map fold_right].
    destruct (IH (accumulate result r)) as (Hc & Hu & He & Hd).
    rewrite Hc, Hu, He, Hd. simpl. lia.
Qed.

Section DayLoop.

Context {World : Type}.
Variable step : datetime -> datetime -> io World (gmap string Z).

Lemma date_add_one (d end_date : date) :
  date_min <= d -> d < end_date -> end_date <= date_max ->
  date_add_days d 1 = Returned (d + 1).
Proof.
  intros Hmin Hlt Hmax. unfold date_add_days.
  destruct (date_min <=? d + 1) eqn:H1; [|unfold date_min in *; lia].
  destruct (d + 1 <=? date_max) eqn:H2; [reflexivity | lia].
Qed.

Lemma day_body_step (current_date end_date : date) (result : SyncResult)
    (w : World) :
  date_min <= current_date -> current_date < end_date ->
  end_date <= date_max ->
  day_body World step current_date result w
  = match step (midnight current_date) (midnight (current_date + 1)) w with
    | (Returned r, w') =>
        (Returned (current_date + 1, accumulate result r), w')
    | (Raised e, w') => (Raised e, w')
    end.
Proof.
  intros Hmin Hlt Hmax. unfold day_body, iobind, lift, ret.
  rewrite (date_add_one current_date end_date Hmin Hlt Hmax).
  now destruct (step _ _ w) as [[r|e] w'].
Qed.

Lemma day_body_next (current_date current_date' : date)
    (result result' : SyncResult) (w w' : World) :
  day_body World step current_date result w
  = (Returned (current_date', result'), w') ->
  current_date' = current_date + 1.
Proof.
  unfold day_body, iobind, lift, ret, date_add_days.
  destruct ((date_min <=? current_date + 1)
            && (current_date + 1 <=? date_max)); [|discriminate].
  destruct (step _ _ w) as [[r|e] w1]; [|discriminate].
  now intros [= <- _ _].
Qed.

(** The fuel the endpoints give the loop is enough. *)
Lemma day_loop_total (fuel : nat) :
  forall current_date end_date result w,
    (Z.to_nat (end_date - current_date) <= fuel)%nat ->
    day_loop World fuel step current_date end_date result w <> None.
Proof.
  induction fuel as [|fuel IH]; intros current_date end_date result w Hfuel;
    simpl; destruct (current_date <? end_date) eqn:Hlt; try discriminate.
  - lia.
  - destruct (day_body World step current_date result w)
      as [[[current_date' result']|e] w'] eqn:Hbody; [|discriminate].
    apply day_body_next in Hbody as ->. apply IH. lia.
Qed.

(** When every call returns, the loop returns the field-wise totals. *)
Lemma day_loop_returns (fuel : nat) :
  forall current_date end_date result w rs w',
    date_min <= current_date -> end_date <= date_max ->
    (Z.to_nat (end_date - current_date) <= fuel)%nat ->
    steps_return step (day_windows current_date end_date) w rs w' ->
    day_loop World fuel step current_date end_date result w
    = Some (Returned (totals result rs), w').
Proof.
  induction fuel as [|fuel IH];
    intros current_date end_date result w rs w' Hmin Hmax Hfuel Hsteps;
    simpl; destruct (current_date <? end_date) eqn:Hlt.
  - lia.
  - rewrite day_windows_empty in Hsteps by lia.
    inversion Hsteps; subst. reflexivity.
  - rewrite day_windows_next in Hsteps by lia.
    inversion Hsteps as [|a b ws w0 w1 w2 r rs' Hstep Hrest]; subst.
    rewrite (day_body_step current_date end_date) by lia.
    rewrite Hstep. apply (IH _ _ _ _ rs' w'); try lia. exact Hrest.
  - rewrite day_windows_empty in Hsteps by lia.
    inversion Hsteps; subst. reflexivity.
Qed.

(** When a call raises, the loop ends there with that exception. *)
Lemma day_loop_raises (before : list window) :
  forall fuel current_date end_date result w day_from day_to after rs w1 e w2,
    date_min <= current_date -> end_date <= date_max ->
    (Z.to_nat (end_date - current_date) <= fuel)%nat ->
    day_windows current_date end_date
    = before ++ (day_from, day_to) :: after ->
    steps_return step before w rs w1 ->
    step day_from day_to w1 = (Raised e, w2) ->
    day_loop World fuel step current_date end_date result w
    = Some (Raised e, w2).
Proof.
  induction before as [|[a b] before IH];
    intros fuel current_date end_date result w day_from day_to after rs w1 e
      w2 Hmin Hmax Hfuel Hwindows Hsteps Hraise.
  - assert (Hlt : current_date < end_date).
    { destruct (Z.lt_ge_cases current_date end_date) as [H|H]; [exact H|].
      rewrite day_windows_empty in Hwindows by lia. discriminate. }
    rewrite day_windows_next in Hwindows by lia.
    injection Hwindows as <- <- _.
    inversion Hsteps; subst.
    destruct fuel as [|fuel]; [lia|]. simpl.
    destruct (current_date <? end_date) eqn:Hltb; [|lia].
    rewrite (day_body_step current_date end_date) by lia.
    now rewrite Hraise.
  - assert (Hlt : current_date < end_date).
    { destruct (Z.lt_ge_cases current_date end_date) as [H|H]; [exact H|].
      rewrite day_windows_empty in Hwindows by lia. discriminate. }
    rewrite day_windows_next in Hwindows by lia.
    injection Hwindows as <- <- Hrest.
    inversion Hsteps as [|a' b' ws w0 w' w'' r rs' Hstep Hrest']; subst.
    destruct fuel as [|fuel]; [lia|]. simpl.
    destruct (current_date <? end_date) eqn:Hltb; [|lia].
    rewrite (day_body_step current_date end_date) by lia.
    rewrite Hstep.
    apply (IH fuel (current_date + 1) end_date _ _ day_from day_to after
             rs' w1 e w2); try lia; assumption.
Qed.

End DayLoop.

(** ** Window planner *)

Lemma recorder_steps (ws : list window) :
  forall calls,
    steps_return recorder ws calls (map (fun _ => ∅) ws) (calls ++ ws).
Proof.
  induction ws as [|[a b] ws IH]; intros calls.
  - rewrite app_nil_r. constructor.
  - cbn [map]. apply (steps_next recorder a b ws calls (calls ++ [(a, b)])).
    + reflexivity.
    + specialize (IH (calls ++ [(a, b)])).
      rewrite <- app_assoc in IH. exact IH.
Qed.

Lemma lookup_map {A B} (f : A -> B) (l : list A) (i : nat) :
  map f l !! i = option_map f (l !! i).
Proof.
  revert i. induction l as [|x l IH]; intros [|i]; try reflexivity.
  apply IH.
Qed.

Lemma plan_day_windows (from_dt to_dt : datetime) :
  valid_date (dt_date from_dt) -> valid_date (dt_date to_dt) ->
  plan from_dt to_dt = Some (day_windows (dt_date from_dt) (dt_date to_dt)).
Proof.
  intros [Hmin _] [_ Hmax]. unfold plan.
  rewrite (day_loop_returns recorder _ _ _ empty_result []
             (map (fun _ => ∅) (day_windows (dt_date from_dt) (dt_date to_dt)))
             ([] ++ day_windows (dt_date from_dt) (dt_date to_dt))
             Hmin Hmax (Nat.le_refl _) (recorder_steps _ [])).
  reflexivity.
Qed.

(** C2. The windows the day loop hands to the service depend on the
    calendar dates of the two bounds only; there are none when the date of
    [from] is not before the date of [to]; otherwise they are, in order, the
    windows from midnight of [d] to midnight of [d + 1] for every date [d]
    from the date of [from] up to, not including, the date of [to], as many
    as there are days between the two dates. *)
Theorem window_plan (from_dt to_dt : datetime) :
  valid_date (dt_date from_dt) -> valid_date (dt_date to_dt) ->
  let from_date := dt_date from_dt in
  let to_date := dt_date to_dt in
  plan from_dt to_dt = plan (midnight from_date) (midnight to_date) /\
  plan from_dt to_dt = Some (day_windows from_date to_date) /\
  (to_date <= from_date -> plan from_dt to_dt = Some []) /\
  length (day_windows from_date to_date) = Z.to_nat (to_date - from_date) /\
  (forall i, 0 <= i < to_date - from_date ->
     day_windows from_date to_date !! Z.to_nat i
     = Some (midnight (from_date + i), midnight (from_date + i + 1))) /\
  plan (midnight (ymd 2025 10 1)) (midnight (ymd 2025 10 4))
  = Some [(midnight (ymd 2025 10 1), midnight (ymd 2025 10 2));
          (midnight (ymd 2025 10 2), midnight (ymd 2025 10 3));
          (midnight (ymd 2025 10 3), midnight (ymd 2025 10 4))].
Proof.
  intros Hfrom Hto from_date to_date.
  split; [reflexivity|].
  split; [now apply plan_day_windows|].
  split.
  { intros Hle. rewrite plan_day_windows by assumption.
    now rewrite day_windows_empty. }
  split.
  { unfold day_windows. now rewrite length_map, length_seqZ. }
  split; [|reflexivity].
  intros i Hi. unfold day_windows. rewrite lookup_map. unfold date.
  rewrite (lookup_seqZ_lt from_date (to_date - from_date) (Z.to_nat i))
    by lia.
  rewrite Z2Nat.id by lia. reflexivity.
Qed.

Lemma window_plan_witness :
  plan (DateTime (ymd 2025 10 1) (13 * 3600 * 1000000) None)
       (DateTime (ymd 2025 10 4) (2 * 3600 * 1000000) (Some 0))
  = Some [(midnight (ymd 2025 10 1), midnight (ymd 2025 10 2));
          (midnight (ymd 2025 10 2), midnight (ymd 2025 10 3));
          (midnight (ymd 2025 10 3), midnight (ymd 2025 10 4))].
Proof.
  assert (Hfrom : valid_date (ymd 2025 10 1)) by (vm_compute; intuition discriminate).
  assert (Hto : valid_date (ymd 2025 10 4)) by (vm_compute; intuition discriminate).
  pose proof (window_plan
                (DateTime (ymd 2025 10 1) (13 * 3600 * 1000000) None)
                (DateTime (ymd 2025 10 4) (2 * 3600 * 1000000) (Some 0))
                Hfrom Hto) as H.
  destruct H as (Htruncate & _ & _ & _ & _ & Hexample).
  rewrite Htruncate. exact Hexample.
Defined.

(** ** Partial failure in a multi-window run *)

(** C1, as the code has it. A window whose service call returns is added
    field by field to the result of the run, its own [errors] count
    included, and the run goes on with the next window; a window whose call
    raises ends the run there with that exception: no later window is
    attempted and no counters are returned. *)
Theorem window_failure_ends_run {World : Type}
    (step : datetime -> datetime -> io World (gmap string Z))
    (current_date end_date : date) (result : SyncResult) (w : World) :
  valid_date current_date -> valid_date end_date ->
  let run :=
    day_loop World (Z.to_nat (end_date - current_date)) step
      current_date end_date result w in
  (forall rs w',
     steps_return step (day_windows current_date end_date) w rs w' ->
     run = Some (Returned (totals result rs), w') /\
     created (totals result rs) = created result + reported "created" rs /\
     updated (totals result rs) = updated result + reported "updated" rs /\
     errors (totals result rs) = errors result + reported "errors" rs /\
     deleted (totals result rs) = deleted result + reported "deleted" rs) /\
  (forall before day_from day_to after rs w1 e w2,
     day_windows current_date end_date
     = before ++ (day_from, day_to) :: after ->
     steps_return step before w rs w1 ->
     step day_from day_to w1 = (Raised e, w2) ->
     run = Some (Raised e, w2)).
Proof.
  intros [Hmin _] [_ Hmax] run. split.
  - intros rs w' Hsteps. split; [|apply totals_reported].
    now apply day_loop_returns.
  - intros before day_from day_to after rs w1 e w2 Hwindows Hsteps Hraise.
    now apply (day_loop_raises step before _ _ _ _ _ day_from day_to after
                 rs w1 e w2).
Qed.

Lemma window_failure_ends_run_witness :
  day_loop Example.world 3 Example.reporting_service
    (ymd 2025 10 1) (ymd 2025 10 4) empty_result []
  = Some (Returned {| created := 10; updated := 4; errors := 1; deleted := 0 |},
          [Example.Synced (midnight (ymd 2025 10 1)) (midnight (ymd 2025 10 2));
           Example.Synced (midnight (ymd 2025 10 2)) (midnight (ymd 2025 10 3));
           Example.Synced (midnight (ymd 2025 10 3)) (midnight (ymd 2025 10 4))])
  /\
  day_loop Example.world 3 Example.flaky_service
    (ymd 2025 10 1) (ymd 2025 10 4) empty_result []
  = Some (Raised (Exn RuntimeError "session expired"),
          [Example.Synced (midnight (ymd 2025 10 1)) (midnight (ymd 2025 10 2));
           Example.Synced (midnight (ymd 2025 10 2)) (midnight (ymd 2025 10 3))]).
Proof.
  assert (Hfrom : valid_date (ymd 2025 10 1))
    by (vm_compute; intuition discriminate).
  assert (Hto : valid_date (ymd 2025 10 4))
    by (vm_compute; intuition discriminate).
  split.
  - pose proof (window_failure_ends_run Example.reporting_service
                  (ymd 2025 10 1) (ymd 2025 10 4) empty_result []
                  Hfrom Hto) as [Hreturns _].
    refine (proj1 (Hreturns
              [Example.counts 5 2 0 0; Example.counts 0 0 1 0;
               Example.counts 5 2 0 0] _ _)).
    repeat (eapply steps_next; [reflexivity|]). apply steps_done.
  - pose proof (window_failure_ends_run Example.flaky_service
                  (ymd 2025 10 1) (ymd 2025 10 4) empty_result []
                  Hfrom Hto) as [_ Hraises].
    apply (Hraises
             [(midnight (ymd 2025 10 1), midnight (ymd 2025 10 2))]
             (midnight (ymd 2025 10 2)) (midnight (ymd 2025 10 3))
             [(midnight (ymd 2025 10 3), midnight (ymd 2025 10 4))]
             [Example.counts 5 2 0 0]
             [Example.Synced (midnight (ymd 2025 10 1))
                (midnight (ymd 2025 10 2))]).
    + reflexivity.
    + eapply steps_next; [reflexivity | apply steps_done].
    + reflexivity.
Defined.

(** C1 as stated fails when the service raises on the second of three
    windows: the run does not return counters with [errors = 1] and the sums
    of windows 1 and 3, it answers with the failure body, and the third
    window is never attempted. *)
Lemma sync_transactions_window_failure :
  sync_transactions Example.world Example.clock_now Example.strftime_ymd
    Example.fromisoformat Example.sync_accounts Example.optimize_indexes
    Example.flaky_service
    (Some "2025-10-01T00:00:00.000") (Some "2025-10-04T00:00:00.000") []
  = Some ({| success := false;
             message := "Ошибка синхронизации транзакций: session expired";
             data := None |},
          [Example.Accounts;
           Example.Synced (midnight (ymd 2025 10 1)) (midnight (ymd 2025 10 2));
           Example.Synced (midnight (ymd 2025 10 2)) (midnight (ymd 2025 10 3))]).
Proof. vm_compute. reflexivity. Qed.

(** ** The response of the sync triggers *)

Section Triggers.

Context {World : Type}.
Variable clock_now : io World datetime.
Variable strftime_ymd : datetime -> string.
Variable fromisoformat : string -> outcome datetime.
Variable iiko_sync_accounts : io World (gmap string Z).
Variable invalidate_cache : string -> io World unit.
Variable optimize_indexes : io World unit.
Variable step : datetime -> datetime -> io World (gmap string Z).

Lemma sync_days_total (from_date to_date : option string) (w : World) :
  sync_days World clock_now strftime_ymd fromisoformat step
    from_date to_date w <> None.
Proof.
  unfold Sync.sync_days.
  match goal with
  | |- context [match ?m w with _ => _ end] =>
      destruct (m w) as [[[current_date end_date]|e] w']
  end; [|discriminate].
  now apply day_loop_total.
Qed.

Lemma sync_days_bounds (from_text to_text : string) (from_dt to_dt : datetime)
    (w : World) :
  parse_bound fromisoformat from_text = Returned from_dt ->
  parse_bound fromisoformat to_text = Returned to_dt ->
  sync_days World clock_now strftime_ymd fromisoformat step
    (Some from_text) (Some to_text) w
  = day_loop World (Z.to_nat (dt_date to_dt - dt_date from_dt)) step
      (dt_date from_dt) (dt_date to_dt) empty_result w.
Proof.
  intros Hfrom Hto. unfold Sync.sync_days, bound_or, iobind, lift, ret.
  now rewrite Hfrom, Hto.
Qed.

Lemma respond_shape (done failed : string) (r : outcome SyncResult) :
  response_shape (respond done failed r).
Proof.
  destruct r as [result|e]; [left | right]; simpl; eauto.
Qed.

Lemma sync_days_resolved (from_date to_date : option string) (w : World) :
  sync_days World clock_now strftime_ymd fromisoformat step from_date to_date w
  = match bound_texts clock_now strftime_ymd from_date to_date w with
    | (Raised e, w1) => Some (Raised e, w1)
    | (Returned (from_text, to_text), w1) =>
        match parse_bound fromisoformat from_text with
        | Raised e => Some (Raised e, w1)
        | Returned from_dt =>
            match parse_bound fromisoformat to_text with
            | Raised e => Some (Raised e, w1)
            | Returned to_dt =>
                day_loop World (Z.to_nat (dt_date to_dt - dt_date from_dt))
                  step (dt_date from_dt) (dt_date to_dt) empty_result w1
            end
        end
    end.
Proof.
  unfold Sync.sync_days, bound_texts, iobind, lift, ret.
  destruct (bound_or World _ from_date w) as [[from_text|e] w1];
    [|reflexivity].
  destruct (bound_or World _ to_date w1) as [[to_text|e] w2]; [|reflexivity].
  destruct (parse_bound fromisoformat from_text); [|reflexivity].
  destruct (parse_bound fromisoformat to_text); reflexivity.
Qed.

(** C7, as the code has it. A trigger always answers, with
    [{success: true, message, data: counters}] or with
    [{success: false, message, data: null}], whether its bounds are given or
    omitted. With the texts of the bounds as the endpoint has them once the
    defaults are in ([bound_texts]; for [POST /transactions] the clock is
    read after the sync of the accounts), it answers with the counters,
    summed over the windows, when both texts parse and the service call of
    every window returns (and, for sales, the three cache invalidations
    return). It answers with the failure body, the text of the exception in
    the message, whenever a statement of its [try] block raises: the
    building of a default text, the parsing of a bound, the service call of
    a single window, or, for sales, one of the cache invalidations after
    every window has been synced. Whether the sync of the accounts or the
    index optimisation returns or raises is not looked at. The texts of the
    bounds are the ones given; an omitted [to_date] is the day of a clock
    reading followed by [T00:00:00.000], an omitted [from_date] the day
    seven days before a clock reading, read first, followed by the same. *)
Theorem trigger_response_contract :
  (forall from_date to_date w,
     exists resp w',
       sync_transactions World clock_now strftime_ymd fromisoformat
         iiko_sync_accounts optimize_indexes step
         from_date to_date w = Some (resp, w')
       /\ response_shape resp) /\
  (forall from_date to_date w,
     exists resp w',
       sync_sales World clock_now strftime_ymd fromisoformat invalidate_cache
         optimize_indexes step
         from_date to_date w = Some (resp, w')
       /\ response_shape resp) /\
  (forall from_date to_date w,
     let answer :=
       sync_transactions World clock_now strftime_ymd fromisoformat
         iiko_sync_accounts optimize_indexes step from_date to_date w in
     let failure e :=
       {| success := false;
          message := ("Ошибка синхронизации транзакций: " ++ exn_str e)%string;
          data := None |} in
     let texts :=
       bound_texts clock_now strftime_ymd from_date to_date
         (snd (iiko_sync_accounts w)) in
     (forall e w1, texts = (Raised e, w1) -> answer = Some (failure e, w1)) /\
     (forall from_text to_text w1,
        texts = (Returned (from_text, to_text), w1) ->
        (forall e,
           parse_bound fromisoformat from_text = Raised e
           \/ (exists from_dt,
                 parse_bound fromisoformat from_text = Returned from_dt)
              /\ parse_bound fromisoformat to_text = Raised e ->
           answer = Some (failure e, w1)) /\
        (forall from_dt to_dt,
           parse_bound fromisoformat from_text = Returned from_dt ->
           parse_bound fromisoformat to_text = Returned to_dt ->
           valid_date (dt_date from_dt) -> valid_date (dt_date to_dt) ->
           let windows := day_windows (dt_date from_dt) (dt_date to_dt) in
           (forall rs w2,
              steps_return step windows w1 rs w2 ->
              answer
              = Some ({| success := true;
                         message := "Синхронизация транзакций завершена";
                         data := Some (totals empty_result rs) |},
                      snd (optimize_indexes w2))) /\
           (forall before day_from day_to after rs w2 e w3,
              windows = before ++ (day_from, day_to) :: after ->
              steps_return step before w1 rs w2 ->
              step day_from day_to w2 = (Raised e, w3) ->
              answer = Some (failure e, w3))))) /\
  (forall from_date to_date w,
     let answer :=
       sync_sales World clock_now strftime_ymd fromisoformat invalidate_cache
         optimize_indexes step from_date to_date w in
     let failure e :=
       {| success := false;
          message := ("Ошибка синхронизации продаж: " ++ exn_str e)%string;
          data := None |} in
     let texts := bound_texts clock_now strftime_ymd from_date to_date w in
     (forall e w1, texts = (Raised e, w1) -> answer = Some (failure e, w1)) /\
     (forall from_text to_text w1,
        texts = (Returned (from_text, to_text), w1) ->
        (forall e,
           parse_bound fromisoformat from_text = Raised e
           \/ (exists from_dt,
                 parse_bound fromisoformat from_text = Returned from_dt)
              /\ parse_bound fromisoformat to_text = Raised e ->
           answer = Some (failure e, w1)) /\
        (forall from_dt to_dt,
           parse_bound fromisoformat from_text = Returned from_dt ->
           parse_bound fromisoformat to_text = Returned to_dt ->
           valid_date (dt_date from_dt) -> valid_date (dt_date to_dt) ->
           let windows := day_windows (dt_date from_dt) (dt_date to_dt) in
           (forall rs w2 w3 w4 w5,
              steps_return step windows w1 rs w2 ->
              invalidate_cache "reports" w2 = (Returned tt, w3) ->
              invalidate_cache "analytics" w3 = (Returned tt, w4) ->
              invalidate_cache "popular_dishes" w4 = (Returned tt, w5) ->
              answer
              = Some ({| success := true;
                         message := "Синхронизация продаж завершена";
                         data := Some (totals empty_result rs) |},
                      snd (optimize_indexes w5))) /\
           (forall rs w2 e w',
              steps_return step windows w1 rs w2 ->
              invalidate_cache "reports" w2 = (Raised e, w')
              \/ (exists w3,
                    invalidate_cache "reports" w2 = (Returned tt, w3)
                    /\ (invalidate_cache "analytics" w3 = (Raised e, w')
                        \/ exists w4,
                             invalidate_cache "analytics" w3
                             = (Returned tt, w4)
                             /\ invalidate_cache "popular_dishes" w4
                                = (Raised e, w'))) ->
              answer = Some (failure e, w')) /\
           (forall before day_from day_to after rs w2 e w3,
              windows = before ++ (day_from, day_to) :: after ->
              steps_return step before w1 rs w2 ->
              step day_from day_to w2 = (Raised e, w3) ->
              answer = Some (failure e, w3))))) /\
  ((forall from_text to_text w,
      bound_texts clock_now strftime_ymd (Some from_text) (Some to_text) w
      = (Returned (from_text, to_text), w)) /\
   (forall from_text w t w1,
      clock_now w = (Returned t, w1) ->
      bound_texts clock_now strftime_ymd (Some from_text) None w
      = (Returned (from_text, (strftime_ymd t ++ "T00:00:00.000")%string),
         w1)) /\
   (forall to_date w t w1 week_ago,
      clock_now w = (Returned t, w1) ->
      datetime_add_days t (- 7) = Returned week_ago ->
      bound_texts clock_now strftime_ymd None to_date w
      = bound_texts clock_now strftime_ymd
          (Some (strftime_ymd week_ago ++ "T00:00:00.000")%string) to_date
          w1)).
Proof.
  split.
  { intros from_date to_date w. unfold Sync.sync_transactions.
    pose proof (sync_days_total from_date to_date
                  (snd (attempt World iiko_sync_accounts w))) as Htotal.
    destruct (sync_days World clock_now strftime_ymd fromisoformat step
                from_date to_date _) as [[[result|e] w']|];
      [| |contradiction]; do 2 eexists; (split; [reflexivity|]);
      apply respond_shape. }
  split.
  { intros from_date to_date w. unfold Sync.sync_sales.
    pose proof (sync_days_total from_date to_date w) as Htotal.
    destruct (sync_days World clock_now strftime_ymd fromisoformat step
                from_date to_date w) as [[[result|e] w']|];
      [| |contradiction].
    - match goal with
      | |- context [let (_, _) := ?m w' in _] => destruct (m w') as [r w'']
      end.
      do 2 eexists. split; [reflexivity | apply respond_shape].
    - do 2 eexists. split; [reflexivity | apply respond_shape]. }
  split.
  { intros from_date to_date w answer failure texts.
    unfold answer, failure, texts, Sync.sync_transactions.
    change (snd (attempt World iiko_sync_accounts w))
      with (snd (iiko_sync_accounts w)).
    rewrite sync_days_resolved.
    split; [intros e w1 Htexts; now rewrite Htexts|].
    intros from_text to_text w1 Htexts. rewrite Htexts.
    split.
    { intros e [Hfrom | [[from_dt Hfrom] Hto]];
        [now rewrite Hfrom | now rewrite Hfrom, Hto]. }
    intros from_dt to_dt Hfrom Hto [Hmin _] [_ Hmax]. cbv zeta.
    rewrite Hfrom, Hto.
    split.
    - intros rs w2 Hsteps.
      now rewrite (day_loop_returns step _ _ _ empty_result _ rs w2 Hmin Hmax
                     (Nat.le_refl _) Hsteps).
    - intros before day_from day_to after rs w2 e w3 Hwindows Hsteps Hraise.
      now rewrite (day_loop_raises step before _ _ _ empty_result _ day_from
                     day_to after rs w2 e w3 Hmin Hmax (Nat.le_refl _)
                     Hwindows Hsteps Hraise). }
  split.
  2: { unfold bound_texts, bound_or, default_from_date, default_to_date,
         iobind, lift, ret.
       split; [reflexivity|]. split.
       - intros from_text w t w1 Hnow. now rewrite Hnow.
       - intros to_date w t w1 week_ago Hnow Hweek. now rewrite Hnow, Hweek. }
  intros from_date to_date w answer failure texts.
  unfold answer, failure, texts, Sync.sync_sales.
  rewrite sync_days_resolved.
  split; [intros e w1 Htexts; now rewrite Htexts|].
  intros from_text to_text w1 Htexts. rewrite Htexts.
  split.
  { intros e [Hfrom | [[from_dt Hfrom] Hto]];
      [now rewrite Hfrom | now rewrite Hfrom, Hto]. }
  intros from_dt to_dt Hfrom Hto [Hmin _] [_ Hmax]. cbv zeta.
  rewrite Hfrom, Hto.
  split; [|split].
  - intros rs w2 w3 w4 w5 Hsteps H1 H2 H3.
    rewrite (day_loop_returns step _ _ _ empty_result _ rs w2 Hmin Hmax
               (Nat.le_refl _) Hsteps).
    unfold iobind, ret, attempt. now rewrite H1, H2, H3.
  - intros rs w2 e w' Hsteps Hcache.
    rewrite (day_loop_returns step _ _ _ empty_result _ rs w2 Hmin Hmax
               (Nat.le_refl _) Hsteps).
    unfold iobind, ret, attempt.
    destruct Hcache as [H1 | (w3 & H1 & [H2 | (w4 & H2 & H3)])].
    + now rewrite H1.
    + now rewrite H1, H2.
    + now rewrite H1, H2, H3.
  - intros before day_from day_to after rs w2 e w3 Hwindows Hsteps Hraise.
    now rewrite (day_loop_raises step before _ _ _ empty_result _ day_from
                   day_to after rs w2 e w3 Hmin Hmax (Nat.le_refl _)
                   Hwindows Hsteps Hraise).
Qed.

End Triggers.

Lemma trigger_response_contract_witness :
  sync_transactions Example.world Example.clock_now Example.strftime_ymd
    Example.fromisoformat Example.sync_accounts Example.optimize_indexes
    Example.reporting_service
    (Some "2025-10-01T00:00:00Z") (Some "2025-10-03T00:00:00Z") []
  = Some ({| success := true;
             message := "Синхронизация транзакций завершена";
             data := Some {| created := 5; updated := 2; errors := 1;
                             deleted := 0 |} |},
          [Example.Accounts;
           Example.Synced (midnight (ymd 2025 10 1)) (midnight (ymd 2025 10 2));
           Example.Synced (midnight (ymd 2025 10 2)) (midnight (ymd 2025 10 3));
           Example.Optimized])
  /\
  sync_sales Example.world Example.clock_now Example.strftime_ymd
    Example.fromisoformat Example.invalidate_cache Example.optimize_indexes
    Example.flaky_service
    (Some "2025-10-01T00:00:00Z") (Some "2025-10-03T00:00:00Z") []
  = Some ({| success := false;
             message := "Ошибка синхронизации продаж: session expired";
             data := None |},
          [Example.Synced (midnight (ymd 2025 10 1)) (midnight (ymd 2025 10 2));
           Example.Synced (midnight (ymd 2025 10 2)) (midnight (ymd 2025 10 3))])
  /\
  sync_sales Example.world Example.clock_now Example.strftime_ymd
    Example.fromisoformat Example.invalidate_cache Example.optimize_indexes
    Example.reporting_service
    (Some "2025-10-06T00:00:00.000") None []
  = Some ({| success := true;
             message := "Синхронизация продаж завершена";
             data := Some {| created := 10; updated := 4; errors := 0;
                             deleted := 0 |} |},
          [Example.Synced (midnight (ymd 2025 10 6)) (midnight (ymd 2025 10 7));
           Example.Synced (midnight (ymd 2025 10 7)) (midnight (ymd 2025 10 8));
           Example.Invalidated "reports"; Example.Invalidated "analytics";
           Example.Invalidated "popular_dishes"; Example.Optimized])
  /\
  sync_sales Example.world Example.clock_now Example.strftime_ymd
    Example.fromisoformat
    (fun tag => Example.happen (Example.Invalidated tag)
                  (if String.eqb tag "analytics"
                   then Raised (Exn RuntimeError "cache is down")
                   else Returned tt))
    Example.optimize_indexes Example.reporting_service
    (Some "2025-10-06T00:00:00.000") (Some "2025-10-07T00:00:00.000") []
  = Some ({| success := false;
             message := "Ошибка синхронизации продаж: cache is down";
             data := None |},
          [Example.Synced (midnight (ymd 2025 10 6)) (midnight (ymd 2025 10 7));
           Example.Invalidated "reports"; Example.Invalidated "analytics"])
  /\
  sync_transactions Example.world Example.clock_now Example.strftime_ymd
    Example.fromisoformat Example.sync_accounts Example.optimize_indexes
    Example.reporting_service
    (Some "yesterday") (Some "2025-10-03T00:00:00Z") []
  = Some ({| success := false;
             message := "Ошибка синхронизации транзакций: "
                        ++ "Invalid isoformat string: 'yesterday'";
             data := None |},
          [Example.Accounts]).
Proof.
  assert (Hday1 : valid_date (ymd 2025 10 1))
    by (vm_compute; intuition discriminate).
  assert (Hday3 : valid_date (ymd 2025 10 3))
    by (vm_compute; intuition discriminate).
  assert (Hday6 : valid_date (ymd 2025 10 6))
    by (vm_compute; intuition discriminate).
  assert (Hday7 : valid_date (ymd 2025 10 7))
    by (vm_compute; intuition discriminate).
  assert (Hday8 : valid_date (ymd 2025 10 8))
    by (vm_compute; intuition discriminate).
  split; [|split; [|split; [|split]]].
  - pose proof (trigger_response_contract Example.clock_now
                  Example.strftime_ymd Example.fromisoformat
                  Example.sync_accounts Example.invalidate_cache
                  Example.optimize_indexes Example.reporting_service)
      as (_ & _ & H & _).
    pose proof (H (Some "2025-10-01T00:00:00Z") (Some "2025-10-03T00:00:00Z")
                  []) as [_ Htexts].
    destruct (Htexts "2025-10-01T00:00:00Z" "2025-10-03T00:00:00Z"
                [Example.Accounts] eq_refl) as [_ Hparsed].
    destruct (Hparsed (DateTime (ymd 2025 10 1) 0 (Some 0))
                (DateTime (ymd 2025 10 3) 0 (Some 0))
                eq_refl eq_refl Hday1 Hday3) as [Hreturns _].
    rewrite (Hreturns
               [Example.counts 5 2 0 0; Example.counts 0 0 1 0]
               [Example.Accounts;
                Example.Synced (midnight (ymd 2025 10 1))
                  (midnight (ymd 2025 10 2));
                Example.Synced (midnight (ymd 2025 10 2))
                  (midnight (ymd 2025 10 3))]).
    + reflexivity.
    + repeat (eapply steps_next; [reflexivity|]). apply steps_done.
  - pose proof (trigger_response_contract Example.clock_now
                  Example.strftime_ymd Example.fromisoformat
                  Example.sync_accounts Example.invalidate_cache
                  Example.optimize_indexes Example.flaky_service)
      as (_ & _ & _ & H & _).
    pose proof (H (Some "2025-10-01T00:00:00Z") (Some "2025-10-03T00:00:00Z")
                  []) as [_ Htexts].
    destruct (Htexts "2025-10-01T00:00:00Z" "2025-10-03T00:00:00Z" []
                eq_refl) as [_ Hparsed].
    destruct (Hparsed (DateTime (ymd 2025 10 1) 0 (Some 0))
                (DateTime (ymd 2025 10 3) 0 (Some 0))
                eq_refl eq_refl Hday1 Hday3) as (_ & _ & Hraises).
    rewrite (Hraises
               [(midnight (ymd 2025 10 1), midnight (ymd 2025 10 2))]
               (midnight (ymd 2025 10 2)) (midnight (ymd 2025 10 3)) []
               [Example.counts 5 2 0 0]
               [Example.Synced (midnight (ymd 2025 10 1))
                  (midnight (ymd 2025 10 2))]
               (Exn RuntimeError "session expired")
               [Example.Synced (midnight (ymd 2025 10 1))
                  (midnight (ymd 2025 10 2));
                Example.Synced (midnight (ymd 2025 10 2))
                  (midnight (ymd 2025 10 3))]).
    + reflexivity.
    + reflexivity.
    + eapply steps_next; [reflexivity | apply steps_done].
    + reflexivity.
  - pose proof (trigger_response_contract Example.clock_now
                  Example.strftime_ymd Example.fromisoformat
                  Example.sync_accounts Example.invalidate_cache
                  Example.optimize_indexes Example.reporting_service)
      as (_ & _ & _ & H & _).
    pose proof (H (Some "2025-10-06T00:00:00.000") None []) as [_ Htexts].
    assert (Hdefault :
              bound_texts Example.clock_now Example.strftime_ymd
                (Some "2025-10-06T00:00:00.000") None []
              = (Returned ("2025-10-06T00:00:00.000",
                           "2025-10-08T00:00:00.000"), []))
      by (vm_compute; reflexivity).
    destruct (Htexts _ _ _ Hdefault) as [_ Hparsed].
    assert (Hfrom : parse_bound Example.fromisoformat
                      "2025-10-06T00:00:00.000"
                    = Returned (DateTime (ymd 2025 10 6) 0 None))
      by (vm_compute; reflexivity).
    assert (Hto : parse_bound Example.fromisoformat
                    "2025-10-08T00:00:00.000"
                  = Returned (DateTime (ymd 2025 10 8) 0 None))
      by (vm_compute; reflexivity).
    destruct (Hparsed _ _ Hfrom Hto Hday6 Hday8) as (Hreturns & _).
    rewrite (Hreturns
               [Example.counts 5 2 0 0; Example.counts 5 2 0 0]
               [Example.Synced (midnight (ymd 2025 10 6))
                  (midnight (ymd 2025 10 7));
                Example.Synced (midnight (ymd 2025 10 7))
                  (midnight (ymd 2025 10 8))]
               [Example.Synced (midnight (ymd 2025 10 6))
                  (midnight (ymd 2025 10 7));
                Example.Synced (midnight (ymd 2025 10 7))
                  (midnight (ymd 2025 10 8));
                Example.Invalidated "reports"]
               [Example.Synced (midnight (ymd 2025 10 6))
                  (midnight (ymd 2025 10 7));
                Example.Synced (midnight (ymd 2025 10 7))
                  (midnight (ymd 2025 10 8));
                Example.Invalidated "reports"; Example.Invalidated "analytics"]
               [Example.Synced (midnight (ymd 2025 10 6))
                  (midnight (ymd 2025 10 7));
                Example.Synced (midnight (ymd 2025 10 7))
                  (midnight (ymd 2025 10 8));
                Example.Invalidated "reports"; Example.Invalidated "analytics";
                Example.Invalidated "popular_dishes"]).
    + reflexivity.
    + repeat (eapply steps_next; [reflexivity|]). apply steps_done.
    + reflexivity.
    + reflexivity.
    + reflexivity.
  - pose proof (trigger_response_contract Example.clock_now
                  Example.strftime_ymd Example.fromisoformat
                  Example.sync_accounts
                  (fun tag => Example.happen (Example.Invalidated tag)
                                (if String.eqb tag "analytics"
                                 then Raised (Exn RuntimeError "cache is down")
                                 else Returned tt))
                  Example.optimize_indexes Example.reporting_service)
      as (_ & _ & _ & H & _).
    pose proof (H (Some "2025-10-06T00:00:00.000")
                  (Some "2025-10-07T00:00:00.000") []) as [_ Htexts].
    destruct (Htexts "2025-10-06T00:00:00.000" "2025-10-07T00:00:00.000" []
                eq_refl) as [_ Hparsed].
    assert (Hfrom : parse_bound Example.fromisoformat
                      "2025-10-06T00:00:00.000"
                    = Returned (DateTime (ymd 2025 10 6) 0 None))
      by (vm_compute; reflexivity).
    assert (Hto : parse_bound Example.fromisoformat
                    "2025-10-07T00:00:00.000"
                  = Returned (DateTime (ymd 2025 10 7) 0 None))
      by (vm_compute; reflexivity).
    destruct (Hparsed _ _ Hfrom Hto Hday6 Hday7) as (_ & Hcache & _).
    rewrite (Hcache
               [Example.counts 5 2 0 0]
               [Example.Synced (midnight (ymd 2025 10 6))
                  (midnight (ymd 2025 10 7))]
               (Exn RuntimeError "cache is down")
               [Example.Synced (midnight (ymd 2025 10 6))
                  (midnight (ymd 2025 10 7));
                Example.Invalidated "reports";
                Example.Invalidated "analytics"]).
    + reflexivity.
    + eapply steps_next; [reflexivity | apply steps_done].
    + right. eexists. split; [reflexivity|]. left. reflexivity.
  - pose proof (trigger_response_contract Example.clock_now
                  Example.strftime_ymd Example.fromisoformat
                  Example.sync_accounts Example.invalidate_cache
                  Example.optimize_indexes Example.reporting_service)
      as (_ & _ & H & _).
    pose proof (H (Some "yesterday") (Some "2025-10-03T00:00:00Z") [])
      as [_ Htexts].
    destruct (Htexts "yesterday" "2025-10-03T00:00:00Z" [Example.Accounts]
                eq_refl) as [Hunparsed _].
    rewrite (Hunparsed
               (Exn ValueError "Invalid isoformat string: 'yesterday'")).
    + reflexivity.
    + left. vm_compute. reflexivity.
Defined.

(** C7 as stated fails when the service raises for one window: a run over
    the single day 2025-10-02 on which the vendor session is gone answers
    [success: false] with [data: null], although the failure is scoped to
    that window. *)
Lemma sync_sales_single_window_failure :
  sync_sales Example.world Example.clock_now Example.strftime_ymd
    Example.fromisoformat Example.invalidate_cache Example.optimize_indexes
    Example.flaky_service
    (Some "2025-10-02T00:00:00.000") (Some "2025-10-03T00:00:00.000") []
  = Some ({| success := false;
             message := "Ошибка синхронизации продаж: session expired";
             data := None |},
          [Example.Synced (midnight (ymd 2025 10 2))
             (midnight (ymd 2025 10 3))]).
Proof. vm_compute. reflexivity. Qed.

(** * Further properties *)

(** ** The row parsers: [parse_sales] and [parse_transactions] *)

Section RowParsers.

Variable float_of_str : string -> option spec_float.
Variable repr : pyval -> string.

Lemma build_record_as_sale (row : pyval)
    (fields : list (string * rule * string)) :
  build_record float_of_str row fields
  = build_sale float_of_str repr row (as_sale_fields fields).
Proof.
  induction fields as [|[[name r] key] fields IH]; [reflexivity|].
  cbn [build_record as_sale_fields map build_sale fst snd].
  rewrite IH. now destruct r.
Qed.

Lemma transactions_loop_as_sales (items : list pyval) :
  forall parsed,
    transactions_loop float_of_str items parsed
    = sales_loop float_of_str repr (as_sale_fields transaction_fields)
        items parsed.
Proof.
  induction items as [|row items IH]; intros parsed; [reflexivity|].
  cbn [transactions_loop sales_loop].
  rewrite (build_record_as_sale row transaction_fields).
  destruct (build_sale float_of_str repr row _); [apply IH | reflexivity].
Qed.

Lemma parse_transactions_as_sales (data : pyval) :
  parse_transactions float_of_str data
  = if negb (truthy data) then Returned (PList [])
    else
      let* items := iterate data in
      omap PList
        (sales_loop float_of_str repr (as_sale_fields transaction_fields)
           items []).
Proof.
  unfold parse_transactions.
  destruct (negb (truthy data)); [reflexivity|].
  destruct (iterate data) as [items|e]; [|reflexivity].
  cbn [bind]. now rewrite transactions_loop_as_sales.
Qed.

Lemma names_as_sale_fields (fields : list (string * rule * string)) :
  names (as_sale_fields fields) = names fields.
Proof.
  unfold names, as_sale_fields. rewrite map_map. reflexivity.
Qed.

Lemma build_sale_names (row : pyval)
    (fields : list (string * sale_rule * string)) :
  forall entries,
    build_sale float_of_str repr row fields = Returned entries ->
    map fst entries = names fields.
Proof.
  induction fields as [|[[name r] key] fields IH]; intros entries.
  - now intros [= <-].
  - cbn [build_sale].
    destruct (read_sale_field float_of_str repr row r key) as [v|e];
      [|discriminate].
    cbn [bind].
    destruct (build_sale float_of_str repr row fields) as [others|e];
      [|discriminate].
    intros [= <-]. cbn [map fst names]. f_equal. now apply IH.
Qed.


Lemma sales_loop_records (fields : list (string * sale_rule * string))
    (items : list pyval) :
  forall parsed out,
    sales_loop float_of_str repr fields items parsed = Returned out ->
    exists records,
      out = parsed ++ records /\
      records_of (fun row => build_sale float_of_str repr row fields)
        (names fields) items records.
Proof.
  induction items as [|row items IH]; intros parsed out.
  - intros [= <-]. exists []. split; [now rewrite app_nil_r | constructor].
  - cbn [sales_loop].
    destruct (build_sale float_of_str repr row fields) as [entries|e] eqn:Hrow;
      [|discriminate].
    cbn [bind]. intros Hrest.
    destruct (IH _ _ Hrest) as (records & -> & Hrecords).
    exists (PDict entries :: records). split; [now rewrite <- app_assoc|].
    constructor; [|exact Hrecords].
    exists entries. repeat split; [exact Hrow|].
    exact (build_sale_names row fields entries Hrow).
Qed.


Lemma parse_sales_with (data : pyval) :
  parse_sales float_of_str repr data
  = if negb (truthy data) then Returned (PList [])
    else
      let* items := iterate data in
      omap PList (sales_loop float_of_str repr sale_fields items []).
Proof. reflexivity. Qed.

(** What the two entry points share, for any display. *)
Lemma rows_shape (fields : list (string * sale_rule * string))
    (data out : pyval) :
  (if negb (truthy data) then Returned (PList [])
   else
     let* items := iterate data in
     omap PList (sales_loop float_of_str repr fields items []))
  = Returned out ->
  exists items records,
    out = PList records /\
    (if truthy data then iterate data = Returned items else items = []) /\
    records_of (fun row => build_sale float_of_str repr row fields)
      (names fields) items records.
Proof.
  destruct (truthy data); cbn [negb].
  - destruct (iterate data) as [items|e]; [|discriminate]. cbn [bind].
    destruct (sales_loop float_of_str repr fields items []) as [records|e]
      eqn:Hloop; [|discriminate].
    intros [= <-].
    destruct (sales_loop_records fields items [] records Hloop)
      as (records' & -> & Hrecords).
    exists items, records'. auto.
  - intros [= <-]. exists [], []. repeat split. constructor.
Qed.


(** X1. When [parse_sales] or [parse_transactions] returns, it returns one
    record for every item of the input, in the order of the input, and
    every record carries exactly the entry names of the display: 254
    pairwise different names for a sale, 114 for a transaction. An input
    that counts as false gives the empty list. *)
Theorem row_parsers_shape :
  NoDup (names sale_fields) /\ length sale_fields = 254%nat /\
  NoDup (names transaction_fields) /\ length transaction_fields = 114%nat /\
  (forall data out,
     parse_sales float_of_str repr data = Returned out ->
     exists items records,
       out = PList records /\
       (if truthy data then iterate data = Returned items else items = []) /\
       records_of (fun row => build_sale float_of_str repr row sale_fields)
         (names sale_fields) items records) /\
  (forall data out,
     parse_transactions float_of_str data = Returned out ->
     exists items records,
       out = PList records /\
       (if truthy data then iterate data = Returned items else items = []) /\
       records_of (fun row => build_record float_of_str row transaction_fields)
         (names transaction_fields) items records).
Proof.
  split; [apply (bool_decide_unpack _); vm_compute; exact I|].
  split; [reflexivity|].
  split; [apply (bool_decide_unpack _); vm_compute; exact I|].
  split; [reflexivity|].
  split.
  - intros data out. rewrite parse_sales_with. apply rows_shape.
  - intros data out. rewrite parse_transactions_as_sales. intros Hout.
    destruct (rows_shape _ data out Hout) as (items & records & -> & Hitems & H).
    exists items, records. repeat split; [exact Hitems|].
    rewrite names_as_sale_fields in H.
    eapply Forall2_impl; [exact H|].
    intros row record (entries & Hrow & -> & Hnames).
    exists entries. now rewrite build_record_as_sale.
Qed.


(** *** Rows whose ints convert *)

Lemma fits_float_dict_get (entries : list (string * pyval)) (key : string)
    (default : pyval) :
  fits_float (PDict entries) = true -> fits_float default = true ->
  fits_float (dict_get entries key default) = true.
Proof.
  intros Hentries Hdefault.
  induction entries as [|[k v] entries IH]; [exact Hdefault|].
  cbn [fits_float forallb snd] in Hentries.
  apply andb_prop in Hentries as [Hv Hrest].
  cbn [dict_get]. destruct (String.eqb k key); [exact Hv | now apply IH].
Qed.

Lemma py_float_returns (v : pyval) :
  is_int_or_float v = true -> fits_float v = true ->
  exists x, py_float v = Returned x.
Proof.
  destruct v; try discriminate; intros _ Hfits.
  - destruct b; eexists; reflexivity.
  - apply float_of_int_converts. cbn [fits_float] in Hfits. lia.
  - eexists. reflexivity.
Qed.

Lemma first_numeric_returns (entries : list (string * pyval))
    (keys : list string) :
  fits_float (PDict entries) = true ->
  exists r, first_numeric entries keys = Returned r.
Proof.
  intros Hfits. induction keys as [|key keys IH]; [now exists PNone|].
  cbn [first_numeric].
  destruct (dict_has entries key
            && is_int_or_float (dict_get entries key PNone)) eqn:Hkey;
    [|exact IH].
  apply andb_prop in Hkey as [_ Hnumber].
  destruct (py_float_returns _ Hnumber
              (fits_float_dict_get entries key PNone Hfits eq_refl))
    as [x ->].
  now exists (PFloat x).
Qed.

Lemma extract_numeric_returns (v : pyval) :
  fits_float v = true ->
  exists r, _extract_numeric_value float_of_str v = Returned r.
Proof.
  intros Hfits.
  destruct v as [|b|n|x|text|items|items|items|entries|t|cls r];
    try (now exists PNone);
    try (match type of Hfits with
         | fits_float ?number = true =>
             destruct (py_float_returns number eq_refl Hfits) as [y Hy]
         end;
         exists (PFloat y); cbn [_extract_numeric_value]; now rewrite Hy).
  - cbn [_extract_numeric_value]. destruct (float_of_str text); eauto.
  - now apply first_numeric_returns.
Qed.

Lemma render_number_returns (v : pyval) :
  is_int_or_float v = true -> fits_float v = true ->
  exists text, render_number repr v = Returned text.
Proof.
  intros Hnumber Hfits. unfold render_number.
  destruct (py_float_returns v Hnumber Hfits) as [x Hx]. rewrite Hx.
  cbn [bind]. destruct (is_integer x) eqn:Hinteger; [|eauto].
  destruct v as [|b|n|y|text|items|items|items|entries|t|cls r];
    try discriminate; cbn [py_int bind]; eauto.
  cbn [py_float] in Hx. injection Hx as ->.
  destruct (integral_float_to_int x Hinteger) as [n ->]. cbn [bind]. eauto.
Qed.

Lemma clean_items_returns (items : list pyval) :
  forallb fits_float items = true ->
  forall cleaned, exists out, clean_items repr items cleaned = Returned out.
Proof.
  induction items as [|item items IH]; intros Hfits cleaned; [now eexists|].
  cbn [forallb] in Hfits. apply andb_prop in Hfits as [Hitem Hitems].
  assert (Hstep :
    (exists text, clean_items repr (item :: items) cleaned
                  = clean_items repr items (cleaned ++ [text]))
    \/ clean_items repr (item :: items) cleaned
       = clean_items repr items cleaned).
  { destruct item; try (right; reflexivity);
      try (left; eexists; reflexivity);
      (match type of Hitem with
       | fits_float ?number = true =>
           destruct (render_number_returns number eq_refl Hitem)
             as [text Htext]
       end;
       left; exists text; cbn [clean_items is_int_or_float];
       now rewrite Htext). }
  destruct Hstep as [[text ->] | ->]; now apply IH.
Qed.

Lemma extract_fiscal_returns (v : pyval) :
  fits_float v = true ->
  exists r, _extract_fiscal_cheque_number repr v = Returned r.
Proof.
  intros Hfits.
  destruct v as [|b|n|x|text|items|items|items|entries|t|cls r];
    cbn [_extract_fiscal_cheque_number]; eauto;
    try (match type of Hfits with
         | fits_float ?number = true =>
             destruct (render_number_returns number eq_refl Hfits)
               as [rendered ->]
         end; now eexists);
    (cbn [fits_float] in Hfits;
     destruct (clean_items_returns items Hfits []) as [out ->]; now eexists).
Qed.

Lemma read_sale_field_returns (entries : list (string * pyval))
    (r : sale_rule) (key : string) :
  fits_float (PDict entries) = true ->
  exists v, read_sale_field float_of_str repr (PDict entries) r key
            = Returned v.
Proof.
  intros Hfits.
  pose proof (fits_float_dict_get entries key PNone Hfits eq_refl) as Hvalue.
  destruct r; cbn [read_sale_field get bind _safe_get _extract_currency_sum].
  - eauto.
  - destruct (eq_empty_dict _); eauto.
  - now apply extract_numeric_returns.
  - now apply extract_numeric_returns.
  - now apply extract_fiscal_returns.
Qed.

Lemma build_sale_returns (entries : list (string * pyval))
    (fields : list (string * sale_rule * string)) :
  fits_float (PDict entries) = true ->
  exists record,
    build_sale float_of_str repr (PDict entries) fields = Returned record.
Proof.
  intros Hfits. induction fields as [|[[name r] key] fields [others IH]];
    [now eexists|].
  cbn [build_sale].
  destruct (read_sale_field_returns entries r key Hfits) as [v ->].
  rewrite IH. now eexists.
Qed.

Lemma sales_loop_returns (fields : list (string * sale_rule * string))
    (rows : list pyval) :
  Forall (fun row => is_dict row = true /\ fits_float row = true) rows ->
  forall parsed,
    exists records,
      sales_loop float_of_str repr fields rows parsed
      = Returned (parsed ++ records)
      /\ length records = length rows.
Proof.
  induction 1 as [|row rows [Hdict Hfits] _ IH]; intros parsed.
  - exists []. now rewrite app_nil_r.
  - destruct row as [| | | | | | | |entries| |]; try discriminate.
    destruct (build_sale_returns entries fields Hfits) as [record Hrecord].
    cbn [sales_loop]. rewrite Hrecord. cbn [bind].
    destruct (IH (parsed ++ [PDict record])) as (records & -> & Hlength).
    exists (PDict record :: records). rewrite <- app_assoc.
    split; [reflexivity | cbn [length]; now rewrite Hlength].
Qed.

Lemma rows_total (fields : list (string * sale_rule * string))
    (rows : list pyval) :
  Forall (fun row => is_dict row = true /\ fits_float row = true) rows ->
  exists records,
    (if negb (truthy (PList rows)) then Returned (PList [])
     else
       let* items := iterate (PList rows) in
       omap PList (sales_loop float_of_str repr fields items []))
    = Returned (PList records)
    /\ length records = length rows.
Proof.
  intros Hrows. destruct rows as [|row rows]; [now exists []|].
  cbn [truthy negb iterate bind].
  destruct (sales_loop_returns fields (row :: rows) Hrows [])
    as (records & -> & Hlength).
  now exists records.
Qed.

(** X3. On a list of mappings in which every int has a magnitude below
    [2 ** 1023], [parse_sales] and [parse_transactions] return, with one
    record for every row. *)
Theorem row_parsers_total (rows : list pyval) :
  Forall (fun row => is_dict row = true /\ fits_float row = true) rows ->
  (exists records,
     parse_sales float_of_str repr (PList rows) = Returned (PList records)
     /\ length records = length rows) /\
  (exists records,
     parse_transactions float_of_str (PList rows) = Returned (PList records)
     /\ length records = length rows).
Proof.
  intros Hrows. split.
  - rewrite parse_sales_with. now apply rows_total.
  - rewrite parse_transactions_as_sales. now apply rows_total.
Qed.

(** *** Keys that are absent, keys that are not read *)

Lemma read_sale_field_absent (entries : list (string * pyval))
    (r : sale_rule) (key : string) :
  dict_has entries key = false ->
  read_sale_field float_of_str repr (PDict entries) r key = Returned PNone.
Proof.
  intros Habsent.
  destruct r;
    cbn [read_sale_field get bind _safe_get _extract_currency_sum];
    now rewrite (dict_get_absent entries key PNone Habsent).
Qed.

Lemma build_sale_absent (entries : list (string * pyval))
    (fields : list (string * sale_rule * string)) :
  NoDup (names fields) ->
  forall record name r key,
    build_sale float_of_str repr (PDict entries) fields = Returned record ->
    In (name, r, key) fields -> dict_has entries key = false ->
    field (PDict record) name = PNone.
Proof.
  induction fields as [|[[name0 r0] key0] fields IH];
    intros Hdistinct record name r key Hrecord Hin Habsent; [contradiction|].
  cbn [names map fst] in Hdistinct.
  apply NoDup_cons in Hdistinct as [Hfresh Hdistinct].
  cbn [build_sale] in Hrecord.
  destruct (read_sale_field float_of_str repr (PDict entries) r0 key0)
    as [v0|e] eqn:Hv0; [|discriminate].
  cbn [bind] in Hrecord.
  destruct (build_sale float_of_str repr (PDict entries) fields)
    as [others|e] eqn:Hothers; [|discriminate].
  injection Hrecord as <-. cbn [field dict_get].
  destruct Hin as [[= -> -> ->] | Hin].
  - rewrite String.eqb_refl.
    rewrite (read_sale_field_absent entries r key Habsent) in Hv0.
    now injection Hv0.
  - destruct (String.eqb name0 name) eqn:Hname.
    + apply String.eqb_eq in Hname as ->. exfalso. apply Hfresh.
      apply list_elem_of_In.
      exact (in_map (fun f : string * sale_rule * string => fst (fst f))
               fields (name, r, key) Hin).
    + exact (IH Hdistinct others name r key eq_refl Hin Habsent).
Qed.

Lemma build_sale_frame (entries entries' : list (string * pyval))
    (fields : list (string * sale_rule * string)) :
  (forall key, In key (source_keys fields) ->
     dict_get entries key PNone = dict_get entries' key PNone) ->
  build_sale float_of_str repr (PDict entries) fields
  = build_sale float_of_str repr (PDict entries') fields.
Proof.
  induction fields as [|[[name r] key] fields IH]; intros Hsame;
    [reflexivity|].
  cbn [build_sale].
  assert (Hfield : read_sale_field float_of_str repr (PDict entries) r key
                   = read_sale_field float_of_str repr (PDict entries') r key).
  { destruct r;
      cbn [read_sale_field get bind _safe_get _extract_currency_sum];
      now rewrite (Hsame key (or_introl eq_refl)). }
  rewrite Hfield, IH; [reflexivity|].
  intros key' Hkey'. apply Hsame. now right.
Qed.

(** X4. The two row parsers invent no value and read no other key: a field
    whose source key is absent from the row is [None] in the record, and
    two rows that agree on the source keys of the display give the same
    record, whatever else they hold. *)
Theorem row_parsers_read_only_their_keys :
  (forall row record name r key,
     build_sale float_of_str repr (PDict row) sale_fields = Returned record ->
     In (name, r, key) sale_fields -> dict_has row key = false ->
     field (PDict record) name = PNone) /\
  (forall row row',
     (forall key, In key (source_keys sale_fields) ->
        dict_get row key PNone = dict_get row' key PNone) ->
     build_sale float_of_str repr (PDict row) sale_fields
     = build_sale float_of_str repr (PDict row') sale_fields) /\
  (forall row record name r key,
     build_record float_of_str (PDict row) transaction_fields
     = Returned record ->
     In (name, r, key) transaction_fields -> dict_has row key = false ->
     field (PDict record) name = PNone) /\
  (forall row row',
     (forall key, In key (source_keys transaction_fields) ->
        dict_get row key PNone = dict_get row' key PNone) ->
     build_record float_of_str (PDict row) transaction_fields
     = build_record float_of_str (PDict row') transaction_fields).
Proof.
  split.
  { intros row record name r key. apply build_sale_absent.
    apply (bool_decide_unpack _). vm_compute. exact I. }
  split; [intros row row'; apply build_sale_frame|].
  split.
  { intros row record name r key Hrecord Hin.
    rewrite build_record_as_sale in Hrecord.
    apply (build_sale_absent row (as_sale_fields transaction_fields))
      with (r := sale_rule_of r); [|exact Hrecord|].
    - rewrite names_as_sale_fields.
      apply (bool_decide_unpack _). vm_compute. exact I.
    - unfold as_sale_fields.
      change (name, sale_rule_of r, key)
        with ((fun f : string * rule * string =>
                 (fst (fst f), sale_rule_of (snd (fst f)), snd f))
                (name, r, key)).
      now apply in_map. }
  intros row row' Hsame. rewrite !build_record_as_sale.
  apply build_sale_frame. intros key Hkey. apply Hsame.
  unfold source_keys, as_sale_fields in *. now rewrite map_map in Hkey.
Qed.

End RowParsers.

Lemma row_parsers_shape_witness :
  exists out,
    parse_sales Example.decimal_float Example.class_repr
      (PList [PDict [("DishName", PStr "Lagman"); ("DishSumInt", PInt 2400)];
              PDict [("DishName", PStr "Plov"); ("VAT.Sum", PStr "12")]])
    = Returned out /\
    exists items records,
      out = PList records /\
      items = [PDict [("DishName", PStr "Lagman"); ("DishSumInt", PInt 2400)];
               PDict [("DishName", PStr "Plov"); ("VAT.Sum", PStr "12")]] /\
      records_of
        (fun row =>
           build_sale Example.decimal_float Example.class_repr row sale_fields)
        (names sale_fields) items records.
Proof.
  destruct (row_parsers_shape Example.decimal_float Example.class_repr)
    as (_ & _ & _ & _ & Hsales & _).
  eexists. split; [vm_compute; reflexivity|].
  match goal with
  | |- exists items records, ?out = _ /\ _ =>
      destruct (Hsales
        (PList [PDict [("DishName", PStr "Lagman"); ("DishSumInt", PInt 2400)];
                PDict [("DishName", PStr "Plov"); ("VAT.Sum", PStr "12")]])
        out) as (items & records & Hout & Hitems & Hrecords);
        [vm_compute; reflexivity|]
  end.
  exists items, records. simpl in Hitems. injection Hitems as <-. auto.
Defined.


Lemma row_parsers_total_witness :
  (exists records,
     parse_sales Example.decimal_float Example.class_repr
       (PList [PDict [("DishName", PStr "Lagman"); ("GuestNum.Avg", PInt 2)];
               PDict [("FiscalChequeNumber", PList [PInt 19758; PInt 23])]])
     = Returned (PList records)
     /\ length records = 2%nat) /\
  (exists records,
     parse_transactions Example.decimal_float
       (PList [PDict [("DishName", PStr "Lagman"); ("GuestNum.Avg", PInt 2)];
               PDict [("FiscalChequeNumber", PList [PInt 19758; PInt 23])]])
     = Returned (PList records)
     /\ length records = 2%nat).
Proof.
  apply (row_parsers_total Example.decimal_float Example.class_repr
           [PDict [("DishName", PStr "Lagman"); ("GuestNum.Avg", PInt 2)];
            PDict [("FiscalChequeNumber", PList [PInt 19758; PInt 23])]]).
  repeat constructor.
Defined.

Lemma row_parsers_read_only_their_keys_witness :
  build_sale Example.decimal_float Example.class_repr
    (PDict [("DishName", PStr "Lagman"); ("Kitchen.Note", PStr "no onion")])
    sale_fields
  = build_sale Example.decimal_float Example.class_repr
      (PDict [("Waiter.Mood", PInt 7); ("DishName", PStr "Lagman")])
      sale_fields.
Proof.
  destruct (row_parsers_read_only_their_keys Example.decimal_float
              Example.class_repr) as (_ & Hframe & _).
  apply Hframe. apply List.Forall_forall.
  unfold source_keys, sale_fields. cbn [map snd].
  repeat (constructor; [reflexivity|]). constructor.
Defined.

(** ** The entry points that read plain fields *)

Lemma read_entry_mapping (d : list (string * pyval)) (e : entry) :
  read_entry (PDict d) e = Returned (entry_value d e).
Proof.
  destruct e; cbn [read_entry get bind entry_value]; try reflexivity.
  - now destruct (truthy (dict_get d key PNone)).
  - now destruct (is_list (dict_get d key PNone)).
Qed.

Lemma display_mapping (d : list (string * pyval))
    (fields : list (string * entry)) :
  display (PDict d) fields = Returned (record_of fields d).
Proof.
  induction fields as [|[name e] fields IH]; [reflexivity|].
  cbn [display]. now rewrite read_entry_mapping, IH.
Qed.

Lemma display_names (item : pyval) (fields : list (string * entry)) :
  forall record,
    display item fields = Returned record -> map fst record = map fst fields.
Proof.
  induction fields as [|[name e] fields IH]; intros record.
  - now intros [= <-].
  - cbn [display]. destruct (read_entry item e) as [v|err]; [|discriminate].
    cbn [bind]. destruct (display item fields) as [others|err];
      [|discriminate].
    intros [= <-]. cbn [map fst]. f_equal. now apply IH.
Qed.

Lemma display_no_get (item : pyval) (name : string) (e : entry)
    (fields : list (string * entry)) :
  is_dict item = false -> reads_item e = true ->
  display item ((name, e) :: fields) = Raised (no_get item).
Proof.
  intros Hitem He.
  destruct item; try discriminate; destruct e; try discriminate; reflexivity.
Qed.

Lemma checked_loop_records (fields : list (string * entry))
    (items : list pyval) :
  forall parsed,
    exists records,
      checked_loop fields items parsed = Returned (parsed ++ records) /\
      records_of (fun item => display item fields) (map fst fields)
        (List.filter is_dict items) records.
Proof.
  induction items as [|item items IH]; intros parsed.
  - exists []. split; [now rewrite app_nil_r | constructor].
  - cbn [checked_loop List.filter].
    destruct (is_dict item) eqn:Hitem; cbn [negb].
    + destruct item as [| | | | | | | |d| |]; try discriminate.
      rewrite display_mapping. cbn [bind].
      destruct (IH (parsed ++ [PDict (record_of fields d)]))
        as (records & -> & Hrecords).
      exists (PDict (record_of fields d) :: records).
      split; [now rewrite <- app_assoc|].
      constructor; [|exact Hrecords].
      exists (record_of fields d).
      repeat split; [apply display_mapping|].
      apply (display_names (PDict d)), display_mapping.
    + apply IH.
Qed.

(** X5. [parse_accounts], [parse_salaries], [parse_restaurant_sections]
    and [parse_tables] never raise: whatever the input, they return a list;
    it is empty when the input is not a list, and otherwise it holds one
    record for every item that is a mapping, in the order of the input,
    the other items being skipped. *)
Theorem checked_parsers_never_raise :
  Forall (fun checked =>
            forall data,
              exists records,
                fst checked data = Returned (PList records) /\
                (is_list data = false -> records = []) /\
                (forall items,
                   data = PList items ->
                   records_of (fun item => display item (snd checked))
                     (map fst (snd checked)) (List.filter is_dict items)
                     records))
    [(parse_accounts, account_fields);
     (parse_salaries, salary_fields);
     (parse_restaurant_sections, section_fields);
     (parse_tables, table_fields)].
Proof.
  assert (Hchecked : forall fields data,
            exists records,
              parse_checked fields data = Returned (PList records) /\
              (is_list data = false -> records = []) /\
              (forall items,
                 data = PList items ->
                 records_of (fun item => display item fields)
                   (map fst fields) (List.filter is_dict items) records)).
  { intros fields data. unfold parse_checked.
    destruct (truthy data) eqn:Htruthy; cbn [negb].
    - destruct (is_list data) eqn:Hlist; cbn [negb].
      + destruct data as [| | | | |items| | | | |]; try discriminate.
        cbn [iterate bind].
        destruct (checked_loop_records fields items [])
          as (records & -> & Hrecords).
        exists records. repeat split; [discriminate|].
        now intros items' [= <-].
      + exists []. repeat split. intros items ->. discriminate.
    - exists []. repeat split. intros items ->.
      destruct items; [constructor | discriminate]. }
  repeat constructor; intros data; apply Hchecked.
Qed.

Lemma checked_parsers_never_raise_witness :
  exists records,
    parse_accounts
      (PList [PDict [("id", PStr "a-1"); ("name", PStr "Cash")]; PInt 5;
              PNone; PDict [("id", PStr "a-2")]])
    = Returned (PList records)
    /\ length records = 2%nat.
Proof.
  pose proof checked_parsers_never_raise as H. apply Forall_inv in H.
  destruct (H (PList [PDict [("id", PStr "a-1"); ("name", PStr "Cash")];
                      PInt 5; PNone; PDict [("id", PStr "a-2")]]))
    as (records & Hreturned & _ & Hrecords).
  exists records. split; [exact Hreturned|].
  specialize (Hrecords _ eq_refl). apply Forall2_length in Hrecords.
  now rewrite <- Hrecords.
Defined.

Lemma records_loop_mappings (fields : list (string * entry))
    (rows : list pyval) :
  Forall (fun row => is_dict row = true) rows ->
  forall parsed,
    exists records,
      records_loop fields rows parsed = Returned (parsed ++ records) /\
      records_of (fun row => display row fields) (map fst fields)
        rows records.
Proof.
  induction 1 as [|row rows Hrow _ IH]; intros parsed.
  - exists []. split; [now rewrite app_nil_r | constructor].
  - destruct row as [| | | | | | | |d| |]; try discriminate.
    cbn [records_loop]. rewrite display_mapping. cbn [bind].
    destruct (IH (parsed ++ [PDict (record_of fields d)]))
      as (records & -> & Hrecords).
    exists (PDict (record_of fields d) :: records).
    split; [now rewrite <- app_assoc|].
    constructor; [|exact Hrecords].
    exists (record_of fields d). repeat split; [apply display_mapping|].
    apply (display_names (PDict d)), display_mapping.
Qed.

Lemma parse_boolean_is_bool (v : pyval) :
  exists b, _parse_boolean v = PBool b.
Proof. destruct v; cbn [_parse_boolean]; eauto. Qed.

(** X6. [parse_employees] returns on every list of mappings, with one
    record for each. In every record the five status flags are booleans,
    whatever the vendor sent; the four lists of role and department codes
    are lists; and each of the four optional dates is either [None] or a
    value that counts as true, an empty text never being kept. *)
Theorem parse_employees_typed_fields :
  (forall rows,
     Forall (fun row => is_dict row = true) rows ->
     exists records,
       parse_employees (PList rows) = Returned (PList records) /\
       records_of (fun row => display row employee_fields)
         (map fst employee_fields) rows records) /\
  (forall employee,
     exists record,
       display (PDict employee) employee_fields = Returned record /\
       Forall (fun name => exists b, field (PDict record) name = PBool b)
         ["deleted"; "client"; "supplier"; "employee"; "represents_store"] /\
       Forall (fun name => exists l, field (PDict record) name = PList l)
         ["roles_iiko_ids"; "role_codes"; "department_codes";
          "responsibility_department_codes"] /\
       Forall (fun name =>
                 field (PDict record) name = PNone
                 \/ truthy (field (PDict record) name) = true)
         ["birthday"; "fire_date"; "activation_date"; "deactivation_date"]).
Proof.
  split.
  - intros rows Hrows. unfold parse_employees, parse_records.
    destruct rows as [|row rows]; [exists []; split; [reflexivity|constructor]|].
    cbn [truthy negb iterate bind].
    destruct (records_loop_mappings employee_fields (row :: rows) Hrows [])
      as (records & -> & Hrecords).
    now exists records.
  - intros employee. exists (record_of employee_fields employee).
    split; [apply display_mapping|].
    assert (Hlist : forall key,
              exists l, entry_value employee (ListOf key) = PList l).
    { intros key. cbn [entry_value].
      destruct (dict_get employee key PNone) eqn:Hkey; cbn [is_list]; eauto.
      destruct (dict_has employee key) eqn:Hhas.
      - clear Hhas. induction employee as [|[k v] employee IH];
          [discriminate|].
        cbn [dict_get] in *. destruct (String.eqb k key); eauto.
      - rewrite (dict_get_absent _ _ _ Hhas). eauto. }
    assert (Hdate : forall key,
              entry_value employee (IfSet key PNone PNone) = PNone
              \/ truthy (entry_value employee (IfSet key PNone PNone)) = true).
    { intros key. cbn [entry_value].
      destruct (truthy (dict_get employee key PNone)) eqn:Hset; auto. }
    split; [|split];
      repeat (apply List.Forall_cons;
              [lazy [field record_of employee_fields map fst snd dict_get
                     String.eqb Ascii.eqb Bool.eqb]|]);
      try apply List.Forall_nil.
    all: first [apply parse_boolean_is_bool | apply Hlist | apply Hdate].
Qed.

Lemma parse_employees_typed_fields_witness :
  exists records,
    parse_employees
      (PList [PDict [("id", PStr "e-1"); ("deleted", PStr "TRUE");
                     ("birthday", PStr ""); ("rolesIds", PStr "r-1")];
              PDict [("id", PStr "e-2"); ("client", PInt 1)]])
    = Returned (PList records) /\
    records_of (fun row => display row employee_fields)
      (map fst employee_fields)
      [PDict [("id", PStr "e-1"); ("deleted", PStr "TRUE");
              ("birthday", PStr ""); ("rolesIds", PStr "r-1")];
       PDict [("id", PStr "e-2"); ("client", PInt 1)]]
      records.
Proof.
  destruct parse_employees_typed_fields as [Hrows _].
  apply Hrows. repeat constructor.
Defined.

(** ** The entry points that stamp their records *)

Lemma stamped_mapping (fields : list (string * entry))
    (d : list (string * pyval)) (c : clock) :
  stamped fields (PDict d) c
  = (Returned (PDict (record_of fields d
                      ++ [("created_at", PDateTime (c 0%nat));
                          ("updated_at", PDateTime (c 1%nat))])),
     fun n => c (S (S n))).
Proof.
  unfold stamped, iobind, lift, ret, Py.now. now rewrite display_mapping.
Qed.

Lemma stamped_loop_readings (fields : list (string * entry))
    (items : list pyval) :
  Forall (fun item => is_dict item = true) items ->
  forall parsed c,
    exists records,
      fst (stamped_loop fields items parsed c) = Returned (parsed ++ records)
      /\ (forall n, snd (stamped_loop fields items parsed c) n
                    = c (n + 2 * length items)%nat)
      /\ length records = length items
      /\ (forall i item,
            items !! i = Some item ->
            exists entries,
              display item fields = Returned entries /\
              records !! i
              = Some (PDict (entries
                             ++ [("created_at", PDateTime (c (2 * i)%nat));
                                 ("updated_at",
                                  PDateTime (c (2 * i + 1)%nat))]))).
Proof.
  induction 1 as [|item items Hitem _ IH]; intros parsed c.
  - exists []. cbn [stamped_loop ret fst snd length].
    rewrite app_nil_r. repeat split; [|discriminate].
    intros n. f_equal. lia.
  - destruct item as [| | | | | | | |d| |]; try discriminate.
    set (record := PDict (record_of fields d
                          ++ [("created_at", PDateTime (c 0%nat));
                              ("updated_at", PDateTime (c 1%nat))])).
    assert (Hstep : stamped_loop fields (PDict d :: items) parsed c
                    = stamped_loop fields items (parsed ++ [record])
                        (fun n => c (S (S n)))).
    { cbn [stamped_loop]. unfold iobind at 1. now rewrite stamped_mapping. }
    rewrite Hstep. clear Hstep.
    destruct (IH (parsed ++ [record]) (fun n => c (S (S n))))
      as (records & Hfst & Hsnd & Hlength & Hrecords).
    exists (record :: records). rewrite Hfst, <- app_assoc.
    split; [reflexivity|]. split.
    { intros n. rewrite Hsnd. cbn [length]. f_equal. lia. }
    split; [cbn [length]; now rewrite Hlength|].
    intros [|i] item.
    + intros [= <-]. exists (record_of fields d).
      split; [apply display_mapping | reflexivity].
    + intros Hi. destruct (Hrecords i item Hi) as (entries & Hentries & Hi').
      exists entries. split; [exact Hentries|].
      change ((record :: records) !! S i) with (records !! i).
      rewrite Hi'.
      replace (2 * S i + 1)%nat with (S (S (2 * i + 1))) by lia.
      replace (2 * S i)%nat with (S (S (2 * i))) by lia.
      reflexivity.
Qed.

(** X7. The entry points that stamp their records read the clock exactly
    twice for every item: on a list of mappings they return one record per
    item, the record of item [i] carrying reading [2 i] of the clock as
    [created_at] and reading [2 i + 1] as [updated_at], after its other
    entries; the two stamps of a record are thus two different readings. *)
Theorem stamped_parsers_clock_readings :
  Forall (fun stamping =>
            forall items c,
              Forall (fun item => is_dict item = true) items ->
              exists records,
                fst (fst stamping (PList items) c) = Returned (PList records)
                /\ (forall n, snd (fst stamping (PList items) c) n
                              = c (n + 2 * length items)%nat)
                /\ length records = length items
                /\ (forall i item,
                      items !! i = Some item ->
                      exists entries,
                        display item (snd stamping) = Returned entries /\
                        records !! i
                        = Some (PDict
                                  (entries
                                   ++ [("created_at",
                                        PDateTime (c (2 * i)%nat));
                                       ("updated_at",
                                        PDateTime (c (2 * i + 1)%nat))]))))
    [(parse_products, product_fields);
     (parse_items_server, server_item_fields);
     (parse_product_categories, product_category_fields);
     (parse_departments, department_fields);
     (parse_schedule_types, schedule_fields);
     (parse_attendance_types, attendance_fields);
     (parse_terminal_groups, terminal_group_fields);
     (parse_terminals, terminal_fields);
     (parse_orders, order_fields)].
Proof.
  assert (Hstamped : forall fields items c,
            Forall (fun item => is_dict item = true) items ->
            exists records,
              fst (parse_stamped fields (PList items) c)
              = Returned (PList records)
              /\ (forall n, snd (parse_stamped fields (PList items) c) n
                            = c (n + 2 * length items)%nat)
              /\ length records = length items
              /\ (forall i item,
                    items !! i = Some item ->
                    exists entries,
                      display item fields = Returned entries /\
                      records !! i
                      = Some (PDict
                                (entries
                                 ++ [("created_at", PDateTime (c (2 * i)%nat));
                                     ("updated_at",
                                      PDateTime (c (2 * i + 1)%nat))])))).
  { intros fields items c Hitems. unfold parse_stamped.
    destruct items as [|item items].
    - exists []. cbn [truthy negb ret fst snd length].
      repeat split; [|discriminate]. intros n. f_equal. lia.
    - cbn [truthy negb iterate]. unfold iobind, lift, ret.
      destruct (stamped_loop_readings fields (item :: items) Hitems [] c)
        as (records & Hfst & Hsnd & Hlength & Hrecords).
      destruct (stamped_loop fields (item :: items) [] c) as [[out|e] c'];
        cbn [fst snd] in *; [|discriminate].
      injection Hfst as ->. now exists records. }
  repeat (apply List.Forall_cons; [intros items c; apply Hstamped|]).
  apply List.Forall_nil.
Qed.

Lemma stamped_parsers_clock_readings_witness :
  exists records,
    fst (parse_terminals
           (PList [PDict [("id", PStr "t-1")]; PDict [("id", PStr "t-2")]])
           Example.morning)
    = Returned (PList records)
    /\ length records = 2%nat.
Proof.
  pose proof stamped_parsers_clock_readings as H.
  do 7 apply Forall_inv_tail in H. apply Forall_inv in H.
  destruct (H [PDict [("id", PStr "t-1")]; PDict [("id", PStr "t-2")]]
              Example.morning)
    as (records & Hreturned & _ & Hlength & _); [repeat constructor|].
  now exists records.
Defined.

Lemma drop_timestamps_stamps (record : list (string * pyval))
    (created_at updated_at : datetime) :
  drop_timestamps
    (PDict (record ++ [("created_at", PDateTime created_at);
                       ("updated_at", PDateTime updated_at)]))
  = drop_timestamps (PDict record).
Proof.
  cbn [drop_timestamps]. rewrite List.filter_app. cbn [List.filter fst].
  change (is_timestamp_field "created_at") with true.
  change (is_timestamp_field "updated_at") with true.
  cbn [negb]. now rewrite app_nil_r.
Qed.

Lemma stamped_outcome (fields : list (string * entry)) (item : pyval) :
  (exists record,
     forall c,
       stamped fields item c
       = (Returned (PDict (record
                           ++ [("created_at", PDateTime (c 0%nat));
                               ("updated_at", PDateTime (c 1%nat))])),
          fun n => c (S (S n))))
  \/ (exists e, forall c, stamped fields item c = (Raised e, c)).
Proof.
  unfold stamped, iobind, lift, ret, Py.now.
  destruct (display item fields) as [record|e]; [left | right]; eauto.
Qed.

Lemma stamped_loop_content (fields : list (string * entry))
    (items : list pyval) :
  forall parsed1 parsed2 c1 c2,
    map drop_timestamps parsed1 = map drop_timestamps parsed2 ->
    omap (map drop_timestamps) (fst (stamped_loop fields items parsed1 c1))
    = omap (map drop_timestamps) (fst (stamped_loop fields items parsed2 c2)).
Proof.
  induction items as [|item items IH]; intros parsed1 parsed2 c1 c2 Hparsed.
  - cbn [stamped_loop ret fst omap bind]. now rewrite Hparsed.
  - cbn [stamped_loop]. unfold iobind.
    destruct (stamped_outcome fields item) as [[record Hrecord] | [e He]].
    + rewrite !Hrecord. apply IH.
      rewrite !map_app, Hparsed. cbn [map].
      now rewrite !drop_timestamps_stamps.
    + now rewrite !He.
Qed.

(** X8. Apart from the entries [created_at] and [updated_at], what the
    stamping entry points return depends on the raw data only, not on when
    they run; this holds for every input, the ones that raise included. *)
Theorem stamped_parsers_content :
  Forall (fun parse : pyval -> io clock pyval =>
            forall raw c1 c2,
              omap content (fst (parse raw c1))
              = omap content (fst (parse raw c2)))
    [parse_products; parse_items_server; parse_product_categories;
     parse_departments; parse_schedule_types; parse_attendance_types;
     parse_terminal_groups; parse_terminals; parse_orders] /\
  (forall raw c1 c2,
     omap drop_timestamps (fst (parse_reports raw c1))
     = omap drop_timestamps (fst (parse_reports raw c2))).
Proof.
  assert (Hstamped : forall fields raw c1 c2,
            omap content (fst (parse_stamped fields raw c1))
            = omap content (fst (parse_stamped fields raw c2))).
  { intros fields raw c1 c2. unfold parse_stamped.
    destruct (truthy raw); [|reflexivity]. cbn [negb].
    unfold iobind, lift, ret.
    destruct (iterate raw) as [items|e]; [|reflexivity].
    pose proof (stamped_loop_content fields items [] [] c1 c2 eq_refl) as H.
    destruct (stamped_loop fields items [] c1) as [[r1|e1] c1'],
             (stamped_loop fields items [] c2) as [[r2|e2] c2'];
      cbn [fst omap bind content] in H |- *; try discriminate;
      now injection H as ->. }
  split.
  - repeat (apply List.Forall_cons; [intros raw c1 c2; apply Hstamped|]).
    apply List.Forall_nil.
  - intros raw c1 c2. unfold parse_reports.
    destruct (truthy raw); [|reflexivity]. cbn [negb].
    unfold iobind, lift, ret, Py.now.
    destruct (display raw report_fields) as [record|e]; [|reflexivity].
    cbn [fst omap bind drop_timestamps]. rewrite !List.filter_app.
    reflexivity.
Qed.

(** X9. [parse_menu_nomenclature] on a mapping with entries: a section
    that is absent counts as empty; a section that is present but [None]
    makes the call raise [TypeError]; and when the three sections are lists
    of mappings the result holds one record for every category, product and
    modifier, the clock having been read twice for every product and every
    modifier and not at all for the categories. *)
Theorem parse_menu_nomenclature_sections (d : list (string * pyval)) (c : clock) :
  d <> [] ->
  (dict_has d "productCategories" = false ->
   dict_has d "products" = false ->
   dict_has d "productModifiers" = false ->
   parse_menu_nomenclature (PDict d) c
   = (Returned (PDict [("categories", PList []); ("items", PList []);
                       ("modifiers", PList [])]), c)) /\
  (dict_get d "productCategories" (PList []) = PNone ->
   parse_menu_nomenclature (PDict d) c
   = (Raised (Exn TypeError "'NoneType' object is not iterable"), c)) /\
  (forall groups products product_modifiers,
     dict_get d "productCategories" (PList []) = PList groups ->
     dict_get d "products" (PList []) = PList products ->
     dict_get d "productModifiers" (PList []) = PList product_modifiers ->
     Forall (fun item => is_dict item = true)
       (groups ++ products ++ product_modifiers) ->
     exists categories items modifiers,
       fst (parse_menu_nomenclature (PDict d) c)
       = Returned (PDict [("categories", PList categories);
                          ("items", PList items);
                          ("modifiers", PList modifiers)]) /\
       records_of (fun group => display group menu_category_fields)
         (map fst menu_category_fields) groups categories /\
       length items = length products /\
       length modifiers = length product_modifiers /\
       forall n,
         snd (parse_menu_nomenclature (PDict d) c) n
         = c (n + 2 * (length products + length product_modifiers))%nat).
Proof.
  intros Hd.
  assert (Htruthy : truthy (PDict d) = true) by now destruct d.
  unfold parse_menu_nomenclature. rewrite Htruthy. cbn [negb].
  unfold iobind, lift, ret. cbn [get].
  split; [|split].
  - intros H1 H2 H3.
    now rewrite (dict_get_absent d _ _ H1), (dict_get_absent d _ _ H2),
      (dict_get_absent d _ _ H3).
  - now intros ->.
  - intros groups products product_modifiers -> -> -> Hitems.
    apply Forall_app in Hitems as [Hgroups Hitems].
    apply Forall_app in Hitems as [Hproducts Hmodifiers].
    cbn [iterate].
    destruct (records_loop_mappings menu_category_fields groups Hgroups [])
      as (categories & -> & Hcategories).
    destruct (stamped_loop_readings menu_item_fields products Hproducts [] c)
      as (items & Hitems1 & Hclock1 & Hlength1 & _).
    destruct (stamped_loop menu_item_fields products [] c)
      as [[out1|e1] c1]; cbn [fst snd] in Hitems1, Hclock1; [|discriminate].
    injection Hitems1 as ->.
    destruct (stamped_loop_readings menu_modifier_fields product_modifiers
                Hmodifiers [] c1)
      as (modifiers & Hitems2 & Hclock2 & Hlength2 & _).
    destruct (stamped_loop menu_modifier_fields product_modifiers [] c1)
      as [[out2|e2] c2]; cbn [fst snd] in Hitems2, Hclock2; [|discriminate].
    injection Hitems2 as ->.
    exists categories, items, modifiers. cbn [fst snd app].
    repeat split; try assumption.
    intros n. rewrite Hclock2, Hclock1. f_equal. lia.
Qed.

Lemma parse_menu_nomenclature_sections_witness :
  fst (parse_menu_nomenclature
         (PDict [("products", PList [PDict [("id", PStr "p-1")]]);
                 ("productCategories", PNone)])
         Example.morning)
  = Raised (Exn TypeError "'NoneType' object is not iterable").
Proof.
  destruct (parse_menu_nomenclature_sections
              [("products", PList [PDict [("id", PStr "p-1")]]);
               ("productCategories", PNone)] Example.morning)
    as (_ & Hnone & _); [discriminate|].
  now rewrite Hnone.
Defined.

(** ** The coercions, whatever they are given *)

Section Coercions.

Variable float_of_str : string -> option spec_float.
Variable repr : pyval -> string.

Lemma py_float_raises (v : pyval) (e : exn) :
  is_int_or_float v = true -> py_float v = Raised e -> e = int_too_large.
Proof.
  destruct v as [|b|n|x| | | | | | |]; try discriminate; intros _.
  - now destruct b.
  - cbn [py_float]. unfold float_of_int.
    destruct (binary_normalize float_prec float_emax n 0 false);
      try discriminate.
    now intros [= <-].
Qed.

Lemma first_numeric_outcome (entries : list (string * pyval))
    (keys : list string) :
  match first_numeric entries keys with
  | Returned r => r = PNone \/ exists x, r = PFloat x
  | Raised e => e = int_too_large
  end.
Proof.
  induction keys as [|key keys IH]; [now left|].
  cbn [first_numeric].
  destruct (dict_has entries key
            && is_int_or_float (dict_get entries key PNone)) eqn:Hkey;
    [|exact IH].
  apply andb_prop in Hkey as [_ Hnumber].
  destruct (py_float (dict_get entries key PNone)) as [x|e] eqn:Hx;
    cbn [omap bind]; [eauto|].
  exact (py_float_raises _ e Hnumber Hx).
Qed.

Lemma extract_numeric_outcome (v : pyval) :
  match _extract_numeric_value float_of_str v with
  | Returned r => r = PNone \/ exists x, r = PFloat x
  | Raised e => e = int_too_large
  end.
Proof.
  destruct v as [|b|n|x|text|items|items|items|entries|t|cls r];
    try (now left); cbn [_extract_numeric_value].
  - destruct b; right; eauto.
  - destruct (py_float (PInt n)) as [x|e] eqn:Hx; cbn [omap bind]; [eauto|].
    exact (py_float_raises (PInt n) e eq_refl Hx).
  - right. eauto.
  - destruct (float_of_str text); eauto.
  - apply first_numeric_outcome.
Qed.

Lemma render_number_raises (v : pyval) (e : exn) :
  is_int_or_float v = true -> render_number repr v = Raised e ->
  e = int_too_large.
Proof.
  intros Hnumber. unfold render_number.
  destruct (py_float v) as [x|e'] eqn:Hx; cbn [bind].
  - destruct (is_integer x) eqn:Hinteger; [|discriminate].
    destruct v as [|b|n|y| | | | | | |]; try discriminate.
    cbn [py_float] in Hx. injection Hx as ->. cbn [py_int].
    now destruct (integral_float_to_int x Hinteger) as [n ->].
  - intros [= <-]. exact (py_float_raises v e' Hnumber Hx).
Qed.

Lemma clean_items_raises (items : list pyval) :
  forall cleaned e,
    clean_items repr items cleaned = Raised e -> e = int_too_large.
Proof.
  induction items as [|item items IH]; intros cleaned e; [discriminate|].
  destruct item as [|b|n|x| | | | | | |];
    cbn [clean_items is_int_or_float]; try apply IH;
    (destruct (render_number repr _) as [text|e'] eqn:Htext; cbn [bind];
     [apply IH
     | intros [= <-];
       match type of Htext with
       | render_number repr ?number = _ =>
           exact (render_number_raises number e' eq_refl Htext)
       end]).
Qed.

(** X10. The coercions keep to their return types, whatever they are
    given. [_parse_boolean] always gives a boolean and changes nothing when
    applied again. [_extract_numeric_value] gives [None] or a float, which
    it maps to itself. [_extract_fiscal_cheque_number] gives [None] or a
    text. The only exception either of the last two can raise is the
    [OverflowError] of an int too large for a float. *)
Theorem coercions_keep_their_types (v : pyval) :
  (exists b, _parse_boolean v = PBool b) /\
  _parse_boolean (_parse_boolean v) = _parse_boolean v /\
  match _extract_numeric_value float_of_str v with
  | Returned r =>
      (r = PNone \/ exists x, r = PFloat x)
      /\ _extract_numeric_value float_of_str r = Returned r
  | Raised e => e = int_too_large
  end /\
  match _extract_fiscal_cheque_number repr v with
  | Returned r => r = PNone \/ exists text, r = PStr text
  | Raised e => e = int_too_large
  end.
Proof.
  split; [destruct v; cbn [_parse_boolean]; eauto|].
  split; [now destruct v|].
  split.
  - pose proof (extract_numeric_outcome v) as H.
    destruct (_extract_numeric_value float_of_str v) as [r|e]; [|exact H].
    split; [exact H|]. now destruct H as [-> | [x ->]].
  - destruct v as [|b|n|x|text|items|items|items|entries|t|cls r];
      cbn [_extract_fiscal_cheque_number]; eauto;
      try (destruct (render_number repr _) as [text|e] eqn:Htext;
           cbn [omap bind];
           [eauto
           | match type of Htext with
             | render_number repr ?number = _ =>
                 exact (render_number_raises number e eq_refl Htext)
             end]);
      (destruct (clean_items repr items []) as [cleaned|e] eqn:Hcleaned;
       cbn [omap bind];
       [destruct cleaned; cbn [join_cleaned]; eauto
       | exact (clean_items_raises items [] e Hcleaned)]).
Qed.

End Coercions.

(** ** Modifier records in parent-first order *)

Lemma lookup_flat_map_head {A B} (f : A -> list B) (x : A) (l : list A)
    (i : nat) (y : B) :
  flat_map f (x :: l) !! i = Some y ->
  f x !! i = Some y
  \/ exists j, i = (length (f x) + j)%nat /\ flat_map f l !! j = Some y.
Proof.
  cbn [flat_map]. intros Hi.
  apply lookup_app_Some in Hi as [Hi | [Hlength Hi]]; [now left|].
  right. exists (i - length (f x))%nat. split; [lia | exact Hi].
Qed.

Lemma lookup_flat_map_tail {A B} (f : A -> list B) (x : A) (l : list A)
    (j : nat) (y : B) :
  flat_map f l !! j = Some y ->
  flat_map f (x :: l) !! (length (f x) + j)%nat = Some y.
Proof.
  intros Hj. cbn [flat_map]. rewrite lookup_app_r by lia.
  now replace (length (f x) + j - length (f x))%nat with j by lia.
Qed.

Lemma forest_parent_first (nodes : list ModifierNode) :
  Forall (fun n => parent_first (fun parent => flatten_node parent n)) nodes ->
  parent_first (flatten nodes).
Proof.
  unfold flatten.
  induction 1 as [|n nodes Hn _ IH]; intros parent i id p attrs Hi;
    [discriminate|].
  apply lookup_flat_map_head in Hi as [Hi | (j & -> & Hj)].
  - destruct (Hn parent i id p attrs Hi)
      as [Hid [-> | (j & grandparent & attrs' & Hlt & Hj)]];
      (split; [exact Hid|]); [now left|].
    right. exists j, grandparent, attrs'. split; [exact Hlt|].
    cbn [flat_map]. now apply lookup_app_l_Some.
  - destruct (IH parent j id p attrs Hj)
      as [Hid [-> | (k & grandparent & attrs' & Hlt & Hk)]];
      (split; [exact Hid|]); [now left|].
    right.
    exists (length (flatten_node parent n) + k)%nat, grandparent, attrs'.
    split; [apply Nat.add_lt_mono_l; exact Hlt|].
    now apply lookup_flat_map_tail.
Qed.

Lemma node_parent_first (n : ModifierNode) :
  parent_first (fun parent => flatten_node parent n).
Proof.
  induction n as [id0 attrs0 kids IH] using ModifierNode_forall_ind.
  pose proof (forest_parent_first kids IH) as Hkids.
  intros parent i id p attrs. cbn [flatten_node].
  destruct (truthy id0) eqn:Hid0; [|discriminate].
  destruct i as [|i].
  - intros [= <- <- <-]. auto.
  - intros Hi.
    change (flatten kids id0 !! i = Some (id, p, attrs)) in Hi.
    destruct (Hkids id0 i id p attrs Hi)
      as [Hid [-> | (j & grandparent & attrs' & Hlt & Hj)]];
      (split; [exact Hid|]); right.
    + exists 0%nat, parent, attrs0. split; [lia | reflexivity].
    + exists (S j), grandparent, attrs'. split; [lia | exact Hj].
Qed.

(** X11. The records [parse_item_modifiers] returns for a forest are in
    parent-first order: every record names the item it belongs to, has an
    identifier that counts as true, and its parent identifier is either
    [None] or the identifier of a record earlier in the list. *)
Theorem modifier_parents_come_first (nodes : list ModifierNode)
    (item : pyval) :
  exists records,
    parse_item_modifiers (encode_forest nodes) item = Returned (PList records)
    /\ forall i record,
         records !! i = Some record ->
         field record "item_iiko_id" = item /\
         truthy (field record "iiko_id") = true /\
         (field record "parent_modifier_iiko_id" = PNone
          \/ exists j earlier,
               (j < i)%nat /\ records !! j = Some earlier /\
               field earlier "iiko_id"
               = field record "parent_modifier_iiko_id").
Proof.
  exists (map (modifier_record item) (flatten nodes PNone)).
  split; [apply parse_item_modifiers_flatten|].
  assert (Hforest : parent_first (flatten nodes)).
  { apply forest_parent_first, List.Forall_forall.
    intros n _. apply node_parent_first. }
  intros i record Hi. rewrite lookup_map in Hi.
  destruct (flatten nodes PNone !! i) as [[[id p] attrs]|] eqn:Hm;
    [|discriminate].
  injection Hi as <-.
  destruct (Hforest PNone i id p attrs Hm) as [Hid Hparent].
  split; [reflexivity|]. split; [exact Hid|].
  destruct Hparent as [-> | (j & grandparent & attrs' & Hlt & Hj)];
    [now left|].
  right. exists j, (modifier_record item (p, grandparent, attrs')).
  split; [exact Hlt|]. split; [|reflexivity].
  rewrite lookup_map.
  exact (f_equal (option_map (modifier_record item)) Hj).
Qed.

(** ** The bounds of a day-window run *)

Section Bounds.

Context {World : Type}.
Variable clock_now : io World datetime.
Variable strftime_ymd : datetime -> string.
Variable fromisoformat : string -> outcome datetime.
Variable iiko_sync_accounts : io World (gmap string Z).
Variable invalidate_cache : string -> io World unit.
Variable optimize_indexes : io World unit.
Variable step : datetime -> datetime -> io World (gmap string Z).

Lemma sync_days_defaults (w w1 w2 : World)
    (t1 t2 week_ago from_dt to_dt : datetime) :
  clock_now w = (Returned t1, w1) ->
  clock_now w1 = (Returned t2, w2) ->
  datetime_add_days t1 (- 7) = Returned week_ago ->
  parse_bound fromisoformat (strftime_ymd week_ago ++ "T00:00:00.000")
  = Returned from_dt ->
  parse_bound fromisoformat (strftime_ymd t2 ++ "T00:00:00.000")
  = Returned to_dt ->
  sync_days World clock_now strftime_ymd fromisoformat step None None w
  = day_loop World (Z.to_nat (dt_date to_dt - dt_date from_dt)) step
      (dt_date from_dt) (dt_date to_dt) empty_result w2.
Proof.
  intros Hnow1 Hnow2 Hweek Hfrom Hto.
  unfold Sync.sync_days, bound_or, default_from_date, default_to_date,
    iobind, lift, ret.
  now rewrite Hnow1, Hweek, Hnow2, Hfrom, Hto.
Qed.

Lemma week_ago_date (t week_ago : datetime) :
  datetime_add_days t (- 7) = Returned week_ago ->
  dt_date week_ago = dt_date t - 7 /\ date_min <= dt_date t - 7.
Proof.
  unfold datetime_add_days, date_add_days.
  destruct (date_min <=? dt_date t + - 7) eqn:Hmin; [|discriminate].
  destruct (dt_date t + - 7 <=? date_max); [|discriminate].
  cbn [andb bind]. intros [= <-]. cbn [dt_date]. lia.
Qed.

(** X12. With both bounds omitted, a run covers the seven days before
    today, today excluded: when the texts the endpoint builds from the two
    clock readings read back as their dates, the service is called on the
    one-day windows from the date of the first reading minus seven days up
    to, not including, the date of the second reading; these are seven
    windows when both readings fall on the same day. *)
Theorem default_bounds_cover_the_last_week (w0 w w1 w2 : World)
    (t1 t2 week_ago from_dt to_dt : datetime) :
  snd (iiko_sync_accounts w0) = w ->
  clock_now w = (Returned t1, w1) ->
  clock_now w1 = (Returned t2, w2) ->
  datetime_add_days t1 (- 7) = Returned week_ago ->
  parse_bound fromisoformat (strftime_ymd week_ago ++ "T00:00:00.000")
  = Returned from_dt ->
  parse_bound fromisoformat (strftime_ymd t2 ++ "T00:00:00.000")
  = Returned to_dt ->
  dt_date from_dt = dt_date week_ago -> dt_date to_dt = dt_date t2 ->
  dt_date t2 <= date_max ->
  let windows := day_windows (dt_date t1 - 7) (dt_date t2) in
  (dt_date t1 = dt_date t2 -> length windows = 7%nat) /\
  (forall rs w3,
     steps_return step windows w2 rs w3 ->
     sync_days World clock_now strftime_ymd fromisoformat step None None w
     = Some (Returned (totals empty_result rs), w3) /\
     sync_transactions World clock_now strftime_ymd fromisoformat
       iiko_sync_accounts optimize_indexes step None None w0
     = Some ({| success := true;
                message := "Синхронизация транзакций завершена";
                data := Some (totals empty_result rs) |},
             snd (optimize_indexes w3))).
Proof.
  intros Hw Hnow1 Hnow2 Hweek Hfrom Hto Hfrom_date Hto_date Hmax windows.
  destruct (week_ago_date t1 week_ago Hweek) as [Hweek_date Hmin].
  split.
  { intros Hsame. unfold windows, day_windows.
    rewrite length_map, length_seqZ. lia. }
  intros rs w3 Hsteps.
  assert (Hdays :
    sync_days World clock_now strftime_ymd fromisoformat step None None w
    = Some (Returned (totals empty_result rs), w3)).
  { rewrite (sync_days_defaults w w1 w2 t1 t2 week_ago from_dt to_dt)
      by assumption.
    rewrite Hfrom_date, Hto_date, Hweek_date.
    now apply day_loop_returns. }
  split; [exact Hdays|].
  unfold Sync.sync_transactions. unfold attempt at 1. cbn [snd].
  now rewrite Hw, Hdays.
Qed.

(** X13. A bound that does not parse, and a range that is empty. When the
    text of a bound is not accepted by [fromisoformat], the endpoint answers
    [success: False] with the text of that exception and calls the service
    for no window. When the date of [to] is not after the date of [from],
    no window is synced either, and the run counts as done with all
    counters at zero. *)
Theorem bounds_without_windows (from_text to_text : string) (w : World) :
  (forall e,
     parse_bound fromisoformat from_text = Raised e
     \/ (exists from_dt, parse_bound fromisoformat from_text = Returned from_dt)
        /\ parse_bound fromisoformat to_text = Raised e ->
     sync_days World clock_now strftime_ymd fromisoformat step
       (Some from_text) (Some to_text) w
     = Some (Raised e, w) /\
     sync_sales World clock_now strftime_ymd fromisoformat invalidate_cache
       optimize_indexes step (Some from_text) (Some to_text) w
     = Some ({| success := false;
                message := ("Ошибка синхронизации продаж: "
                            ++ exn_str e)%string;
                data := None |}, w) /\
     sync_transactions World clock_now strftime_ymd fromisoformat
       iiko_sync_accounts optimize_indexes step
       (Some from_text) (Some to_text) w
     = Some ({| success := false;
                message := ("Ошибка синхронизации транзакций: "
                            ++ exn_str e)%string;
                data := None |}, snd (iiko_sync_accounts w))) /\
  (forall from_dt to_dt,
     parse_bound fromisoformat from_text = Returned from_dt ->
     parse_bound fromisoformat to_text = Returned to_dt ->
     dt_date to_dt <= dt_date from_dt ->
     sync_days World clock_now strftime_ymd fromisoformat step
       (Some from_text) (Some to_text) w
     = Some (Returned empty_result, w) /\
     sync_transactions World clock_now strftime_ymd fromisoformat
       iiko_sync_accounts optimize_indexes step
       (Some from_text) (Some to_text) w
     = Some ({| success := true;
                message := "Синхронизация транзакций завершена";
                data := Some empty_result |},
             snd (optimize_indexes (snd (iiko_sync_accounts w))))).
Proof.
  split.
  - intros e Hbad.
    assert (Hdays : forall w',
      sync_days World clock_now strftime_ymd fromisoformat step
        (Some from_text) (Some to_text) w'
      = Some (Raised e, w')).
    { intros w'. unfold Sync.sync_days, bound_or, iobind, lift, ret.
      destruct Hbad as [-> | [[from_dt ->] ->]]; reflexivity. }
    split; [apply Hdays|]. split.
    + unfold Sync.sync_sales. now rewrite Hdays.
    + unfold Sync.sync_transactions. unfold attempt at 1. cbn [snd].
      now rewrite Hdays.
  - intros from_dt to_dt Hfrom Hto Hle.
    assert (Hdays : forall w',
      sync_days World clock_now strftime_ymd fromisoformat step
        (Some from_text) (Some to_text) w'
      = Some (Returned empty_result, w')).
    { intros w'. rewrite (sync_days_bounds _ _ _ _ _ _ _ _ _ Hfrom Hto).
      replace (Z.to_nat (dt_date to_dt - dt_date from_dt)) with 0%nat by lia.
      cbn [day_loop].
      now destruct (dt_date from_dt <? dt_date to_dt) eqn:Hlt; [lia|]. }
    split; [apply Hdays|].
    unfold Sync.sync_transactions. unfold attempt at 1. cbn [snd].
    now rewrite Hdays.
Qed.

(** X14. A run over the days from [a] to [c] is the run from [a] to [b]
    followed, when that one returns, by the run from [b] to [c] started
    with its counters and in the world it left; when the first part raises,
    so does the whole. *)
Theorem day_loop_splits (a b c : date) (result : SyncResult) (w : World) :
  valid_date a -> valid_date c -> a <= b <= c ->
  day_loop World (Z.to_nat (c - a)) step a c result w
  = match day_loop World (Z.to_nat (b - a)) step a b result w with
    | Some (Returned result', w') =>
        day_loop World (Z.to_nat (c - b)) step b c result' w'
    | other => other
    end.
Proof.
  intros [Hmin _] [_ Hmax] Hb.
  remember (Z.to_nat (b - a)) as days eqn:Hdays.
  revert a result w Hmin Hb Hdays.
  induction days as [|days IH]; intros a result w Hmin Hb Hdays.
  - assert (b = a) as -> by lia.
    cbn [day_loop]. now rewrite Z.ltb_irrefl.
  - assert (Hac : Z.to_nat (c - a) = S (Z.to_nat (c - (a + 1)))) by lia.
    rewrite Hac. cbn [day_loop].
    destruct (a <? c) eqn:Hlt_c; [|lia].
    destruct (a <? b) eqn:Hlt_b; [|lia].
    rewrite (day_body_step step a c) by lia.
    destruct (step (midnight a) (midnight (a + 1)) w) as [[r|e] w'];
      [|reflexivity].
    apply IH; lia.
Qed.

End Bounds.

Lemma default_bounds_cover_the_last_week_witness :
  sync_transactions Example.world Example.clock_now Example.strftime_ymd
    Example.fromisoformat Example.sync_accounts Example.optimize_indexes
    Example.reporting_service None None []
  = Some ({| success := true;
             message := "Синхронизация транзакций завершена";
             data := Some {| created := 30; updated := 12; errors := 1;
                             deleted := 0 |} |},
          [Example.Accounts;
           Example.Synced (midnight (ymd 2025 10 1)) (midnight (ymd 2025 10 2));
           Example.Synced (midnight (ymd 2025 10 2)) (midnight (ymd 2025 10 3));
           Example.Synced (midnight (ymd 2025 10 3)) (midnight (ymd 2025 10 4));
           Example.Synced (midnight (ymd 2025 10 4)) (midnight (ymd 2025 10 5));
           Example.Synced (midnight (ymd 2025 10 5)) (midnight (ymd 2025 10 6));
           Example.Synced (midnight (ymd 2025 10 6)) (midnight (ymd 2025 10 7));
           Example.Synced (midnight (ymd 2025 10 7)) (midnight (ymd 2025 10 8));
           Example.Optimized]).
Proof.
  pose (noon := DateTime (ymd 2025 10 8) (12 * 3600 * 1000000) None).
  assert (Hmax : dt_date noon <= date_max) by (vm_compute; discriminate).
  destruct (default_bounds_cover_the_last_week Example.clock_now
              Example.strftime_ymd Example.fromisoformat
              Example.sync_accounts Example.optimize_indexes
              Example.reporting_service
              [] [Example.Accounts] [Example.Accounts] [Example.Accounts]
              noon noon
              (DateTime (ymd 2025 10 1) (12 * 3600 * 1000000) None)
              (midnight (ymd 2025 10 1)) (midnight (ymd 2025 10 8))
              eq_refl eq_refl eq_refl eq_refl eq_refl eq_refl eq_refl eq_refl
              Hmax)
    as [_ Hrun].
  destruct (Hrun
    [Example.counts 5 2 0 0; Example.counts 0 0 1 0; Example.counts 5 2 0 0;
     Example.counts 5 2 0 0; Example.counts 5 2 0 0; Example.counts 5 2 0 0;
     Example.counts 5 2 0 0]
    [Example.Accounts;
     Example.Synced (midnight (ymd 2025 10 1)) (midnight (ymd 2025 10 2));
     Example.Synced (midnight (ymd 2025 10 2)) (midnight (ymd 2025 10 3));
     Example.Synced (midnight (ymd 2025 10 3)) (midnight (ymd 2025 10 4));
     Example.Synced (midnight (ymd 2025 10 4)) (midnight (ymd 2025 10 5));
     Example.Synced (midnight (ymd 2025 10 5)) (midnight (ymd 2025 10 6));
     Example.Synced (midnight (ymd 2025 10 6)) (midnight (ymd 2025 10 7));
     Example.Synced (midnight (ymd 2025 10 7)) (midnight (ymd 2025 10 8))])
    as [_ Hresponse].
  { change (day_windows (dt_date noon - 7) (dt_date noon))
      with (day_windows (ymd 2025 10 1) (ymd 2025 10 8)).
    repeat (eapply steps_next; [reflexivity|]). apply steps_done. }
  rewrite Hresponse. reflexivity.
Defined.

Lemma bounds_without_windows_witness :
  sync_sales Example.world Example.clock_now Example.strftime_ymd
    Example.fromisoformat Example.invalidate_cache Example.optimize_indexes
    Example.reporting_service (Some "01.10.2025") (Some "2025-10-04") []
  = Some ({| success := false;
             message := "Ошибка синхронизации продаж: Invalid isoformat string: '01.10.2025'";
             data := None |}, []).
Proof.
  destruct (bounds_without_windows Example.clock_now Example.strftime_ymd
              Example.fromisoformat Example.sync_accounts
              Example.invalidate_cache Example.optimize_indexes
              Example.reporting_service "01.10.2025" "2025-10-04" [])
    as [Hbad _].
  destruct (Hbad (Exn ValueError "Invalid isoformat string: '01.10.2025'"))
    as (_ & Hsales & _); [left; reflexivity|].
  exact Hsales.
Defined.

Lemma day_loop_splits_witness :
  day_loop Example.world 3 Example.reporting_service
    (ymd 2025 10 1) (ymd 2025 10 4) empty_result []
  = match day_loop Example.world 2 Example.reporting_service
            (ymd 2025 10 1) (ymd 2025 10 3) empty_result [] with
    | Some (Returned result', w') =>
        day_loop Example.world 1 Example.reporting_service
          (ymd 2025 10 3) (ymd 2025 10 4) result' w'
    | other => other
    end.
Proof.
  apply (day_loop_splits Example.reporting_service
           (ymd 2025 10 1) (ymd 2025 10 3) (ymd 2025 10 4) empty_result []);
    vm_compute; intuition discriminate.
Defined.

(** ** The error contracts of the other handlers *)

Section HandlerContracts.

Context {World Result : Type}.
Variable invalidate_cache : string -> io World unit.
Variable optimize_indexes : io World unit.
Variable iiko_sync_organizations : io World (gmap string Z).
Variable iiko_sync_employees : option string -> io World (gmap string Z).
Variable iiko_sync_terminals : option string -> io World (gmap string Z).
Variable iiko_sync_terminal_groups : option string -> io World Result.
Variable iiko_sync_roles : io World Result.
Variable iiko_sync_restaurant_sections : option string -> io World Result.
Variable iiko_sync_tables : option string -> io World Result.
Variable iiko_sync_accounts : io World Result.
Variable iiko_sync_salaries : io World Result.
Variable iiko_sync_menu : option string -> io World Result.
Variable iiko_sync_all : option string -> io World Result.
Variable iiko_sync_items_cloud_all : io World Result.
Variable iiko_sync_items_cloud : Z -> io World Result.
Variable iiko_sync_items_server : io World Result.




(** X16. [POST /organizations-employees-terminals] calls the three
    services in the order organisations, employees, terminals. When all
    three return, the summary holds, for each of [created], [updated] and
    [errors], the sum of what the three results report under that key, a
    missing key counting as zero; what they report as [deleted] is not
    summed. When one of them raises, be it the first, the second or the
    third, the later ones are not called, the world is left as that call
    left it, and the handler raises [HTTPException] with status 500 and the
    text of that exception. *)
Theorem combined_sync_summary (organization_id : option string) (w : World) :
  (forall e w1,
     iiko_sync_organizations w = (Raised e, w1) ->
     sync_organizations_employees_terminals World iiko_sync_organizations
       iiko_sync_employees iiko_sync_terminals organization_id w
     = (HTTPException 500 ("Ошибка синхронизации: " ++ exn_str e)%string, w1)) /\
  (forall org_result w1,
     iiko_sync_organizations w = (Returned org_result, w1) ->
     (forall e w2,
        iiko_sync_employees organization_id w1 = (Raised e, w2) ->
        sync_organizations_employees_terminals World iiko_sync_organizations
          iiko_sync_employees iiko_sync_terminals organization_id w
        = (HTTPException 500 ("Ошибка синхронизации: " ++ exn_str e)%string,
           w2)) /\
     (forall emp_result w2,
        iiko_sync_employees organization_id w1 = (Returned emp_result, w2) ->
        (forall e w3,
           iiko_sync_terminals organization_id w2 = (Raised e, w3) ->
           sync_organizations_employees_terminals World
             iiko_sync_organizations iiko_sync_employees iiko_sync_terminals
             organization_id w
           = (HTTPException 500
                ("Ошибка синхронизации: " ++ exn_str e)%string, w3)) /\
        (forall term_result w3,
           iiko_sync_terminals organization_id w2
           = (Returned term_result, w3) ->
           let rs := [org_result; emp_result; term_result] in
           sync_organizations_employees_terminals World
             iiko_sync_organizations iiko_sync_employees iiko_sync_terminals
             organization_id w
           = (Body true
                "Синхронизация организаций, сотрудников и терминалов завершена"
                (Some {| results := [("organizations", org_result);
                                     ("employees", emp_result);
                                     ("terminals", term_result)];
                         summary :=
                           {| total_created := reported "created" rs;
                              total_updated := reported "updated" rs;
                              total_errors := reported "errors" rs |} |}),
              w3)))).
Proof.
  unfold Sync.sync_organizations_employees_terminals, or_http_500, iobind, ret.
  split; [intros e w1 Horg; now rewrite Horg|].
  intros org_result w1 Horg. rewrite Horg.
  split; [intros e w2 Hemp; now rewrite Hemp|].
  intros emp_result w2 Hemp. rewrite Hemp.
  split; [intros e w3 Hterm; now rewrite Hterm|].
  intros term_result w3 Hterm. cbv zeta. rewrite Hterm.
  unfold reported. cbn [map fold_right].
  assert (Hsum : forall a b c : Z, a + (b + (c + 0)) = a + b + c)
    by (intros; lia).
  now rewrite !Hsum.
Qed.

End HandlerContracts.


Lemma combined_sync_summary_witness :
  sync_organizations_employees_terminals Example.log
    (Example.note "organizations" (Returned (Example.counts 1 0 0 9)))
    (fun _ => Example.note "employees" (Returned {[ "created" := 4 ]}))
    (fun _ => Example.note "terminals" (Returned (Example.counts 2 3 1 0)))
    None []
  = (Body true
       "Синхронизация организаций, сотрудников и терминалов завершена"
       (Some {| results := [("organizations", Example.counts 1 0 0 9);
                            ("employees", {[ "created" := 4 ]});
                            ("terminals", Example.counts 2 3 1 0)];
                summary := {| total_created := 7; total_updated := 3;
                              total_errors := 1 |} |}),
     ["organizations"; "employees"; "terminals"])
  /\
  sync_organizations_employees_terminals Example.log
    (Example.note "organizations" (Returned (Example.counts 1 0 0 9)))
    (fun _ => Example.note "employees" (Returned {[ "created" := 4 ]}))
    (fun _ => Example.note "terminals"
                (Raised (Exn RuntimeError "terminals are down")))
    None []
  = (HTTPException 500 "Ошибка синхронизации: terminals are down",
     ["organizations"; "employees"; "terminals"])
  /\
  sync_organizations_employees_terminals Example.log
    (Example.note "organizations"
       (Raised (Exn RuntimeError "no credentials")))
    (fun _ => Example.note "employees" (Returned {[ "created" := 4 ]}))
    (fun _ => Example.note "terminals" (Returned (Example.counts 2 3 1 0)))
    None []
  = (HTTPException 500 "Ошибка синхронизации: no credentials",
     ["organizations"]).
Proof.
  split; [|split].
  - destruct (combined_sync_summary
      (Example.note "organizations" (Returned (Example.counts 1 0 0 9)))
      (fun _ => Example.note "employees" (Returned {[ "created" := 4 ]}))
      (fun _ => Example.note "terminals" (Returned (Example.counts 2 3 1 0)))
      None []) as [_ Horg].
    destruct (Horg (Example.counts 1 0 0 9) ["organizations"] eq_refl)
      as [_ Hemp].
    destruct (Hemp {[ "created" := 4 ]} ["organizations"; "employees"]
                eq_refl) as [_ Hterm].
    exact (Hterm (Example.counts 2 3 1 0)
             ["organizations"; "employees"; "terminals"] eq_refl).
  - destruct (combined_sync_summary
      (Example.note "organizations" (Returned (Example.counts 1 0 0 9)))
      (fun _ => Example.note "employees" (Returned {[ "created" := 4 ]}))
      (fun _ => Example.note "terminals"
                  (Raised (Exn RuntimeError "terminals are down")))
      None []) as [_ Horg].
    destruct (Horg (Example.counts 1 0 0 9) ["organizations"] eq_refl)
      as [_ Hemp].
    destruct (Hemp {[ "created" := 4 ]} ["organizations"; "employees"]
                eq_refl) as [Hterm _].
    exact (Hterm (Exn RuntimeError "terminals are down")
             ["organizations"; "employees"; "terminals"] eq_refl).
  - destruct (combined_sync_summary
      (Example.note "organizations"
         (Raised (Exn RuntimeError "no credentials")))
      (fun _ => Example.note "employees" (Returned {[ "created" := 4 ]}))
      (fun _ => Example.note "terminals" (Returned (Example.counts 2 3 1 0)))
      None []) as [Horg _].
    exact (Horg (Exn RuntimeError "no credentials") ["organizations"]
             eq_refl).
Defined.

(** ** Reporting periods *)

Import Statistics.

Lemma datetime_add_days_returned (t t' : datetime) (n : Z) :
  datetime_add_days t n = Returned t' ->
  t' = DateTime (dt_date t + n) (dt_micros t) (dt_offset t)
  /\ date_min <= dt_date t + n <= date_max.
Proof.
  unfold datetime_add_days, date_add_days.
  destruct (date_min <=? dt_date t + n) eqn:Hmin; [|discriminate].
  destruct (dt_date t + n <=? date_max) eqn:Hmax; [|discriminate].
  cbn [andb bind]. intros [= <-]. split; [reflexivity | lia].
Qed.

Lemma datetime_add_days_in_range (t : datetime) (n : Z) :
  date_min <= dt_date t + n <= date_max ->
  datetime_add_days t n
  = Returned (DateTime (dt_date t + n) (dt_micros t) (dt_offset t)).
Proof.
  intros [Hmin Hmax]. unfold datetime_add_days, date_add_days.
  destruct (date_min <=? dt_date t + n) eqn:Hmin'; [|lia].
  destruct (dt_date t + n <=? date_max) eqn:Hmax'; [reflexivity | lia].
Qed.

Lemma datetime_add_days_below (t : datetime) (n : Z) :
  dt_date t + n < date_min ->
  datetime_add_days t n = Raised (Exn OverflowError "date value out of range").
Proof.
  intros Hbelow. unfold datetime_add_days, date_add_days.
  destruct (date_min <=? dt_date t + n) eqn:Hmin; [lia | reflexivity].
Qed.

(** The two steps back of a week or a month. *)
Lemma two_steps_back (target_date : datetime) (n : Z) :
  n < 0 -> dt_date target_date <= date_max ->
  (let* start_date := datetime_add_days target_date n in
   let* previous_start := datetime_add_days start_date n in
   Returned (start_date, previous_start, start_date))
  = if date_min <=? dt_date target_date + n + n then
      let start_date :=
        DateTime (dt_date target_date + n) (dt_micros target_date)
          (dt_offset target_date) in
      Returned (start_date,
                DateTime (dt_date start_date + n) (dt_micros start_date)
                  (dt_offset start_date),
                start_date)
    else Raised (Exn OverflowError "date value out of range").
Proof.
  intros Hn Hmax.
  destruct (date_min <=? dt_date target_date + n + n) eqn:Hmin.
  - rewrite datetime_add_days_in_range by lia. cbn [bind].
    now rewrite datetime_add_days_in_range by (cbn [dt_date]; lia).
  - destruct (Z.lt_ge_cases (dt_date target_date + n) date_min) as [H|H].
    + now rewrite datetime_add_days_below.
    + rewrite datetime_add_days_in_range by lia. cbn [bind].
      now rewrite datetime_add_days_below by (cbn [dt_date]; lia).
Qed.

(** X17. The four dates of [get_period_dates]. The previous period ends
    where the current one starts and is exactly as long as the period: 7
    days for "week", 30 for "month", 1 for any other name, which all mean
    a day. The current period starts the same number of days before the
    target at the same time of day, or at midnight of the target day for a
    day, and always ends with the last microsecond of the target day. The
    call raises [OverflowError] exactly when the start of the previous
    period would lie before the first date. *)
Theorem period_dates_are_adjacent (target_date : datetime) (period : string) :
  dt_date target_date <= date_max ->
  let week_or_month :=
    String.eqb period "week" || String.eqb period "month" in
  let start_date :=
    if week_or_month then
      DateTime (dt_date target_date - period_days period)
        (dt_micros target_date) (dt_offset target_date)
    else at_time target_date 0 in
  let previous_start :=
    DateTime (dt_date start_date - period_days period) (dt_micros start_date)
      (dt_offset start_date) in
  micros_between start_date previous_start
  = period_days period * 86400000000 /\
  (date_min <= dt_date previous_start ->
   get_period_dates target_date period
   = Returned (start_date, at_time target_date last_microsecond,
               previous_start, start_date)) /\
  (dt_date previous_start < date_min ->
   get_period_dates target_date period
   = Raised (Exn OverflowError "date value out of range")) /\
  (week_or_month = false ->
   get_period_dates target_date period = get_period_dates target_date "day").
Proof.
  intros Hmax week_or_month start_date previous_start.
  split; [unfold micros_between, previous_start; cbn [dt_date dt_micros]; lia|].
  assert (Hcases :
    get_period_dates target_date period
    = if date_min <=? dt_date previous_start then
        Returned (start_date, at_time target_date last_microsecond,
                  previous_start, start_date)
      else Raised (Exn OverflowError "date value out of range")).
  { unfold get_period_dates, previous_start, start_date, week_or_month,
      period_days.
    destruct (String.eqb period "week"); cbn [orb].
    - rewrite (two_steps_back target_date (- 7)) by (assumption || lia).
      cbn [dt_date].
      replace (dt_date target_date - 7 - 7)
        with (dt_date target_date + - 7 + - 7) by lia.
      replace (dt_date target_date - 7) with (dt_date target_date + - 7)
        by lia.
      now destruct (date_min <=? dt_date target_date + - 7 + - 7).
    - destruct (String.eqb period "month").
      + rewrite (two_steps_back target_date (- 30)) by (assumption || lia).
        cbn [dt_date].
        replace (dt_date target_date - 30 - 30)
          with (dt_date target_date + - 30 + - 30) by lia.
        replace (dt_date target_date - 30) with (dt_date target_date + - 30)
          by lia.
        now destruct (date_min <=? dt_date target_date + - 30 + - 30).
      + unfold at_time. cbn [dt_date dt_micros dt_offset].
        destruct (date_min <=? dt_date target_date - 1) eqn:Hmin.
        * rewrite datetime_add_days_in_range by (cbn [dt_date]; lia).
          reflexivity.
        * now rewrite datetime_add_days_below by (cbn [dt_date]; lia). }
  split; [|split].
  - intros Hmin. rewrite Hcases.
    now destruct (date_min <=? dt_date previous_start) eqn:H; [|lia].
  - intros Hbelow. rewrite Hcases.
    now destruct (date_min <=? dt_date previous_start) eqn:H; [lia|].
  - unfold week_or_month. intros Hday.
    apply orb_false_elim in Hday as [Hweek Hmonth].
    unfold get_period_dates. now rewrite Hweek, Hmonth.
Qed.

Lemma period_dates_are_adjacent_witness :
  get_period_dates
    (DateTime (ymd 2025 10 8) (13 * 3600 * 1000000) (Some 300)) "week"
  = Returned (DateTime (ymd 2025 10 1) (13 * 3600 * 1000000) (Some 300),
              DateTime (ymd 2025 10 8) last_microsecond (Some 300),
              DateTime (ymd 2025 9 24) (13 * 3600 * 1000000) (Some 300),
              DateTime (ymd 2025 10 1) (13 * 3600 * 1000000) (Some 300)).
Proof.
  assert (Hmax : ymd 2025 10 8 <= date_max) by (vm_compute; discriminate).
  destruct (period_dates_are_adjacent
              (DateTime (ymd 2025 10 8) (13 * 3600 * 1000000) (Some 300))
              "week" Hmax) as (_ & Hreturns & _).
  rewrite Hreturns; [reflexivity | vm_compute; discriminate].
Defined.

(** ** The change between two periods *)

Lemma float_sub_same (s : bool) (m : positive) (e : Z) :
  float_sub (S754_finite s m e) (S754_finite s m e) = S754_zero false.
Proof.
  unfold float_sub, SFsub. cbv zeta. now rewrite Z.sub_diag.
Qed.

Lemma int_of_positive_float (x : spec_float) (n : Z) :
  SFltb (S754_zero false) x = true -> int_of_float x = Returned n -> 0 <= n.
Proof.
  intros Hup Hwhole.
  destruct x as [s|s| |s m e]; try discriminate Hup; try discriminate Hwhole.
  destruct s; [discriminate Hup|].
  cbn [int_of_float] in Hwhole. injection Hwhole as <-.
  destruct (Z.leb_spec 0 e); [lia|].
  apply Z.div_pos; [lia|]. apply Z.pow_pos_nonneg; lia.
Qed.

(** X18. [calculate_change_percent] on floats. A previous value of zero,
    of either sign, gives [None] whatever the current value is. A metric
    that is returned has either the trend "up" and the value "+N%" with an
    integer N that is not negative, or the trend "down" and the value "N%"
    with no sign added. Two equal finite values other than zero give "0%"
    with the trend "down". A current value that is not a number, with a
    previous value other than zero, makes the call raise [ValueError]. *)
Theorem change_percent_trend :
  (forall current s,
     calculate_change_percent current (S754_zero s) = Returned None) /\
  (forall current previous metric,
     calculate_change_percent current previous = Returned (Some metric) ->
     exists whole,
       (trend metric = "up" /\ 0 <= whole
        /\ value metric = ("+" ++ str_of_int whole ++ "%")%string)
       \/ (trend metric = "down"
           /\ value metric = (str_of_int whole ++ "%")%string)) /\
  (forall s m e,
     calculate_change_percent (S754_finite s m e) (S754_finite s m e)
     = Returned (Some {| value := "0%"; trend := "down" |})) /\
  (forall previous,
     SFeqb previous (S754_zero false) = false ->
     calculate_change_percent S754_nan previous
     = Raised (Exn ValueError "cannot convert float NaN to integer")).
Proof.
  split; [intros current s; now destruct s|].
  split.
  { intros current previous metric. unfold calculate_change_percent.
    destruct (SFeqb previous (S754_zero false)); [discriminate|].
    set (change := float_mul _ _).
    destruct (int_of_float change) as [whole|e] eqn:Hwhole; [|discriminate].
    cbn [bind]. intros [= <-]. exists whole. cbn [trend value].
    destruct (SFltb (S754_zero false) change) eqn:Hup; [left | right].
    - repeat split. exact (int_of_positive_float change whole Hup Hwhole).
    - now split. }
  split.
  { intros s m e. unfold calculate_change_percent.
    assert (Hnonzero : SFeqb (S754_finite s m e) (S754_zero false) = false)
      by now destruct s.
    rewrite Hnonzero, float_sub_same.
    now destruct s. }
  intros previous Hprevious. unfold calculate_change_percent.
  rewrite Hprevious.
  now destruct previous.
Qed.

Lemma change_percent_trend_witness :
  calculate_change_percent (dyadic 150 0) (dyadic 100 0)
  = Returned (Some {| value := "+50%"; trend := "up" |})
  /\ exists whole,
       (trend {| value := "+50%"; trend := "up" |} = "up" /\ 0 <= whole
        /\ value {| value := "+50%"; trend := "up" |}
           = ("+" ++ str_of_int whole ++ "%")%string)
       \/ (trend {| value := "+50%"; trend := "up" |} = "down"
           /\ value {| value := "+50%"; trend := "up" |}
              = (str_of_int whole ++ "%")%string).
Proof.
  assert (Hcall : calculate_change_percent (dyadic 150 0) (dyadic 100 0)
                  = Returned (Some {| value := "+50%"; trend := "up" |}))
    by (vm_compute; reflexivity).
  split; [exact Hcall|].
  destruct change_percent_trend as (_ & Hmetric & _).
  exact (Hmetric (dyadic 150 0) (dyadic 100 0) _ Hcall).
Defined.

(** ** Amounts of money *)

Lemma with_commas_short (digits : list ascii) :
  (length digits <= 3)%nat -> with_commas digits = digits.
Proof.
  destruct digits as [|a [|b [|c [|d rest]]]]; try reflexivity.
  cbn [length]. lia.
Qed.

Lemma filter_all {A : Type} (keep : A -> bool) (l : list A) :
  List.Forall (fun x => keep x = true) l -> List.filter keep l = l.
Proof.
  induction 1 as [|x l Hx _ IH]; [reflexivity|].
  cbn [List.filter]. now rewrite Hx, IH.
Qed.

Lemma with_commas_groups (k : nat) (digits : list ascii) :
  (length digits <= k)%nat ->
  List.Forall (fun c => negb (Ascii.eqb c ",") = true) digits ->
  List.filter (fun c => negb (Ascii.eqb c ",")) (with_commas digits) = digits
  /\ (forall i c, with_commas digits !! i = Some c ->
                  c = ","%char <-> (i mod 4 = 3)%nat)
  /\ (digits <> [] -> (length (with_commas digits) mod 4 <> 0)%nat).
Proof.
  revert digits. induction k as [|k IH]; intros digits Hk Hdigits.
  { destruct digits; [|cbn in Hk; lia].
    split; [reflexivity|]. split; [|easy].
    intros i c H. destruct i; discriminate H. }
  destruct (le_lt_dec (length digits) 3) as [Hshort|Hlong].
  - rewrite (with_commas_short digits Hshort).
    split; [now apply filter_all|]. split.
    + intros i c H.
      assert (Hi : (i < 3)%nat) by (apply lookup_lt_Some in H; lia).
      assert (Hc : negb (Ascii.eqb c ",") = true).
      { rewrite List.Forall_forall in Hdigits. apply Hdigits.
        apply list_elem_of_In. now apply list_elem_of_lookup_2 with i. }
      rewrite (Nat.mod_small i 4) by lia.
      split; [intros -> ; discriminate Hc | lia].
    + intros Hne. rewrite Nat.mod_small by lia.
      destruct digits; [easy | cbn [length]; lia].
  - destruct digits as [|a [|b [|c [|d rest]]]]; try (cbn [length] in Hlong; lia).
    inversion_clear Hdigits as [|? ? Ha Hrest].
    inversion_clear Hrest as [|? ? Hb Hrest'].
    inversion_clear Hrest' as [|? ? Hc Hrest].
    destruct (IH (d :: rest)) as (Hfilter & Hplaces & Hlength);
      [cbn [length] in Hk |- *; lia | exact Hrest |].
    change (with_commas (a :: b :: c :: d :: rest))
      with (a :: b :: c :: ","%char :: with_commas (d :: rest)).
    split; [|split].
    + cbn [List.filter]. rewrite Ha, Hb, Hc.
      change (negb (Ascii.eqb "," ",")) with false. cbv iota.
      now rewrite Hfilter.
    + intros i x H.
      destruct i as [|[|[|[|i]]]].
      * injection H as <-. split; [intros -> ; discriminate Ha | discriminate].
      * injection H as <-. split; [intros -> ; discriminate Hb | discriminate].
      * injection H as <-. split; [intros -> ; discriminate Hc | discriminate].
      * injection H as <-. split; reflexivity.
      * change ((a :: b :: c :: ","%char :: with_commas (d :: rest))
                  !! S (S (S (S i))))
          with (with_commas (d :: rest) !! i) in H.
        rewrite (Hplaces i x H).
        replace (S (S (S (S i)))) with (i + 1 * 4)%nat by lia.
        now rewrite Nat.Div0.mod_add.
    + intros _. cbn [length].
      replace (S (S (S (S (length (with_commas (d :: rest)))))))
        with (length (with_commas (d :: rest)) + 1 * 4)%nat by lia.
      rewrite Nat.Div0.mod_add. now apply Hlength.
Qed.

Lemma string_app_assoc (a b c : string) :
  ((a ++ b) ++ c)%string = (a ++ (b ++ c))%string.
Proof.
  induction a as [|x a IH]; [reflexivity|].
  change (String x ((a ++ b) ++ c) = String x (a ++ (b ++ c)))%string.
  now rewrite IH.
Qed.

Lemma replace_char_app (old : ascii) (new a b : string) :
  replace_char old new (a ++ b)
  = (replace_char old new a ++ replace_char old new b)%string.
Proof.
  induction a as [|x a IH]; [reflexivity|].
  change (String x a ++ b)%string with (String x (a ++ b)).
  cbn [replace_char]. rewrite IH.
  destruct (Ascii.eqb x old); [|reflexivity].
  symmetry. apply string_app_assoc.
Qed.

Lemma replace_char_chars (old new : ascii) (text : string) :
  list_ascii_of_string (replace_char old (String new "") text)
  = map (fun c => if Ascii.eqb c old then new else c)
      (list_ascii_of_string text).
Proof.
  induction text as [|x text IH]; [reflexivity|].
  cbn [replace_char list_ascii_of_string map].
  destruct (Ascii.eqb x old).
  - change (String new "" ++ replace_char old (String new "") text)%string
      with (String new (replace_char old (String new "") text)).
    cbn [list_ascii_of_string]. now rewrite IH.
  - cbn [list_ascii_of_string]. now rewrite IH.
Qed.

Lemma length_chars (text : string) :
  length (list_ascii_of_string text) = String.length text.
Proof.
  induction text as [|x text IH]; [reflexivity|].
  cbn [list_ascii_of_string length String.length]. now rewrite IH.
Qed.

Lemma uint_chars_plain (d : Decimal.uint) :
  List.Forall (fun c => plain c = true)
    (list_ascii_of_string (NilEmpty.string_of_uint d)).
Proof.
  induction d; cbn [NilEmpty.string_of_uint list_ascii_of_string];
    constructor; (reflexivity || assumption).
Qed.

Lemma digits_plain (n : Z) :
  List.Forall (fun c => plain c = true)
    (list_ascii_of_string (str_of_int (Z.abs n)))
  /\ list_ascii_of_string (str_of_int (Z.abs n)) <> [].
Proof.
  unfold str_of_int.
  assert (Huint : forall d,
             List.Forall (fun c => plain c = true)
               (list_ascii_of_string (NilZero.string_of_uint d))
             /\ list_ascii_of_string (NilZero.string_of_uint d) <> []).
  { intros d. split.
    - destruct d; try apply uint_chars_plain.
      constructor; [reflexivity | constructor].
    - destruct d; discriminate. }
  destruct n as [|p|p]; cbn [Z.abs Z.to_int NilZero.string_of_int];
    apply Huint.
Qed.

Lemma filter_spaces_of_commas (chars : list ascii) :
  List.Forall (fun c => negb (Ascii.eqb c " ") = true) chars ->
  List.filter (fun c => negb (Ascii.eqb c " "))
    (map (fun c => if Ascii.eqb c "," then " "%char else c) chars)
  = List.filter (fun c => negb (Ascii.eqb c ",")) chars.
Proof.
  induction 1 as [|x chars Hx _ IH]; [reflexivity|].
  cbn [map List.filter]. rewrite IH.
  destruct (Ascii.eqb x ","); [reflexivity|]. cbn [negb]. now rewrite Hx.
Qed.

Lemma with_commas_no_spaces (digits : list ascii) :
  List.Forall (fun c => plain c = true) digits ->
  List.Forall (fun c => negb (Ascii.eqb c " ") = true) (with_commas digits).
Proof.
  intros Hdigits.
  assert (Hcommas : List.Forall (fun c => negb (Ascii.eqb c ",") = true) digits).
  { eapply List.Forall_impl; [|exact Hdigits].
    intros c Hc. unfold plain in Hc. now apply andb_prop in Hc. }
  destruct (with_commas_groups (length digits) digits (le_n _) Hcommas)
    as (Hfilter & _ & _).
  apply List.Forall_forall. intros c Hin.
  destruct (Ascii.eqb c ",") eqn:Hcomma.
  - apply Ascii.eqb_eq in Hcomma. now subst c.
  - assert (Hc : List.In c digits).
    { rewrite <- Hfilter. apply List.filter_In. now rewrite Hcomma. }
    rewrite List.Forall_forall in Hdigits. specialize (Hdigits c Hc).
    unfold plain in Hdigits. now apply andb_prop in Hdigits.
Qed.

(** X19. [format_currency]: when [int(amount)] is [n], the text is the sign
    of [n], a body and the unit. The body without its spaces is the decimal
    text of [abs(n)]; counted from the right, a character of the body is a
    space exactly at every fourth place; and the body does not begin with a
    space. When [int(amount)] raises, as for a float that is infinite or not
    a number, [format_currency] raises the same error. *)
Theorem format_currency_groups (amount : pyval) :
  (forall n,
     py_int amount = Returned n ->
     exists body,
       format_currency amount
       = Returned ((if (n <? 0)%Z then "-" else "") ++ body ++ " тг")%string
       /\ without_spaces body = str_of_int (Z.abs n)
       /\ (forall i c, from_the_right body !! i = Some c ->
                       c = " "%char <-> (i mod 4 = 3)%nat)
       /\ (String.length body mod 4 <> 0)%nat) /\
  (forall e, py_int amount = Raised e -> format_currency amount = Raised e).
Proof.
  split; [|intros e He; unfold format_currency; now rewrite He].
  intros n Hn. unfold format_currency. rewrite Hn. cbn [bind].
  unfold format_thousands. cbv zeta.
  set (digits := list_ascii_of_string (str_of_int (Z.abs n))).
  destruct (digits_plain n) as (Hplain & Hnonempty). fold digits in Hplain, Hnonempty.
  set (grouped := with_commas (rev digits)).
  assert (Hrev : List.Forall (fun c => plain c = true) (rev digits)).
  { apply List.Forall_forall. intros c Hc. apply List.in_rev in Hc.
    rewrite List.Forall_forall in Hplain. now apply Hplain. }
  assert (Hcommas : List.Forall (fun c => negb (Ascii.eqb c ",") = true)
                      (rev digits)).
  { eapply List.Forall_impl; [|exact Hrev].
    intros c Hc. unfold plain in Hc. now apply andb_prop in Hc. }
  destruct (with_commas_groups (length (rev digits)) (rev digits) (le_n _)
              Hcommas) as (Hfilter & Hplaces & Hlength).
  pose proof (with_commas_no_spaces (rev digits) Hrev) as Hspaces.
  fold grouped in Hfilter, Hplaces, Hlength, Hspaces.
  exists (replace_char "," " " (string_of_list_ascii (rev grouped))).
  assert (Hchars :
            list_ascii_of_string
              (replace_char "," " " (string_of_list_ascii (rev grouped)))
            = map (fun c => if Ascii.eqb c "," then " "%char else c)
                (rev grouped)).
  { now rewrite (replace_char_chars "," " "),
      list_ascii_of_string_of_list_ascii. }
  split; [|split; [|split]].
  - rewrite string_app_assoc, replace_char_app, replace_char_app.
    now destruct (n <? 0).
  - unfold without_spaces. rewrite Hchars.
    rewrite filter_spaces_of_commas.
    + rewrite List.filter_rev, Hfilter, List.rev_involutive.
      apply string_of_list_ascii_of_string.
    + apply List.Forall_forall. intros c Hc. apply List.in_rev in Hc.
      rewrite List.Forall_forall in Hspaces. now apply Hspaces.
  - intros i c. unfold from_the_right. rewrite Hchars.
    rewrite <- List.map_rev, List.rev_involutive.
    intros Hc. apply list_lookup_fmap_Some in Hc as (x & -> & Hx).
    rewrite <- (Hplaces i x Hx).
    assert (Hspace : negb (Ascii.eqb x " ") = true).
    { rewrite List.Forall_forall in Hspaces. apply Hspaces.
      apply list_elem_of_In. now apply list_elem_of_lookup_2 with i. }
    destruct (Ascii.eqb x ",") eqn:Hcomma.
    + apply Ascii.eqb_eq in Hcomma. now subst x.
    + apply Ascii.eqb_neq in Hcomma. split; [|easy].
      intros ->. discriminate Hspace.
  - rewrite <- length_chars, Hchars, List.length_map, List.length_rev.
    apply Hlength. intros Hnil. apply Hnonempty.
    rewrite <- (List.rev_involutive digits). now rewrite Hnil.
Qed.

Lemma format_currency_groups_witness :
  format_currency (PFloat (dyadic 2469135 (-1))) = Returned "1 234 567 тг"
  /\ exists body,
       format_currency (PFloat (dyadic 2469135 (-1)))
       = Returned ("" ++ body ++ " тг")%string
       /\ without_spaces body = "1234567"
       /\ (forall i c, from_the_right body !! i = Some c ->
                       c = " "%char <-> (i mod 4 = 3)%nat)
       /\ (String.length body mod 4 <> 0)%nat.
Proof.
  split; [vm_compute; reflexivity|].
  destruct (format_currency_groups (PFloat (dyadic 2469135 (-1))))
    as (Hreturns & _).
  exact (Hreturns 1234567 eq_refl).
Defined.
